(** * TypeTrack: the active-time measurement engine of the content script

    A shallow embedding of the typing-speed meter (the second script of
    [src/popup/popup.js]: state, context detection, active-time helpers,
    keydown and paste handlers, stats snapshot, session persistence and the
    message listener), and the properties of its specification.

    Conventions of the embedding:
    - [Date.now()] is an explicit argument [now : Z] (milliseconds);
    - the page ([window.location], [document.activeElement], ...) is an
      explicit argument [pg : Page];
    - JS numbers that only ever hold integers are [Z]; the quotients of
      [getStats] are IEEE 754 binary64 numbers, divided and rounded as the
      source does;
    - a JS [TypeError] is the [Throw] of the error monad [Exc];
    - the module-level [let] variables are the fields of [State];
      [chrome.storage.local] is a [StorageArea]. *)

From Stdlib Require Import ZArith QArith Qpower Qround List Sorted String Ascii Bool.
From Stdlib Require Import Lia Lqa.
From Stdlib Require Import PrimFloat SpecFloat FloatOps.
From Stdlib Require DecimalString DecimalZ DecimalPos.
Import ListNotations.
Open Scope string_scope.
Open Scope Z_scope.

(** ** Exceptions *)

Inductive Exc (A : Type) : Type :=
| Ok (a : A)
| Throw.
Arguments Ok {A} a.
Arguments Throw {A}.

Definition bind {A B} (m : Exc A) (k : A -> Exc B) : Exc B :=
  match m with
  | Ok a => k a
  | Throw => Throw
  end.

Notation "x <- m ;; k" := (bind m (fun x => k))
  (at level 61, m at next level, right associativity).

(** ** Strings as the source uses them *)

Module JsString.

Definition lower_ascii (c : ascii) : ascii :=
  let n := nat_of_ascii c in
  if (65 <=? n)%nat && (n <=? 90)%nat then ascii_of_nat (n + 32) else c.

Fixpoint toLowerCase (s : string) : string :=
  match s with
  | EmptyString => EmptyString
  | String c r => String (lower_ascii c) (toLowerCase r)
  end.

Definition endsWith (s suffix : string) : bool :=
  (String.length suffix <=? String.length s)%nat
  && String.eqb
       (substring (String.length s - String.length suffix)
                  (String.length suffix) s)
       suffix.

(** [s.includes(pat)] on strings. *)
Fixpoint includes (pat s : string) : bool :=
  prefix pat s
  || match s with
     | EmptyString => false
     | String _ r => includes pat r
     end.

(** [arr.includes(x)] / [set.has(x)] on a list of strings. *)
Definition mem (x : string) (l : list string) : bool :=
  existsb (String.eqb x) l.

End JsString.

Arguments JsString.mem : simpl never.

(** ** The DOM, as far as the classifier reads it *)

Record Element := {
  node_id : nat;                    (* identity of the node, for [===] *)
  tagName : string;
  type : option string;             (* the [type] property; [None] is undefined *)
  isContentEditable : bool;
  role : option string;             (* [getAttribute('role')]; [None] is null *)
  closest_editable : bool           (* [closest('[contenteditable="true"]')] is non-null *)
}.

(** What an event's [target] (or any argument) can be. *)
Inductive Target :=
| TNull
| TUndefined
| TNode (id : nat)                  (* a node that is no Element: document, text node *)
| TElement (e : Element).

Definition truthy (t : Target) : bool :=
  match t with
  | TNull | TUndefined => false
  | _ => true
  end.

Definition instanceof_Element (t : Target) : bool :=
  match t with
  | TElement _ => true
  | _ => false
  end.

(** Property reads: on null and undefined they throw; on a node that is no
    Element the Element properties are undefined ([None]). *)
Definition get_tagName (t : Target) : Exc (option string) :=
  match t with
  | TNull | TUndefined => Throw
  | TNode _ => Ok None
  | TElement e => Ok (Some (tagName e))
  end.

Definition get_type (t : Target) : Exc (option string) :=
  match t with
  | TNull | TUndefined => Throw
  | TNode _ => Ok None
  | TElement e => Ok (type e)
  end.

Definition get_isContentEditable (t : Target) : Exc bool :=
  match t with
  | TNull | TUndefined => Throw
  | TNode _ => Ok false
  | TElement e => Ok (isContentEditable e)
  end.

(** [target.getAttribute('role')]: not a function on a non-Element. *)
Definition getAttribute_role (t : Target) : Exc (option string) :=
  match t with
  | TElement e => Ok (role e)
  | _ => Throw
  end.

(** [target.closest?.('[contenteditable="true"]')], as a truth value. *)
Definition closest_contenteditable (t : Target) : Exc bool :=
  match t with
  | TNull | TUndefined => Throw
  | TNode _ => Ok false
  | TElement e => Ok (closest_editable e)
  end.

Definition opt_eqb (o : option string) (s : string) : bool :=
  match o with
  | Some x => String.eqb x s
  | None => false
  end.

(** [x || 'text'] on an optional string: undefined and the empty string are
    falsy. *)
Definition or_default (o : option string) (d : string) : string :=
  match o with
  | Some EmptyString | None => d
  | Some x => x
  end.

Definition INPUT_TYPES : list string :=
  ["text"; "password"; "email"; "search"; "url"; "tel"; "number"].

(** ** Context detection *)

Definition isTypingContext (target : Target) : Exc bool :=
  if negb (truthy target) || negb (instanceof_Element target) then Ok false
  else
    tag <- get_tagName target ;;
    if opt_eqb tag "TEXTAREA" then Ok true
    else if opt_eqb tag "INPUT" then
      ty <- get_type target ;;
      Ok (JsString.mem (JsString.toLowerCase (or_default ty "text")) INPUT_TYPES)
    else
      ce <- get_isContentEditable target ;;
      if ce then Ok true
      else
        r <- getAttribute_role target ;;
        if opt_eqb r "textbox" || opt_eqb r "combobox" then Ok true
        else
          cl <- closest_contenteditable target ;;
          if cl then Ok true else Ok false.

Record Page := {
  hostname : string;                (* window.location.hostname *)
  pathname : string;                (* window.location.pathname *)
  activeElement : option Element;   (* document.activeElement *)
  body : option Element;            (* document.body *)
  documentElement : option Element  (* document.documentElement *)
}.

Definition target_of (o : option Element) : Target :=
  match o with
  | Some e => TElement e
  | None => TNull
  end.

(** [a !== b] where [a] is an element and [b] an element or null. *)
Definition differs (a : Element) (b : option Element) : bool :=
  match b with
  | Some e => negb (Nat.eqb (node_id a) (node_id e))
  | None => true
  end.

(** The test of [/\/(document|spreadsheets|presentation|forms)\//]. *)
Definition editor_path (p : string) : bool :=
  JsString.includes "/document/" p
  || JsString.includes "/spreadsheets/" p
  || JsString.includes "/presentation/" p
  || JsString.includes "/forms/" p.

Definition isGoogleDocsActive (pg : Page) : bool :=
  if negb (JsString.endsWith (hostname pg) "google.com") then false
  else if negb (editor_path (pathname pg)) then false
  else
    match activeElement pg with
    | Some active => differs active (body pg) && differs active (documentElement pg)
    | None => false
    end.

Record KeyboardEvent := {
  key : string;
  repeat : bool;
  ctrlKey : bool;
  metaKey : bool;
  target : Target
}.

Definition isShortcut (e : KeyboardEvent) : bool :=
  ctrlKey e || metaKey e.

Definition IGNORED_KEYS : list string :=
  ["Shift"; "Control"; "Alt"; "Meta"; "CapsLock"; "Tab"; "Escape";
   "ArrowUp"; "ArrowDown"; "ArrowLeft"; "ArrowRight";
   "Home"; "End"; "PageUp"; "PageDown"; "Insert"; "PrintScreen";
   "ScrollLock"; "Pause"; "ContextMenu"; "Dead"; "Unidentified";
   "F1"; "F2"; "F3"; "F4"; "F5"; "F6"; "F7"; "F8"; "F9"; "F10"; "F11"; "F12"].

(** ** State: the module-level variables of the content script *)

Record State := {
  isActive : bool;
  startTime : option Z;             (* wall-clock time of the first keystroke *)
  stopTime : option Z;              (* wall-clock time measurement was stopped *)
  totalChars : Z;
  backspaces : Z;
  pastedChars : Z;
  peakWpm : Z;
  accumulatedActiveMs : Z;          (* ms from fully completed active bursts *)
  burstStart : option Z;            (* start of the current burst; None when idle *)
  idleTimer : option Z;             (* the pending timeout, by its due time *)
  broadcastTimer : bool;            (* the 250 ms interval is armed *)
  overlay : bool;                   (* [overlay] holds the widget element *)
  iframeObserver : bool             (* a MutationObserver is held *)
}.

Definition IDLE_THRESHOLD_MS : Z := 2000.

(** The values of the [let] declarations at script load. *)
Definition initial : State :=
  {| isActive := false; startTime := None; stopTime := None;
     totalChars := 0; backspaces := 0; pastedChars := 0; peakWpm := 0;
     accumulatedActiveMs := 0; burstStart := None; idleTimer := None;
     broadcastTimer := false; overlay := false; iframeObserver := false |}.

Definition set_startTime (v : option Z) (s : State) : State :=
  {| isActive := isActive s; startTime := v; stopTime := stopTime s;
     totalChars := totalChars s; backspaces := backspaces s;
     pastedChars := pastedChars s; peakWpm := peakWpm s;
     accumulatedActiveMs := accumulatedActiveMs s; burstStart := burstStart s;
     idleTimer := idleTimer s; broadcastTimer := broadcastTimer s;
     overlay := overlay s; iframeObserver := iframeObserver s |}.

Definition set_totalChars (v : Z) (s : State) : State :=
  {| isActive := isActive s; startTime := startTime s; stopTime := stopTime s;
     totalChars := v; backspaces := backspaces s;
     pastedChars := pastedChars s; peakWpm := peakWpm s;
     accumulatedActiveMs := accumulatedActiveMs s; burstStart := burstStart s;
     idleTimer := idleTimer s; broadcastTimer := broadcastTimer s;
     overlay := overlay s; iframeObserver := iframeObserver s |}.

Definition set_backspaces (v : Z) (s : State) : State :=
  {| isActive := isActive s; startTime := startTime s; stopTime := stopTime s;
     totalChars := totalChars s; backspaces := v;
     pastedChars := pastedChars s; peakWpm := peakWpm s;
     accumulatedActiveMs := accumulatedActiveMs s; burstStart := burstStart s;
     idleTimer := idleTimer s; broadcastTimer := broadcastTimer s;
     overlay := overlay s; iframeObserver := iframeObserver s |}.

Definition set_pastedChars (v : Z) (s : State) : State :=
  {| isActive := isActive s; startTime := startTime s; stopTime := stopTime s;
     totalChars := totalChars s; backspaces := backspaces s;
     pastedChars := v; peakWpm := peakWpm s;
     accumulatedActiveMs := accumulatedActiveMs s; burstStart := burstStart s;
     idleTimer := idleTimer s; broadcastTimer := broadcastTimer s;
     overlay := overlay s; iframeObserver := iframeObserver s |}.

Definition set_peakWpm (v : Z) (s : State) : State :=
  {| isActive := isActive s; startTime := startTime s; stopTime := stopTime s;
     totalChars := totalChars s; backspaces := backspaces s;
     pastedChars := pastedChars s; peakWpm := v;
     accumulatedActiveMs := accumulatedActiveMs s; burstStart := burstStart s;
     idleTimer := idleTimer s; broadcastTimer := broadcastTimer s;
     overlay := overlay s; iframeObserver := iframeObserver s |}.

Definition set_accumulatedActiveMs (v : Z) (s : State) : State :=
  {| isActive := isActive s; startTime := startTime s; stopTime := stopTime s;
     totalChars := totalChars s; backspaces := backspaces s;
     pastedChars := pastedChars s; peakWpm := peakWpm s;
     accumulatedActiveMs := v; burstStart := burstStart s;
     idleTimer := idleTimer s; broadcastTimer := broadcastTimer s;
     overlay := overlay s; iframeObserver := iframeObserver s |}.

Definition set_burstStart (v : option Z) (s : State) : State :=
  {| isActive := isActive s; startTime := startTime s; stopTime := stopTime s;
     totalChars := totalChars s; backspaces := backspaces s;
     pastedChars := pastedChars s; peakWpm := peakWpm s;
     accumulatedActiveMs := accumulatedActiveMs s; burstStart := v;
     idleTimer := idleTimer s; broadcastTimer := broadcastTimer s;
     overlay := overlay s; iframeObserver := iframeObserver s |}.

Definition set_idleTimer (v : option Z) (s : State) : State :=
  {| isActive := isActive s; startTime := startTime s; stopTime := stopTime s;
     totalChars := totalChars s; backspaces := backspaces s;
     pastedChars := pastedChars s; peakWpm := peakWpm s;
     accumulatedActiveMs := accumulatedActiveMs s; burstStart := burstStart s;
     idleTimer := v; broadcastTimer := broadcastTimer s;
     overlay := overlay s; iframeObserver := iframeObserver s |}.

(** A timestamp used as a condition: null and 0 are falsy. *)
Definition truthy_time (o : option Z) : bool :=
  match o with
  | Some t => negb (t =? 0)
  | None => false
  end.

(** ** Active-time helpers *)

(** Called when the 2 s idle timer fires. *)
Definition onIdle (now : Z) (s : State) : State :=
  let s1 :=
    match burstStart s with
    | Some b =>
        set_burstStart None
          (set_accumulatedActiveMs (accumulatedActiveMs s + (now - b)) s)
    | None => s
    end in
  set_idleTimer None s1.

Definition getActiveTimeMs (now : Z) (s : State) : Z :=
  match burstStart s with
  | Some b => accumulatedActiveMs s + (now - b)
  | None => accumulatedActiveMs s
  end.

(** [clearTimeout(idleTimer); idleTimer = setTimeout(onIdle, 2000)]. *)
Definition resetIdleTimer (now : Z) (s : State) : State :=
  set_idleTimer (Some (now + IDLE_THRESHOLD_MS)) s.

(** ** Keydown handler *)

(** The [if (!startTime) ... else if (burstStart === null) ...] of the
    printable branch. *)
Definition mark_burst (now : Z) (s : State) : State :=
  if negb (truthy_time (startTime s))
  then set_burstStart (Some now) (set_startTime (Some now) s)
  else match burstStart s with
       | None => set_burstStart (Some now) s
       | Some _ => s
       end.

(** The body of [handleKeyDown] below the context test: the ignore set, the
    shortcut test, the deletion branch and the printable branch. *)
Definition key_effect (now : Z) (event : KeyboardEvent) (s : State) : State :=
  if JsString.mem (key event) IGNORED_KEYS then s
  else if isShortcut event then s
  else if String.eqb (key event) "Backspace" || String.eqb (key event) "Delete"
  then resetIdleTimer now (set_backspaces (backspaces s + 1) s)
  else if (String.length (key event) =? 1)%nat || String.eqb (key event) "Enter"
  then
    let s1 := mark_burst now s in
    resetIdleTimer now (set_totalChars (totalChars s1 + 1) s1)
  else s.

Definition handleKeyDown (now : Z) (pg : Page) (event : KeyboardEvent)
    (s : State) : Exc State :=
  if negb (isActive s) then Ok s
  else if repeat event then Ok s
  else
    direct <- isTypingContext (target event) ;;
    let typingTarget :=
      if direct then target event else target_of (activeElement pg) in
    typing <- isTypingContext typingTarget ;;
    if negb typing && negb (isGoogleDocsActive pg) then Ok s
    else Ok (key_effect now event s).

(** ** Paste handler *)

Record ClipboardEvent := {
  paste_target : Target;
  clipboardData : option string     (* [None]: no clipboardData; else getData('text') *)
}.

Definition clipboard_text (event : ClipboardEvent) : string :=
  match clipboardData event with
  | Some t => t
  | None => ""
  end.

(** The body of [handlePaste] below the context test. *)
Definition paste_effect (now : Z) (event : ClipboardEvent) (s : State) : State :=
  let text := clipboard_text event in
  if 0 <? Z.of_nat (String.length text)
  then resetIdleTimer now
         (set_pastedChars (pastedChars s + Z.of_nat (String.length text)) s)
  else s.

Definition handlePaste (now : Z) (pg : Page) (event : ClipboardEvent)
    (s : State) : Exc State :=
  if negb (isActive s) then Ok s
  else
    direct <- isTypingContext (paste_target event) ;;
    let tgt :=
      if direct then paste_target event else target_of (activeElement pg) in
    typing <- isTypingContext tgt ;;
    if negb typing && negb (isGoogleDocsActive pg) then Ok s
    else Ok (paste_effect now event s).

(** ** Stats snapshot *)

Record Stats := {
  st_isActive : bool;
  wpm : Z;
  cpm : Z;
  st_totalChars : Z;
  st_backspaces : Z;
  st_pastedChars : Z;
  elapsedTime : Z;
  activeTime : Z;
  st_peakWpm : Z;
  hasData : bool
}.

(** The quotients of [getStats] are JS numbers: IEEE 754 binary64, every
    division rounded to nearest, ties to even. They are computed on the
    bit-level description of binary64 of the standard library ([spec_float]
    with precision 53 and maximal exponent 1024). *)

(** An integer as a JS number. *)
Definition Number_of_Z (z : Z) : spec_float := binary_normalize 53 1024 z 0 false.

(** [x / y] *)
Definition Number_div (x y : spec_float) : spec_float := SFdiv 53 1024 x y.

(** [x > 0], false of NaN. *)
Definition Number_positive (x : spec_float) : bool := SFltb (S754_zero false) x.

(** [Math.round]: the nearest integer, halves towards plus infinity, that is
    the floor of [x + 1/2] taken exactly; a zero of either sign gives 0. NaN
    and the infinities are their own rounding in the source and have no
    integer value; they read 0 here. The quotients that [getStats] rounds
    are none of them as long as doubles hold the counter and the active
    milliseconds exactly ([speed_quotients_finite]). *)
Definition Math_round (x : spec_float) : Z :=
  match x with
  | S754_finite s m e =>
      let v := if s then Z.neg m else Z.pos m in
      if 0 <=? e then v * 2 ^ e
      else (2 * v + 2 ^ (- e)) / 2 ^ (1 - e)
  | _ => 0
  end.

Arguments Number_of_Z : simpl never.
Arguments Number_div : simpl never.
Arguments Math_round : simpl never.

Definition getStats (now : Z) (s : State) : Stats * State :=
  let activeMs := getActiveTimeMs now s in
  let activeMins := Number_div (Number_of_Z activeMs) (Number_of_Z 60000) in
  let wpm_ :=
    if Number_positive activeMins
    then Math_round (Number_div (Number_div (Number_of_Z (totalChars s))
                                            (Number_of_Z 5)) activeMins)
    else 0 in
  let cpm_ :=
    if Number_positive activeMins
    then Math_round (Number_div (Number_of_Z (totalChars s)) activeMins)
    else 0 in
  let s1 := if peakWpm s <? wpm_ then set_peakWpm wpm_ s else s in
  let wallElapsed :=
    match startTime s1 with
    | Some st =>
        if truthy_time (startTime s1) then
          let end_ :=
            if isActive s1 then now
            else match stopTime s1 with Some e => e | None => now end in
          (end_ - st) / 1000
        else 0
    | None => 0
    end in
  ({| st_isActive := isActive s1;
      wpm := wpm_;
      cpm := cpm_;
      st_totalChars := totalChars s1;
      st_backspaces := backspaces s1;
      st_pastedChars := pastedChars s1;
      elapsedTime := wallElapsed;
      activeTime := activeMs / 1000;
      st_peakWpm := peakWpm s1;
      hasData := match startTime s1 with Some _ => true | None => false end |},
   s1).

Arguments getStats : simpl never.

(** The two quotients of [getStats] on the machine's doubles, before
    [Math.round]. *)
Definition wpm_double (totalChars activeMs : PrimFloat.float) : PrimFloat.float :=
  let activeMins := PrimFloat.div activeMs 60000%float in
  PrimFloat.div (PrimFloat.div totalChars 5%float) activeMins.

Definition cpm_double (totalChars activeMs : PrimFloat.float) : PrimFloat.float :=
  let activeMins := PrimFloat.div activeMs 60000%float in
  PrimFloat.div totalChars activeMins.

(** ** Session persistence *)

Record Session := {
  id : Z;
  timestamp : Z;                    (* the instant that [toISOString] prints *)
  domain : string;
  duration : Z;                     (* active typing seconds *)
  avgWPM : Z;
  avgCPM : Z;
  sess_totalChars : Z;
  sess_backspaces : Z;
  sess_pastedChars : Z
}.

(** [chrome.storage.local], as far as the key ['sessions'] goes: the stored
    list ([None]: the key is absent) and whether its promises resolve. *)
Record StorageArea := {
  sessions : option (list Session);
  resolves : bool
}.

Definition storage_get (a : StorageArea) : Exc (option (list Session)) :=
  if resolves a then Ok (sessions a) else Throw.

Definition storage_set (l : list Session) (a : StorageArea) : Exc StorageArea :=
  if resolves a then Ok {| sessions := Some l; resolves := true |} else Throw.

(** [hostname || 'unknown'] *)
Definition or_unknown (h : string) : string :=
  match h with
  | EmptyString => "unknown"
  | _ => h
  end.

(** The first half of [saveSession]: the early return and the object built. *)
Definition new_session (now : Z) (pg : Page) (stats : Stats) : option Session :=
  if st_totalChars stats =? 0 then None
  else Some {| id := now;
               timestamp := now;
               domain := or_unknown (hostname pg);
               duration := activeTime stats;
               avgWPM := wpm stats;
               avgCPM := cpm stats;
               sess_totalChars := st_totalChars stats;
               sess_backspaces := st_backspaces stats;
               sess_pastedChars := st_pastedChars stats |}.

(** [sessions.unshift(session); if (sessions.length > 10) sessions.length = 10] *)
Definition unshift_capped (session : Session) (l : list Session) : list Session :=
  let l1 := session :: l in
  if (10 <? Z.of_nat (List.length l1)) then firstn 10 l1 else l1.

(** The second half of [saveSession]: the [try] block; a rejected promise is
    caught and leaves the store as it was. *)
Definition append_session (session : Session) (a : StorageArea) : StorageArea :=
  let attempt :=
    got <- storage_get a ;;
    let l := match got with Some l => l | None => [] end in
    storage_set (unshift_capped session l) a in
  match attempt with
  | Ok a' => a'
  | Throw => a
  end.

Definition saveSession (now : Z) (pg : Page) (stats : Stats)
    (a : StorageArea) : StorageArea :=
  match new_session now pg stats with
  | None => a
  | Some session => append_session session a
  end.

(** ** Widget and frame coverage, as far as they can fail *)

(** [iframeObserver.observe(document.documentElement, ...)] needs a root. *)
Definition startIframeWatcher (pg : Page) (s : State) : Exc State :=
  match documentElement pg with
  | Some _ =>
      Ok {| isActive := isActive s; startTime := startTime s;
            stopTime := stopTime s; totalChars := totalChars s;
            backspaces := backspaces s; pastedChars := pastedChars s;
            peakWpm := peakWpm s; accumulatedActiveMs := accumulatedActiveMs s;
            burstStart := burstStart s; idleTimer := idleTimer s;
            broadcastTimer := broadcastTimer s; overlay := overlay s;
            iframeObserver := true |}
  | None => Throw
  end.

(** [document.body.appendChild(overlay)] needs a body. *)
Definition createOverlay (pg : Page) (s : State) : Exc State :=
  if overlay s then Ok s
  else
    match body pg with
    | Some _ =>
        Ok {| isActive := isActive s; startTime := startTime s;
              stopTime := stopTime s; totalChars := totalChars s;
              backspaces := backspaces s; pastedChars := pastedChars s;
              peakWpm := peakWpm s; accumulatedActiveMs := accumulatedActiveMs s;
              burstStart := burstStart s; idleTimer := idleTimer s;
              broadcastTimer := broadcastTimer s; overlay := true;
              iframeObserver := iframeObserver s |}
    | None => Throw
    end.

(** ** Message listener *)

Record World := {
  run : State;
  storage : StorageArea
}.

Definition with_run (s : State) (w : World) : World :=
  {| run := s; storage := storage w |}.

(** The assignments of the ['start'] case, up to [idleTimer = null]. *)
Definition start_reset (s : State) : State :=
  {| isActive := true; startTime := None; stopTime := None;
     totalChars := 0; backspaces := 0; pastedChars := 0; peakWpm := 0;
     accumulatedActiveMs := 0; burstStart := None; idleTimer := None;
     broadcastTimer := broadcastTimer s; overlay := overlay s;
     iframeObserver := iframeObserver s |}.

Definition arm_broadcast (s : State) : State :=
  {| isActive := isActive s; startTime := startTime s; stopTime := stopTime s;
     totalChars := totalChars s; backspaces := backspaces s;
     pastedChars := pastedChars s; peakWpm := peakWpm s;
     accumulatedActiveMs := accumulatedActiveMs s; burstStart := burstStart s;
     idleTimer := idleTimer s; broadcastTimer := true;
     overlay := overlay s; iframeObserver := iframeObserver s |}.

(** The ['stop'] case, up to [removeOverlay()]. *)
Definition stop_finalize (now : Z) (s : State) : State :=
  {| isActive := false;
     startTime := startTime s;
     stopTime := if truthy_time (startTime s) then Some now else None;
     totalChars := totalChars s; backspaces := backspaces s;
     pastedChars := pastedChars s; peakWpm := peakWpm s;
     accumulatedActiveMs :=
       match burstStart s with
       | Some b => accumulatedActiveMs s + (now - b)
       | None => accumulatedActiveMs s
       end;
     burstStart := None;
     idleTimer := None;               (* clearTimeout(idleTimer); idleTimer = null *)
     broadcastTimer := false;         (* clearInterval(broadcastTimer) *)
     overlay := false;                (* removeOverlay() *)
     iframeObserver := false          (* stopIframeWatcher() *) |}.

(** A command's effect and the snapshot it answers with. *)
Definition onMessage (now : Z) (pg : Page) (action : string) (w : World)
    : Exc (World * option Stats) :=
  if String.eqb action "start" then
    s1 <- startIframeWatcher pg (start_reset (run w)) ;;
    s2 <- createOverlay pg s1 ;;
    let snapshot := getStats now (arm_broadcast s2) in
    Ok (with_run (snd snapshot) w, Some (fst snapshot))
  else if String.eqb action "stop" then
    let snapshot := getStats now (stop_finalize now (run w)) in
    let finalStats := fst snapshot in
    Ok ({| run := snd snapshot;
           storage := saveSession now pg finalStats (storage w) |},
        Some finalStats)
  else if String.eqb action "getStats" then
    let snapshot := getStats now (run w) in
    Ok (with_run (snd snapshot) w, Some (fst snapshot))
  else Ok (w, None).

(** ** The event loop *)

Inductive Event :=
| KeyDown (e : KeyboardEvent)
| Paste (e : ClipboardEvent)
| IdleTimeout                       (* the pending timeout runs [onIdle] *)
| BroadcastTick                     (* the interval runs [broadcastStats] *)
| Message (action : string).

Definition step (now : Z) (pg : Page) (ev : Event) (w : World)
    : Exc (World * option Stats) :=
  match ev with
  | KeyDown e =>
      s <- handleKeyDown now pg e (run w) ;; Ok (with_run s w, None)
  | Paste e =>
      s <- handlePaste now pg e (run w) ;; Ok (with_run s w, None)
  | IdleTimeout =>
      match idleTimer (run w) with
      | Some due =>
          if due <=? now then Ok (with_run (onIdle now (run w)) w, None)
          else Ok (w, None)
      | None => Ok (w, None)
      end
  | BroadcastTick =>
      if broadcastTimer (run w) then
        let snapshot := getStats now (run w) in
        Ok (with_run (snd snapshot) w, Some (fst snapshot))
      else Ok (w, None)
  | Message action => onMessage now pg action w
  end.

(** What a ['start'] that throws leaves behind. The assignments of the case
    are done; [startIframeWatcher] has assigned [iframeObserver] when
    [observe] throws on a document without root element; after it
    [createOverlay] has assigned [overlay] when [appendChild] throws on a
    document without body; [setInterval] is not reached, so [broadcastTimer]
    is what it was. *)
Definition start_interrupted (pg : Page) (s : State) : State :=
  let s0 := start_reset s in
  {| isActive := isActive s0; startTime := startTime s0;
     stopTime := stopTime s0; totalChars := totalChars s0;
     backspaces := backspaces s0; pastedChars := pastedChars s0;
     peakWpm := peakWpm s0; accumulatedActiveMs := accumulatedActiveMs s0;
     burstStart := burstStart s0; idleTimer := idleTimer s0;
     broadcastTimer := broadcastTimer s0;
     overlay := match documentElement pg with
                | Some _ => true
                | None => overlay s0
                end;
     iframeObserver := true |}.

(** The world a handler that throws leaves behind; the script goes on from
    there with the next event. Only ['start'] throws. *)
Definition interrupted (pg : Page) (ev : Event) (w : World) : World :=
  match ev with
  | Message action =>
      if String.eqb action "start"
      then with_run (start_interrupted pg (run w)) w
      else w
  | _ => w
  end.

Record Occurrence := {
  at_time : Z;
  on_page : Page;
  what : Event
}.

Definition emitted (o : option Stats) : list Stats :=
  match o with
  | Some st => [st]
  | None => []
  end.

(** Running a trace: the final world and the snapshots sent, in order. *)
Fixpoint run_trace (tr : list Occurrence) (w : World) : Exc (World * list Stats) :=
  match tr with
  | [] => Ok (w, [])
  | o :: rest =>
      r <- step (at_time o) (on_page o) (what o) w ;;
      r' <- run_trace rest (fst r) ;;
      Ok (fst r', (emitted (snd r) ++ snd r')%list)
  end.

Definition boot : World :=
  {| run := initial; storage := {| sessions := None; resolves := true |} |}.

(** ** The specification's vocabulary *)

(** The classifier as the specification words it: a union of four kinds of
    element. *)
Definition is_textarea (e : Element) : bool := String.eqb (tagName e) "TEXTAREA".

Definition is_input (e : Element) : bool := String.eqb (tagName e) "INPUT".

Definition allowed_input (e : Element) : bool :=
  is_input e
  && JsString.mem (JsString.toLowerCase (or_default (type e) "text")) INPUT_TYPES.

Definition editable_or_inside (e : Element) : bool :=
  isContentEditable e || closest_editable e.

Definition textbox_role (e : Element) : bool :=
  opt_eqb (role e) "textbox" || opt_eqb (role e) "combobox".

Definition claimed_typing_context (t : Target) : bool :=
  match t with
  | TElement e =>
      is_textarea e || allowed_input e || editable_or_inside e || textbox_role e
  | _ => false
  end.

(** The same union with the last two kinds kept to elements that are not
    [INPUT]s: an input is judged by its type alone. *)
Definition typing_surface (t : Target) : bool :=
  match t with
  | TElement e =>
      is_textarea e
      || allowed_input e
      || (negb (is_input e) && (editable_or_inside e || textbox_role e))
  | _ => false
  end.

(** Eligibility of an event dispatched to [t] on page [pg] (section 4.2). *)
Definition eligible (pg : Page) (t : Target) : bool :=
  typing_surface t
  || typing_surface (target_of (activeElement pg))
  || isGoogleDocsActive pg.

(** The Event Filter's verdict on a key (section 4.3, rules 4 to 8). *)
Inductive KeyClass := Ignored | Deletion | Countable.

Definition classify_key (e : KeyboardEvent) : KeyClass :=
  if JsString.mem (key e) IGNORED_KEYS then Ignored
  else if isShortcut e then Ignored
  else if String.eqb (key e) "Backspace" || String.eqb (key e) "Delete" then Deletion
  else if (String.length (key e) =? 1)%nat || String.eqb (key e) "Enter" then Countable
  else Ignored.

(** Rules 2 and 3: not an auto-repeat, and in an editable surface. *)
Definition accepted (pg : Page) (e : KeyboardEvent) : bool :=
  negb (repeat e) && eligible pg (target e).

(** ** Sample page and events *)

Module Sample.

Definition el (n : nat) (tag : string) : Element :=
  {| node_id := n; tagName := tag; type := None; isContentEditable := false;
     role := None; closest_editable := false |}.

Definition textarea : Element := el 3 "TEXTAREA".

(** <input type="checkbox" role="textbox"> *)
Definition checkbox_textbox : Element :=
  {| node_id := 4; tagName := "INPUT"; type := Some "checkbox";
     isContentEditable := false; role := Some "textbox";
     closest_editable := false |}.

Definition page : Page :=
  {| hostname := "example.org"; pathname := "/";
     activeElement := Some textarea;
     body := Some (el 1 "BODY"); documentElement := Some (el 0 "HTML") |}.

Definition press (k : string) : KeyboardEvent :=
  {| key := k; repeat := false; ctrlKey := false; metaKey := false;
     target := TElement textarea |}.

Definition at_ (t : Z) (e : Event) : Occurrence :=
  {| at_time := t; on_page := page; what := e |}.

Definition paste (txt : option string) : ClipboardEvent :=
  {| paste_target := TElement textarea; clipboardData := txt |}.

(** The run state right after a ['start'] command on [page]. *)
Definition running : State :=
  {| isActive := true; startTime := None; stopTime := None;
     totalChars := 0; backspaces := 0; pastedChars := 0; peakWpm := 0;
     accumulatedActiveMs := 0; burstStart := None; idleTimer := None;
     broadcastTimer := true; overlay := true; iframeObserver := true |}.

(** A document editor with focus on [focus]. *)
Definition docs_page (focus : option Element) : Page :=
  {| hostname := "docs.google.com"; pathname := "/document/d/1a2b/edit";
     activeElement := focus;
     body := Some (el 1 "BODY"); documentElement := Some (el 0 "HTML") |}.

(** A document with a root element and no body. *)
Definition bodiless : Page :=
  {| hostname := "example.org"; pathname := "/"; activeElement := None;
     body := None; documentElement := Some (el 0 "HTML") |}.

(** A stored session created at instant [t]. *)
Definition session (t : Z) : Session :=
  {| id := t; timestamp := t; domain := "example.org"; duration := 3;
     avgWPM := 100; avgCPM := 500; sess_totalChars := 25;
     sess_backspaces := 0; sess_pastedChars := 0 |}.

End Sample.

(** ** Reachable worlds and their invariant *)

(** Worlds the script can be in: from load, by events handled at instants
    after the epoch, whether the handler returns or throws. *)
Inductive reachable : World -> Prop :=
| reach_boot (a : StorageArea) :
    reachable {| run := initial; storage := a |}
| reach_step (now : Z) (pg : Page) (ev : Event) (w w' : World) (o : option Stats) :
    reachable w -> 0 < now -> step now pg ev w = Ok (w', o) -> reachable w'
| reach_throw (now : Z) (pg : Page) (ev : Event) (w : World) :
    reachable w -> 0 < now -> step now pg ev w = Throw ->
    reachable (interrupted pg ev w).

Record Inv (s : State) : Prop := {
  inv_chars : 0 <= totalChars s;
  inv_backspaces : 0 <= backspaces s;
  inv_pasted : 0 <= pastedChars s;
  inv_burst : burstStart s <> None ->
              truthy_time (startTime s) = true /\ isActive s = true;
  inv_timer : isActive s = false -> idleTimer s = None
}.

Ltac inv_fields :=
  constructor; simpl; intros; try lia; try congruence; auto.

(** ** Scenarios *)

(** Twenty-five printable keys, 125 ms apart, from 1000 ms to 4000 ms: three
    seconds of typing with no idle gap, then a query at the last keystroke. *)
Definition twenty_five_keys : list Occurrence :=
  map (fun i => Sample.at_ (1000 + 125 * Z.of_nat i) (KeyDown (Sample.press "x")))
      (seq 0 25).

Definition scenario_25_in_3s : list Occurrence :=
  (Sample.at_ 500 (Message "start") :: twenty_five_keys
   ++ [Sample.at_ 4000 (Message "getStats")])%list.

(** Keys at 1000 and 1500, a pause of 3000 ms, keys at 4500 and 5000. *)
Definition two_bursts : list Occurrence :=
  [Sample.at_ 1000 (KeyDown (Sample.press "a"));
   Sample.at_ 1500 (KeyDown (Sample.press "b"));
   Sample.at_ 4500 (KeyDown (Sample.press "c"));
   Sample.at_ 5000 (KeyDown (Sample.press "d"))].

(** ** Peak WPM *)

(** [l] never goes down, and starts at [lo] or above. *)
Fixpoint nondecreasing_from (lo : Z) (l : list Z) : Prop :=
  match l with
  | [] => True
  | x :: r => lo <= x /\ nondecreasing_from x r
  end.

Definition within_run (tr : list Occurrence) : Prop :=
  Forall (fun o => what o <> Message "start") tr.

(** ** The bounded history *)

Definition newest_first (l : list Session) : Prop :=
  StronglySorted (fun a b => id b <= id a) l.

Definition history_bounded (w : World) : Prop :=
  match sessions (storage w) with
  | Some l => (List.length l <= 10)%nat
  | None => True
  end.

(** ** Countable characters of a run and the session of a stop *)

(** The occurrence is a key event that the filter counts as a character. *)
Definition counts (o : Occurrence) : bool :=
  match what o with
  | KeyDown e =>
      accepted (on_page o) e
      && match classify_key e with Countable => true | _ => false end
  | _ => false
  end.

Definition typed_chars (tr : list Occurrence) : Z :=
  Z.of_nat (List.length (filter counts tr)).

(** Events between a ['start'] and the next ['stop']. *)
Definition inside_run (tr : list Occurrence) : Prop :=
  Forall (fun o => what o <> Message "start" /\ what o <> Message "stop") tr.

(** ** Bursts, the idle timer and the active time *)

(** Timers that run on time: before an event at [now] is handled, a pending
    idle timeout that is due by then has run, at its due time. *)
Definition fire_due (now : Z) (w : World) : World :=
  match idleTimer (run w) with
  | Some due => if due <=? now then with_run (onIdle due (run w)) w else w
  | None => w
  end.

Fixpoint run_on_time (tr : list Occurrence) (w : World) : Exc (World * list Stats) :=
  match tr with
  | [] => Ok (w, [])
  | o :: rest =>
      r <- step (at_time o) (on_page o) (what o) (fire_due (at_time o) w) ;;
      r' <- run_on_time rest (fst r) ;;
      Ok (fst r', (emitted (snd r) ++ snd r')%list)
  end.

(** [getActiveTimeMs()] called at [now]. *)
Definition active_ms_at (now : Z) (w : World) : Z :=
  getActiveTimeMs now (run (fire_due now w)).

(** Instants that follow [t], each less than the idle threshold after the
    one before. *)
Fixpoint spaced (t : Z) (ts : list Z) : Prop :=
  match ts with
  | [] => True
  | u :: r => t <= u < t + IDLE_THRESHOLD_MS /\ spaced u r
  end.

Definition all_count (tr : list Occurrence) : Prop :=
  Forall (fun o => counts o = true) tr.

(** ** Time-ordered traces and what the clock keeps *)

(** The instants of [tr] never go back, starting from [t]. *)
Fixpoint ordered (t : Z) (tr : list Occurrence) : Prop :=
  match tr with
  | [] => True
  | o :: r => t <= at_time o /\ ordered (at_time o) r
  end.



(** What every reachable run state keeps, whatever the instants of the
    events: the start time is set exactly when a character has been counted;
    an open burst belongs to an active, started run and has its idle timeout
    pending; the broadcast interval is armed only while the run is active,
    the frame observer is held exactly then, and no idle timeout is pending
    outside a run. *)
Definition Coherent (s : State) : Prop :=
  0 <= totalChars s
  /\ (startTime s = None <-> totalChars s = 0)
  /\ (burstStart s <> None ->
      idleTimer s <> None /\ startTime s <> None /\ isActive s = true)
  /\ (isActive s = false -> idleTimer s = None)
  /\ (broadcastTimer s = true -> isActive s = true)
  /\ iframeObserver s = isActive s.

(** ** Tallies of a trace *)

(** The occurrence is a key event that the filter counts as a deletion. *)
Definition deletes (o : Occurrence) : bool :=
  match what o with
  | KeyDown e =>
      accepted (on_page o) e
      && match classify_key e with Deletion => true | _ => false end
  | _ => false
  end.

(** The length of the text of an eligible paste, zero for anything else. *)
Definition pasted (o : Occurrence) : Z :=
  match what o with
  | Paste e =>
      if eligible (on_page o) (paste_target e)
      then Z.of_nat (String.length (clipboard_text e))
      else 0
  | _ => 0
  end.

Definition deleted_keys (tr : list Occurrence) : Z :=
  Z.of_nat (List.length (filter deletes tr)).

Definition pasted_chars (tr : list Occurrence) : Z :=
  fold_right (fun o n => pasted o + n) 0 tr.

(** Input that is not typing: an auto-repeat, a key outside an editable
    surface, a key the filter ignores (modifier, navigation, shortcut, any
    other named key), a paste outside an editable surface or without text. *)
Definition inert (o : Occurrence) : bool :=
  match what o with
  | KeyDown e =>
      negb (accepted (on_page o) e)
      || match classify_key e with Ignored => true | _ => false end
  | Paste e =>
      negb (eligible (on_page o) (paste_target e))
      || (String.length (clipboard_text e) =? 0)%nat
  | _ => false
  end.

(** The run states of two outcomes agree, and so do the snapshots sent. *)
Definition same_run (r1 r2 : Exc (World * list Stats)) : Prop :=
  match r1, r2 with
  | Ok (w1, out1), Ok (w2, out2) => run w1 = run w2 /\ out1 = out2
  | Throw, Throw => True
  | _, _ => False
  end.

(** ** The popup: helpers *)

(** [s.replace(/c/g, by)] for a one-character pattern. *)
Fixpoint replace_char (c : ascii) (by_ : string) (s : string) : string :=
  match s with
  | EmptyString => EmptyString
  | String a r =>
      if Ascii.eqb a c then (by_ ++ replace_char c by_ r)%string
      else String a (replace_char c by_ r)
  end.

Definition escapeHtml (str : string) : string :=
  replace_char ">" "&gt;" (replace_char "<" "&lt;" (replace_char "&" "&amp;" str)).

(** The entity, or the character itself, that stands for [c]. *)
Definition escape_char (c : ascii) : string :=
  if Ascii.eqb c "&" then "&amp;"
  else if Ascii.eqb c "<" then "&lt;"
  else if Ascii.eqb c ">" then "&gt;"
  else String c EmptyString.

(** Escaping in one pass, character by character. *)
Fixpoint escape_each (s : string) : string :=
  match s with
  | EmptyString => EmptyString
  | String c r => (escape_char c ++ escape_each r)%string
  end.

(** The character [c] occurs in [s]. *)
Fixpoint occurs (c : ascii) (s : string) : bool :=
  match s with
  | EmptyString => false
  | String a r => Ascii.eqb a c || occurs c r
  end.

(** [Number.MAX_SAFE_INTEGER]: up to it, integers are exact and print with
    all their digits. *)
Definition MAX_SAFE_INTEGER : Z := 9007199254740991.

(** A number that holds an integer, as a string: its decimal digits (the
    exponent notation of JS starts far above [MAX_SAFE_INTEGER]). *)
Definition Number_toString (z : Z) : string :=
  DecimalString.NilZero.string_of_int (Z.to_int z).

Definition formatElapsed (secs : Z) : string :=
  if (secs =? 0) || (secs <? 1) then "0s"
  else if secs <? 60 then (Number_toString secs ++ "s")%string
  else
    let m := secs / 60 in
    let s := secs mod 60 in
    if 0 <? s
    then (Number_toString m ++ "m " ++ Number_toString s ++ "s")%string
    else (Number_toString m ++ "m")%string.

Definition is_digit (c : ascii) : bool := occurs c "0123456789".

(** ** The popup: the live panel *)

(** The text nodes that [updateStats] writes. *)
Record Display := {
  wpmValue : string;
  cpmValue : string;
  keystrokesVal : string;
  backspacesVal : string;
  pastedVal : string;
  peakVal : string;
  elapsedVal : string
}.

(** The em dash, U+2014, in UTF-8. *)
Definition dash : string :=
  String (ascii_of_nat 226) (String (ascii_of_nat 128)
    (String (ascii_of_nat 148) EmptyString)).

(** [updateStats(data)]; [None] is the null answer of a page without the
    content script. *)
Definition updateStats (data : option Stats) (d : Display) : Display :=
  match data with
  | None => d
  | Some data =>
      let hasTyped := hasData data || (0 <? st_totalChars data) in
      {| wpmValue := if hasTyped then Number_toString (wpm data) else dash;
         cpmValue := if hasTyped then Number_toString (cpm data) else dash;
         keystrokesVal := Number_toString (st_totalChars data);
         backspacesVal := Number_toString (st_backspaces data);
         pastedVal := Number_toString (st_pastedChars data);
         peakVal := if 0 <? st_peakWpm data
                    then Number_toString (st_peakWpm data) else dash;
         elapsedVal := formatElapsed (elapsedTime data) |}
  end.

(** ** Frame coverage *)

Module Frames.

(** An iframe element: its identity, and what reading its [contentDocument]
    gives: a document (by identity), null, or a security error. *)
Record Iframe := {
  frame_id : nat;
  contentDocument : Exc (option nat)
}.

Inductive EventType := Keydown | PasteEvent.

Definition same_type (a b : EventType) : bool :=
  match a, b with
  | Keydown, Keydown | PasteEvent, PasteEvent => true
  | _, _ => false
  end.

(** The engine's capture-phase listeners, by document and event type. *)
Definition Listeners := list (nat * EventType).

Definition has_listener (d : nat) (ty : EventType) (l : Listeners) : bool :=
  existsb (fun p => Nat.eqb (fst p) d && same_type (snd p) ty) l.

(** Adding the same listener with the same options twice adds it once. *)
Definition addEventListener (d : nat) (ty : EventType) (l : Listeners) : Listeners :=
  if has_listener d ty l then l else (d, ty) :: l.

Definition removeEventListener (d : nat) (ty : EventType) (l : Listeners)
    : Listeners :=
  filter (fun p => negb (Nat.eqb (fst p) d && same_type (snd p) ty)) l.

Definition attachToIframe (iframeEl : Iframe) (l : Listeners) : Listeners :=
  let attempt :=
    doc <- contentDocument iframeEl ;;
    match doc with
    | None => Ok l
    | Some d => Ok (addEventListener d PasteEvent (addEventListener d Keydown l))
    end in
  match attempt with
  | Ok l' => l'
  | Throw => l                      (* cross-origin: silently skipped *)
  end.

Definition detachFromIframe (iframeEl : Iframe) (l : Listeners) : Listeners :=
  let attempt :=
    doc <- contentDocument iframeEl ;;
    match doc with
    | None => Ok l
    | Some d => Ok (removeEventListener d PasteEvent (removeEventListener d Keydown l))
    end in
  match attempt with
  | Ok l' => l'
  | Throw => l
  end.

(** The listeners on frame documents, the load listeners put on frame
    elements (one entry per listener, by frame), and whether the mutation
    observer is connected. *)
Record Coverage := {
  listeners : Listeners;
  load_hooks : list nat;
  observing : bool
}.

(** [attachToIframe(f); f.addEventListener('load', () => attachToIframe(f))] *)
Definition watch (c : Coverage) (f : Iframe) : Coverage :=
  {| listeners := attachToIframe f (listeners c);
     load_hooks := frame_id f :: load_hooks c;
     observing := observing c |}.

(** [startIframeWatcher()], with [frames] what
    [document.querySelectorAll('iframe')] returns. *)
Definition startIframeWatcher (frames : list Iframe) (c : Coverage) : Coverage :=
  let c' := fold_left watch frames c in
  {| listeners := listeners c'; load_hooks := load_hooks c'; observing := true |}.

(** A node of a mutation record, as the observer's callback reads it: its
    name, itself as an iframe element, and the iframes inside it when it has
    [querySelectorAll] ([None] for a text node). *)
Record AddedNode := {
  nodeName : string;
  as_iframe : Iframe;
  inner_iframes : option (list Iframe)
}.

Definition on_added_node (c : Coverage) (node : AddedNode) : Coverage :=
  let c1 := if String.eqb (nodeName node) "IFRAME" then watch c (as_iframe node)
            else c in
  match inner_iframes node with
  | Some fs => fold_left watch fs c1
  | None => c1
  end.

(** The observer's callback on a list of mutation records; it runs only
    while the observer is connected. *)
Definition on_mutations (mutations : list (list AddedNode)) (c : Coverage)
    : Coverage :=
  if observing c
  then fold_left (fun c addedNodes => fold_left on_added_node addedNodes c)
         mutations c
  else c.

(** A load event on frame [f]: every load listener put on it runs. *)
Definition on_load (f : Iframe) (c : Coverage) : Coverage :=
  {| listeners :=
       fold_left (fun l id => if Nat.eqb id (frame_id f) then attachToIframe f l
                              else l)
         (load_hooks c) (listeners c);
     load_hooks := load_hooks c;
     observing := observing c |}.

(** [stopIframeWatcher()], with [frames] the iframes then in the document. *)
Definition stopIframeWatcher (frames : list Iframe) (c : Coverage) : Coverage :=
  {| listeners := fold_left (fun l f => detachFromIframe f l) frames (listeners c);
     load_hooks := load_hooks c;
     observing := false |}.

(** Reading the frame's document gives document [d]. *)
Definition shows (d : nat) (f : Iframe) : bool :=
  match contentDocument f with
  | Ok (Some d') => Nat.eqb d' d
  | _ => false
  end.

Definition no_coverage : Coverage :=
  {| listeners := []; load_hooks := []; observing := false |}.

End Frames.

(** The added node brings a frame that shows document [d]: itself when it
    is an [IFRAME], or one of the iframes inside it. *)
Definition brings (d : nat) (node : Frames.AddedNode) : bool :=
  (String.eqb (Frames.nodeName node) "IFRAME"
   && Frames.shows d (Frames.as_iframe node))
  || match Frames.inner_iframes node with
     | Some fs => existsb (Frames.shows d) fs
     | None => false
     end.

(** ** The on-page widget *)

(** The two numbers the widget shows. *)
Record OverlayText := {
  ov_w : string;
  ov_c : string
}.

(** [updateOverlay(stats)]; [None]: there is no widget. *)
Definition updateOverlay (stats : Stats) (o : option OverlayText)
    : option OverlayText :=
  match o with
  | None => None
  | Some _ =>
      Some {| ov_w := if hasData stats then Number_toString (wpm stats) else "0";
              ov_c := if hasData stats then Number_toString (cpm stats) else "0" |}
  end.

(** The stored history is ordered newest first and holds no session created
    after instant [t]. *)
Definition history_ordered (t : Z) (w : World) : Prop :=
  match sessions (storage w) with
  | Some l => newest_first l /\ Forall (fun x => id x <= t) l
  | None => True
  end.

(** ** Signs of numbers *)

(** [x] is NaN or carries the sign bit [s]. *)
Definition signed (s : bool) (x : spec_float) : Prop :=
  match x with
  | S754_nan => True
  | S754_zero s' | S754_infinity s' | S754_finite s' _ _ => s' = s
  end.

(** ** Numbers as rationals *)

(** The rational that a positive finite double with mantissa [m] and
    exponent [e] stands for. *)
Definition val (m : positive) (e : Z) : Q := inject_Z (Z.pos m) * 2 ^ e.

(** One unit in the last place of a normal double, relative to it: 2^-52. *)
Definition u52 : Q := 1 # 4503599627370496.

(** The formulas of the specification read in exact arithmetic:
    [round((chars/5)/activeMin)] and [round(chars/activeMin)] with
    [activeMin = ms/60000], no quotient rounded, and [round] the floor of
    [x + 1/2]. *)
Definition exact_round (x : Q) : Z := Qfloor (x + (1 # 2)).

Definition exact_wpm (chars ms : Z) : Z :=
  exact_round ((inject_Z chars / 5) / (inject_Z ms / 60000)).

Definition exact_cpm (chars ms : Z) : Z :=
  exact_round (inject_Z chars / (inject_Z ms / 60000)).

(** * Properties *)

(** ** The classifier *)

Lemma isTypingContext_surface (t : Target) :
  isTypingContext t = Ok (typing_surface t).
Proof.
  destruct t as [| | n | e]; try reflexivity.
  unfold isTypingContext, typing_surface, allowed_input, is_textarea, is_input,
    editable_or_inside, textbox_role.
  simpl.
  destruct (String.eqb (tagName e) "TEXTAREA") eqn:Ta; simpl; [reflexivity|].
  destruct (String.eqb (tagName e) "INPUT") eqn:Ti; simpl.
  - now rewrite orb_false_r.
  - destruct (isContentEditable e); simpl; [reflexivity|].
    destruct (opt_eqb (role e) "textbox" || opt_eqb (role e) "combobox") eqn:R;
      simpl.
    + now rewrite orb_true_r.
    + rewrite orb_false_r. now destruct (closest_editable e).
Qed.

Example classifier_samples :
  isTypingContext (TElement Sample.textarea) = Ok true
  /\ isTypingContext (TElement (Sample.el 5 "DIV")) = Ok false
  /\ isTypingContext
       (TElement {| node_id := 6; tagName := "INPUT"; type := Some "EMAIL";
                    isContentEditable := false; role := None;
                    closest_editable := false |}) = Ok true
  /\ isTypingContext
       (TElement {| node_id := 7; tagName := "SPAN"; type := None;
                    isContentEditable := false; role := None;
                    closest_editable := true |}) = Ok true.
Proof. repeat split. Qed.

Example host_editor_samples :
  isGoogleDocsActive (Sample.docs_page (Some (Sample.el 9 "IFRAME"))) = true
  /\ isGoogleDocsActive (Sample.docs_page (Some (Sample.el 1 "BODY"))) = false
  /\ isGoogleDocsActive (Sample.docs_page None) = false
  /\ isGoogleDocsActive Sample.page = false.
Proof. repeat split. Qed.

(** C10. On null, on undefined and on any node that is not an Element the
    classifier answers false and does not throw; on every argument at all it
    returns a boolean, so it is total over event targets. *)
Theorem isTypingContext_total :
  isTypingContext TNull = Ok false
  /\ isTypingContext TUndefined = Ok false
  /\ (forall n, isTypingContext (TNode n) = Ok false)
  /\ (forall t, instanceof_Element t = false -> isTypingContext t = Ok false)
  /\ (forall t, exists b, isTypingContext t = Ok b).
Proof.
  repeat split; try reflexivity.
  - intros [| | n | e] H; try reflexivity. discriminate H.
  - intro t. exists (typing_surface t). apply isTypingContext_surface.
Qed.

Lemma isTypingContext_total_witness :
  instanceof_Element (TNode 7) = false /\ isTypingContext (TNode 7) = Ok false.
Proof.
  split; [reflexivity|].
  apply (proj1 (proj2 (proj2 (proj2 isTypingContext_total)))). reflexivity.
Defined.

(** ** The context test of the two handlers *)

Lemma context_test_eligible (pg : Page) (t : Target) :
  (direct <- isTypingContext t ;;
   typing <- isTypingContext (if direct then t else target_of (activeElement pg)) ;;
   Ok (negb typing && negb (isGoogleDocsActive pg)))
  = Ok (negb (eligible pg t)).
Proof.
  unfold eligible. rewrite isTypingContext_surface; simpl.
  destruct (typing_surface t) eqn:D; simpl.
  - rewrite isTypingContext_surface; simpl. now rewrite D.
  - rewrite isTypingContext_surface; simpl.
    now rewrite negb_orb.
Qed.

Lemma handleKeyDown_filter (now : Z) (pg : Page) (e : KeyboardEvent) (s : State) :
  handleKeyDown now pg e s =
  Ok (if isActive s && accepted pg e then key_effect now e s else s).
Proof.
  unfold handleKeyDown, accepted.
  destruct (isActive s); simpl; [|reflexivity].
  destruct (repeat e); simpl; [reflexivity|].
  unfold eligible. rewrite isTypingContext_surface; simpl.
  destruct (typing_surface (target e)) eqn:D; simpl;
    rewrite isTypingContext_surface; simpl.
  - now rewrite D.
  - destruct (typing_surface (target_of (activeElement pg))); simpl; [reflexivity|].
    now destruct (isGoogleDocsActive pg).
Qed.

Lemma handlePaste_filter (now : Z) (pg : Page) (e : ClipboardEvent) (s : State) :
  handlePaste now pg e s =
  Ok (if isActive s && eligible pg (paste_target e) then paste_effect now e s else s).
Proof.
  unfold handlePaste.
  destruct (isActive s); simpl; [|reflexivity].
  unfold eligible. rewrite isTypingContext_surface; simpl.
  destruct (typing_surface (paste_target e)) eqn:D; simpl;
    rewrite isTypingContext_surface; simpl.
  - now rewrite D.
  - destruct (typing_surface (target_of (activeElement pg))); simpl; [reflexivity|].
    now destruct (isGoogleDocsActive pg).
Qed.

(** ** The key filter *)

Lemma mark_burst_frame (now : Z) (s : State) :
  let s' := mark_burst now s in
  isActive s' = isActive s /\ stopTime s' = stopTime s
  /\ totalChars s' = totalChars s /\ backspaces s' = backspaces s
  /\ pastedChars s' = pastedChars s /\ peakWpm s' = peakWpm s
  /\ accumulatedActiveMs s' = accumulatedActiveMs s
  /\ idleTimer s' = idleTimer s.
Proof.
  unfold mark_burst.
  destruct (truthy_time (startTime s)); simpl;
    [destruct (burstStart s)|]; simpl; repeat split; reflexivity.
Qed.

Lemma mark_burst_open (now b : Z) (s : State) :
  burstStart s = Some b -> truthy_time (startTime s) = true -> mark_burst now s = s.
Proof. unfold mark_burst. now intros -> ->. Qed.

Lemma mark_burst_closed (now : Z) (s : State) :
  burstStart s = None -> burstStart (mark_burst now s) = Some now.
Proof.
  unfold mark_burst. intros B.
  destruct (truthy_time (startTime s)); simpl; [now rewrite B|reflexivity].
Qed.

Lemma key_effect_classify (now : Z) (e : KeyboardEvent) (s : State) :
  key_effect now e s =
  match classify_key e with
  | Ignored => s
  | Deletion => resetIdleTimer now (set_backspaces (backspaces s + 1) s)
  | Countable =>
      resetIdleTimer now (set_totalChars (totalChars s + 1) (mark_burst now s))
  end.
Proof.
  unfold key_effect, classify_key.
  destruct (JsString.mem (key e) IGNORED_KEYS); [reflexivity|].
  destruct (isShortcut e); [reflexivity|].
  destruct (_ || _); [reflexivity|].
  destruct (_ || _); [|reflexivity].
  cbv zeta. destruct (mark_burst_frame now s) as (_ & _ & T & _). now rewrite T.
Qed.

(** ** Eligibility *)

(** C6 as stated fails: an [INPUT] whose type is not in the allow-list is
    refused even when it carries the role textbox, although the claimed union
    contains every element with that role. *)
Lemma typing_context_claim_fails :
  claimed_typing_context (TElement Sample.checkbox_textbox) = true
  /\ isTypingContext (TElement Sample.checkbox_textbox) = Ok false.
Proof. split; reflexivity. Qed.

(** C6, amended. In an active run, a key event that is not an auto-repeat
    passes the context test exactly when [isTypingContext] accepts its target
    or the focused element, or [isGoogleDocsActive] holds: then the handler
    goes on to the key filter, otherwise it changes nothing; so a countable
    key is counted if and only if the event is eligible. [isTypingContext]
    is true exactly for textareas, for inputs whose type is in the allow-list,
    and for elements other than inputs that are content-editable (or inside a
    content-editable element) or have the role textbox or combobox. *)
Theorem key_event_eligibility (now : Z) (pg : Page) (e : KeyboardEvent) (s : State) :
  isActive s = true ->
  repeat e = false ->
  let E := isTypingContext (target e) = Ok true
           \/ isTypingContext (target_of (activeElement pg)) = Ok true
           \/ isGoogleDocsActive pg = true in
  (E -> handleKeyDown now pg e s = Ok (key_effect now e s))
  /\ (~ E -> handleKeyDown now pg e s = Ok s)
  /\ (classify_key e = Countable ->
      exists s', handleKeyDown now pg e s = Ok s'
                 /\ (totalChars s' = totalChars s + 1 <-> E))
  /\ (forall t, isTypingContext t = Ok true <-> typing_surface t = true).
Proof.
  intros Ha Hr E.
  assert (HE : E <-> eligible pg (target e) = true).
  { unfold E, eligible. rewrite !isTypingContext_surface, !orb_true_iff.
    split.
    - intros [H | [H | H]]; [left; left | left; right | right];
        congruence.
    - intros [[H | H] | H]; [left | right; left | right; right];
        congruence. }
  assert (Hk : handleKeyDown now pg e s =
               Ok (if eligible pg (target e) then key_effect now e s else s)).
  { rewrite handleKeyDown_filter. unfold accepted. rewrite Ha, Hr. reflexivity. }
  repeat split.
  - intro H. apply HE in H. now rewrite Hk, H.
  - intro H. rewrite Hk. destruct (eligible pg (target e)); [|reflexivity].
    exfalso. apply H, HE. reflexivity.
  - intro Hc. rewrite Hk.
    destruct (eligible pg (target e)) eqn:El.
    + eexists; split; [reflexivity|].
      split; [intros _; now apply HE|intros _].
      rewrite key_effect_classify, Hc. reflexivity.
    + exists s. split; [reflexivity|].
      split; [lia|]. intro H. apply HE in H. discriminate.
  - rewrite isTypingContext_surface. congruence.
  - rewrite isTypingContext_surface. congruence.
Qed.

Lemma key_event_eligibility_witness :
  handleKeyDown 1000 Sample.page (Sample.press "a") Sample.running
  = Ok (key_effect 1000 (Sample.press "a") Sample.running).
Proof.
  apply (key_event_eligibility 1000 Sample.page (Sample.press "a") Sample.running);
    [reflexivity | reflexivity | left; reflexivity].
Defined.

(** ** Empty pastes *)

(** C9. A paste whose clipboard text is empty, or that has no clipboardData,
    leaves the whole state as it was, whatever the target and whether or not a
    run is active: no counter moves and the idle timer is not restarted. *)
Theorem empty_paste_changes_nothing (now : Z) (pg : Page) (e : ClipboardEvent)
    (w : World) :
  String.length (clipboard_text e) = 0%nat ->
  handlePaste now pg e (run w) = Ok (run w)
  /\ step now pg (Paste e) w = Ok (w, None).
Proof.
  intro H.
  assert (Hp : handlePaste now pg e (run w) = Ok (run w)).
  { rewrite handlePaste_filter. unfold paste_effect. rewrite H.
    now destruct (_ && _). }
  split; [exact Hp|].
  simpl. rewrite Hp. simpl. now destruct w.
Qed.

Lemma empty_paste_changes_nothing_witness :
  handlePaste 1000 Sample.page (Sample.paste None) Sample.running
  = Ok Sample.running
  /\ handlePaste 1000 Sample.page (Sample.paste (Some "")) Sample.running
     = Ok Sample.running.
Proof.
  split.
  - apply (empty_paste_changes_nothing 1000 Sample.page (Sample.paste None)
             {| run := Sample.running; storage := storage boot |}).
    reflexivity.
  - apply (empty_paste_changes_nothing 1000 Sample.page (Sample.paste (Some ""))
             {| run := Sample.running; storage := storage boot |}).
    reflexivity.
Defined.

(** ** The snapshot, and the invariant of reachable worlds *)

Lemma getStats_frame (now : Z) (s : State) :
  let s' := snd (getStats now s) in
  isActive s' = isActive s /\ startTime s' = startTime s
  /\ stopTime s' = stopTime s /\ totalChars s' = totalChars s
  /\ backspaces s' = backspaces s /\ pastedChars s' = pastedChars s
  /\ accumulatedActiveMs s' = accumulatedActiveMs s
  /\ burstStart s' = burstStart s /\ idleTimer s' = idleTimer s
  /\ broadcastTimer s' = broadcastTimer s /\ overlay s' = overlay s
  /\ iframeObserver s' = iframeObserver s.
Proof.
  unfold getStats; cbv zeta.
  match goal with |- context [if ?c then set_peakWpm _ _ else _] => destruct c end;
    simpl; repeat split; reflexivity.
Qed.

Lemma getStats_peak (now : Z) (s : State) :
  peakWpm (snd (getStats now s)) = Z.max (peakWpm s) (wpm (fst (getStats now s)))
  /\ st_peakWpm (fst (getStats now s)) = peakWpm (snd (getStats now s)).
Proof.
  unfold getStats; cbv zeta.
  match goal with |- context [if ?c then set_peakWpm _ _ else _] =>
    destruct c eqn:C end; simpl; split; try reflexivity; lia.
Qed.

Lemma getStats_fields (now : Z) (s : State) :
  let st := fst (getStats now s) in
  st_isActive st = isActive s /\ st_totalChars st = totalChars s
  /\ st_backspaces st = backspaces s /\ st_pastedChars st = pastedChars s
  /\ activeTime st = getActiveTimeMs now s / 1000
  /\ hasData st = match startTime s with Some _ => true | None => false end.
Proof.
  unfold getStats; cbv zeta.
  match goal with |- context [if ?c then set_peakWpm _ _ else _] => destruct c end;
    simpl; repeat split; reflexivity.
Qed.

Lemma getStats_speed (now : Z) (s : State) :
  let activeMins :=
    Number_div (Number_of_Z (getActiveTimeMs now s)) (Number_of_Z 60000) in
  wpm (fst (getStats now s))
  = (if Number_positive activeMins
     then Math_round (Number_div (Number_div (Number_of_Z (totalChars s))
                                             (Number_of_Z 5)) activeMins)
     else 0)
  /\ cpm (fst (getStats now s))
     = (if Number_positive activeMins
        then Math_round (Number_div (Number_of_Z (totalChars s)) activeMins)
        else 0).
Proof. split; reflexivity. Qed.

Lemma getStats_state (now : Z) (s : State) :
  snd (getStats now s)
  = (if peakWpm s <? wpm (fst (getStats now s))
     then set_peakWpm (wpm (fst (getStats now s))) s
     else s).
Proof. reflexivity. Qed.

(** From here on [getStats] is used through its lemmas. *)
Opaque getStats.

Lemma Inv_getStats (now : Z) (s : State) : Inv s -> Inv (snd (getStats now s)).
Proof.
  intros [H1 H2 H3 H4 H5].
  destruct (getStats_frame now s)
    as (Fa & Fs & _ & Fc & Fb & Fp & _ & Fu & Fi & _).
  constructor; rewrite ?Fa, ?Fs, ?Fc, ?Fb, ?Fp, ?Fu, ?Fi; assumption.
Qed.

Lemma Inv_key_effect (now : Z) (e : KeyboardEvent) (s : State) :
  0 < now -> isActive s = true -> Inv s -> Inv (key_effect now e s).
Proof.
  intros Hn Ha [H1 H2 H3 H4 H5]. rewrite key_effect_classify.
  destruct (classify_key e); [now constructor|inv_fields|].
  unfold mark_burst.
  destruct (truthy_time (startTime s)) eqn:T; simpl.
  - destruct (burstStart s) eqn:B; inv_fields.
  - inv_fields. split; [|assumption].
    destruct (now =? 0) eqn:Z0; [lia|reflexivity].
Qed.

Lemma Inv_paste_effect (now : Z) (e : ClipboardEvent) (s : State) :
  isActive s = true -> Inv s -> Inv (paste_effect now e s).
Proof.
  intros Ha [H1 H2 H3 H4 H5]. unfold paste_effect.
  destruct (0 <? _); [|now constructor].
  inv_fields.
Qed.

Lemma Inv_onIdle (now : Z) (s : State) : Inv s -> Inv (onIdle now s).
Proof.
  intros [H1 H2 H3 H4 H5]. unfold onIdle.
  destruct (burstStart s) eqn:B; inv_fields.
Qed.

Lemma Inv_step (now : Z) (pg : Page) (ev : Event) (w w' : World) (o : option Stats) :
  0 < now -> step now pg ev w = Ok (w', o) -> Inv (run w) -> Inv (run w').
Proof.
  intros Hn Hs I. destruct ev as [e | e | | | a]; simpl in Hs.
  - rewrite handleKeyDown_filter in Hs. simpl in Hs.
    injection Hs as <- _. simpl.
    destruct (isActive (run w)) eqn:A; simpl; [|assumption].
    destruct (accepted pg e); [|assumption].
    now apply Inv_key_effect.
  - rewrite handlePaste_filter in Hs. simpl in Hs.
    injection Hs as <- _. simpl.
    destruct (isActive (run w)) eqn:A; simpl; [|assumption].
    destruct (eligible pg (paste_target e)); [|assumption].
    now apply Inv_paste_effect.
  - destruct (idleTimer (run w)) as [due|]; [destruct (due <=? now)|];
      injection Hs as <- _; try assumption.
    simpl. now apply Inv_onIdle.
  - destruct (broadcastTimer (run w)); injection Hs as <- _; [|assumption].
    cbn [run with_run]. now apply Inv_getStats.
  - unfold onMessage in Hs.
    destruct (String.eqb a "start").
    { unfold startIframeWatcher, createOverlay in Hs.
      destruct (documentElement pg); [|discriminate]. simpl in Hs.
      destruct (overlay (run w)); simpl in Hs;
        [|destruct (body pg); [|discriminate]]; simpl in Hs;
        injection Hs as <- _; cbn [run with_run]; apply Inv_getStats; inv_fields. }
    destruct (String.eqb a "stop").
    { injection Hs as <- _. cbn [run with_run]. apply Inv_getStats.
      destruct I as [H1 H2 H3 H4 H5]. inv_fields. }
    destruct (String.eqb a "getStats").
    { injection Hs as <- _. cbn [run with_run]. now apply Inv_getStats. }
    injection Hs as <- _. assumption.
Qed.

Lemma Inv_interrupted (pg : Page) (ev : Event) (w : World) :
  Inv (run w) -> Inv (run (interrupted pg ev w)).
Proof.
  intro I. destruct ev as [e | e | | | a]; try exact I. simpl.
  destruct (String.eqb a "start"); [|exact I]. inv_fields.
Qed.

Lemma reachable_Inv (w : World) : reachable w -> Inv (run w).
Proof.
  induction 1 as [a | now pg ev w w' o _ IH Hn Hs | now pg ev w _ IH _ _].
  - inv_fields.
  - exact (Inv_step now pg ev w w' o Hn Hs IH).
  - now apply Inv_interrupted.
Qed.

(** ** Recording activity *)

(** C2 as stated fails: an accepted Backspace, and an eligible paste of five
    characters, arriving while no burst is open restart the idle timer but
    open no burst. *)
Lemma deletion_and_paste_open_no_burst :
  accepted Sample.page (Sample.press "Backspace") = true
  /\ classify_key (Sample.press "Backspace") = Deletion
  /\ burstStart Sample.running = None
  /\ (exists s', handleKeyDown 1000 Sample.page (Sample.press "Backspace")
                   Sample.running = Ok s'
                 /\ idleTimer s' = Some 3000 /\ burstStart s' = None)
  /\ (exists s', handlePaste 1000 Sample.page (Sample.paste (Some "hello"))
                   Sample.running = Ok s'
                 /\ pastedChars s' = 5
                 /\ idleTimer s' = Some 3000 /\ burstStart s' = None).
Proof.
  repeat split; try reflexivity; eexists; repeat split; reflexivity.
Qed.

(** C2, amended. In an active run whose open burst, if any, began after a
    first keystroke: an accepted countable key opens a burst at the current
    time when none is open, and when one is open it only counts the character
    and restarts the idle timer, the burst start staying as it was; an
    accepted deletion and an eligible paste of non-empty text only bump their
    counter and restart the idle timer, and leave the burst start as it was,
    open or not. *)
Theorem activity_recording (now : Z) (pg : Page) (s : State) :
  isActive s = true ->
  (burstStart s <> None -> truthy_time (startTime s) = true) ->
  (forall e, accepted pg e = true -> classify_key e = Countable ->
     exists s', handleKeyDown now pg e s = Ok s'
       /\ idleTimer s' = Some (now + IDLE_THRESHOLD_MS)
       /\ totalChars s' = totalChars s + 1
       /\ accumulatedActiveMs s' = accumulatedActiveMs s
       /\ match burstStart s with
          | None => burstStart s' = Some now
          | Some b =>
              s' = resetIdleTimer now (set_totalChars (totalChars s + 1) s)
              /\ burstStart s' = Some b
          end)
  /\ (forall e, accepted pg e = true -> classify_key e = Deletion ->
        handleKeyDown now pg e s
        = Ok (resetIdleTimer now (set_backspaces (backspaces s + 1) s))
        /\ burstStart (resetIdleTimer now (set_backspaces (backspaces s + 1) s))
           = burstStart s)
  /\ (forall e, eligible pg (paste_target e) = true ->
        String.length (clipboard_text e) <> 0%nat ->
        let n := Z.of_nat (String.length (clipboard_text e)) in
        handlePaste now pg e s
        = Ok (resetIdleTimer now (set_pastedChars (pastedChars s + n) s))
        /\ burstStart (resetIdleTimer now (set_pastedChars (pastedChars s + n) s))
           = burstStart s).
Proof.
  intros Ha Hb. split; [|split].
  - intros e Hacc Hc. rewrite handleKeyDown_filter, Ha, Hacc. simpl.
    rewrite key_effect_classify, Hc.
    eexists; split; [reflexivity|].
    destruct (mark_burst_frame now s) as (_ & _ & _ & _ & _ & _ & A & _).
    cbn [idleTimer totalChars accumulatedActiveMs burstStart resetIdleTimer
         set_idleTimer set_totalChars].
    rewrite A. repeat split.
    destruct (burstStart s) as [b|] eqn:B.
    + rewrite (mark_burst_open now b s B) by (apply Hb; discriminate).
      split; [reflexivity|exact B].
    + now apply mark_burst_closed.
  - intros e Hacc Hc. rewrite handleKeyDown_filter, Ha, Hacc. simpl.
    rewrite key_effect_classify, Hc. split; reflexivity.
  - intros e He Hl n. rewrite handlePaste_filter, Ha, He. simpl.
    unfold paste_effect. fold n.
    destruct (0 <? n) eqn:P; [split; reflexivity|]. unfold n in P. lia.
Qed.

Lemma activity_recording_witness :
  exists s', handleKeyDown 1000 Sample.page (Sample.press "a") Sample.running = Ok s'
             /\ idleTimer s' = Some 3000 /\ burstStart s' = Some 1000.
Proof.
  destruct (proj1 (activity_recording 1000 Sample.page Sample.running
                     eq_refl (fun H => False_ind _ (H eq_refl)))
              (Sample.press "a") eq_refl eq_refl)
    as (s' & H1 & H2 & _ & _ & H3).
  exists s'. repeat split; assumption.
Defined.

(** ** Double-precision arithmetic *)

(** *** Signs *)

Lemma binary_round_aux_signed (s : bool) (m e : Z) (l : location) :
  signed s (binary_round_aux 53 1024 s m e l).
Proof.
  unfold binary_round_aux.
  destruct (shr_fexp 53 1024 m e l) as [mrs' e'].
  destruct (shr_fexp 53 1024 _ e' loc_Exact) as [mrs'' e''].
  destruct (shr_m mrs''); [reflexivity| |exact I].
  destruct (e'' <=? 1024 - 53); reflexivity.
Qed.

Lemma Number_of_Z_signed (z : Z) : signed (z <? 0) (Number_of_Z z).
Proof.
  destruct z as [|p|p]; [reflexivity| |];
    unfold Number_of_Z, binary_normalize, binary_round;
    destruct (shl_align _ _ _) as [mz ez]; apply binary_round_aux_signed.
Qed.

Lemma Number_div_signed (sx sy : bool) (x y : spec_float) :
  signed sx x -> signed sy y -> signed (xorb sx sy) (Number_div x y).
Proof.
  unfold Number_div.
  destruct x as [a| a| |a mx ex], y as [b| b| |b my ey]; simpl;
    try (intros; exact I); try (intros -> ->; reflexivity).
  intros -> ->.
  destruct (SFdiv_core_binary 53 1024 (Z.pos mx) ex (Z.pos my) ey) as [[mz ez] lz].
  apply binary_round_aux_signed.
Qed.

Lemma Math_round_nonneg (x : spec_float) : signed false x -> 0 <= Math_round x.
Proof.
  destruct x as [a| a| |a m e]; unfold Math_round, signed; try lia.
  intros ->. destruct (0 <=? e) eqn:E.
  - apply Z.leb_le in E. apply Z.mul_nonneg_nonneg; [lia|]. now apply Z.pow_nonneg.
  - apply Z.leb_gt in E. apply Z.div_pos.
    + assert (0 <= 2 ^ (- e)) by (apply Z.pow_nonneg; lia). lia.
    + apply Z.pow_pos_nonneg; lia.
Qed.

Lemma negative_not_positive (x : spec_float) :
  signed true x -> Number_positive x = false.
Proof. destruct x as [a| a| |a m e]; simpl; try reflexivity; intros ->; reflexivity. Qed.

(** *** Mantissas, shifts and rounding *)

Lemma digits2_size (p : positive) : digits2_pos p = Pos.size p.
Proof. induction p; simpl; congruence. Qed.

Lemma Zdigits2_bounds (p : positive) :
  1 <= Z.pos (digits2_pos p)
  /\ 2 ^ (Z.pos (digits2_pos p) - 1) <= Z.pos p < 2 ^ Z.pos (digits2_pos p).
Proof.
  rewrite digits2_size. split; [lia|].
  pose proof (Pos.size_gt p) as G. pose proof (Pos.size_le p) as L.
  apply Pos2Z.pos_lt_pos in G. apply Pos2Z.pos_le_pos in L.
  rewrite Pos2Z.inj_pow in G, L. change (Z.pos p~0) with (2 * Z.pos p) in L.
  split; [|exact G].
  replace (Z.pos (Pos.size p)) with (Z.succ (Z.pos (Pos.size p) - 1)) in L by lia.
  rewrite Z.pow_succ_r in L by lia.
  apply Z.mul_le_mono_pos_l in L; [exact L|lia].
Qed.

Lemma shr_1_m (r : shr_record) : 0 <= shr_m r -> shr_m (shr_1 r) = shr_m r / 2.
Proof.
  destruct r as [m r s]. destruct m as [|[p|p|]|p]; cbn [shr_1 shr_m]; intro H;
    try reflexivity; try lia.
  - change (Z.pos p~1) with (2 * Z.pos p + 1). apply Z.div_unique with 1; lia.
  - change (Z.pos p~0) with (2 * Z.pos p). apply Z.div_unique with 0; lia.
Qed.

Lemma pow2_xI (p : positive) : 2 ^ Z.pos p~1 = 2 * (2 ^ Z.pos p * 2 ^ Z.pos p).
Proof.
  replace (Z.pos p~1) with (1 + (Z.pos p + Z.pos p)) by lia.
  rewrite !Z.pow_add_r by lia. reflexivity.
Qed.

Lemma pow2_xO (p : positive) : 2 ^ Z.pos p~0 = 2 ^ Z.pos p * 2 ^ Z.pos p.
Proof.
  replace (Z.pos p~0) with (Z.pos p + Z.pos p) by lia.
  rewrite !Z.pow_add_r by lia. reflexivity.
Qed.

Lemma iter_shr_1_m (p : positive) (r : shr_record) :
  0 <= shr_m r -> shr_m (iter_pos shr_1 p r) = shr_m r / 2 ^ Z.pos p.
Proof.
  revert r. induction p as [p IH|p IH|]; intros r H; simpl iter_pos.
  - assert (H1 : 0 <= shr_m (shr_1 r)) by (rewrite shr_1_m by assumption; apply Z.div_pos; lia).
    assert (P : 0 < 2 ^ Z.pos p) by (apply Z.pow_pos_nonneg; lia).
    assert (H2 : 0 <= shr_m (iter_pos shr_1 p (shr_1 r))).
    { rewrite IH by assumption. apply Z.div_pos; lia. }
    rewrite IH, IH, shr_1_m by assumption.
    rewrite !Z.div_div by lia. now rewrite pow2_xI.
  - assert (P : 0 < 2 ^ Z.pos p) by (apply Z.pow_pos_nonneg; lia).
    assert (H2 : 0 <= shr_m (iter_pos shr_1 p r)).
    { rewrite IH by assumption. apply Z.div_pos; lia. }
    rewrite IH, IH by assumption.
    rewrite !Z.div_div by lia. now rewrite pow2_xO.
  - now apply shr_1_m.
Qed.

Lemma shr_record_of_loc_m (m : Z) (l : location) : shr_m (shr_record_of_loc m l) = m.
Proof. destruct l as [|[]]; reflexivity. Qed.

Lemma round_nearest_even_bounds (m : Z) (l : location) :
  m <= round_nearest_even m l <= m + 1.
Proof. destruct l as [|[]]; simpl; try lia. destruct (Z.even m); lia. Qed.

(** [shr_fexp] on a positive mantissa that is not below the smallest
    subnormal: the mantissa stays positive, the exponent does not go down
    and ends at least at [emin]. *)
Lemma shr_fexp_positive (p : positive) (e : Z) (l : location) :
  -1073 <= Z.pos (digits2_pos p) + e ->
  let r := shr_fexp 53 1024 (Z.pos p) e l in
  0 < shr_m (fst r) /\ e <= snd r /\ -1074 <= snd r
  /\ (Z.pos (digits2_pos p) <= 53 -> -1074 <= e -> snd r = e /\ shr_m (fst r) = Z.pos p).
Proof.
  intro D. unfold shr_fexp, shr. cbn [Zdigits2].
  destruct (Zdigits2_bounds p) as (D1 & Lo & Hi).
  set (d := Z.pos (digits2_pos p)) in *.
  unfold fexp, emin.
  destruct (Z.max (d + e - 53) (3 - 1024 - 53) - e) as [|n|n] eqn:N; cbn [fst snd].
  - rewrite shr_record_of_loc_m. repeat split; lia.
  - rewrite iter_shr_1_m by (rewrite shr_record_of_loc_m; lia).
    rewrite shr_record_of_loc_m.
    assert (Z.pos n < d) by lia.
    split; [|repeat split; lia].
    apply Z.lt_le_trans with 1; [lia|].
    apply Z.div_le_lower_bound; [apply Z.pow_pos_nonneg; lia|].
    rewrite Z.mul_1_r. apply Z.le_trans with (2 ^ (d - 1)); [|exact Lo].
    apply Z.pow_le_mono_r; lia.
  - rewrite shr_record_of_loc_m. repeat split; lia.
Qed.

Lemma binary_round_aux_positive (s : bool) (p : positive) (ex : Z) (l : location) :
  -1073 <= Z.pos (digits2_pos p) + ex ->
  binary_round_aux 53 1024 s (Z.pos p) ex l = S754_infinity s
  \/ exists m e, binary_round_aux 53 1024 s (Z.pos p) ex l = S754_finite s m e
                 /\ ex <= e /\ -1074 <= e.
Proof.
  intro D. unfold binary_round_aux.
  pose proof (shr_fexp_positive p ex l D) as H. cbv zeta in H.
  destruct (shr_fexp 53 1024 (Z.pos p) ex l) as [mrs' e']. cbn [fst snd] in H.
  destruct H as (M1 & E1 & E1' & _).
  pose proof (round_nearest_even_bounds (shr_m mrs') (loc_of_shr_record mrs')) as R.
  destruct (round_nearest_even (shr_m mrs') (loc_of_shr_record mrs')) as [|q|q]; try lia.
  assert (D2 : -1073 <= Z.pos (digits2_pos q) + e').
  { destruct (Zdigits2_bounds q). lia. }
  pose proof (shr_fexp_positive q e' loc_Exact D2) as H. cbv zeta in H.
  destruct (shr_fexp 53 1024 (Z.pos q) e' loc_Exact) as [mrs'' e'']. cbn [fst snd] in H.
  destruct H as (M2 & E2 & E2' & _).
  destruct (shr_m mrs'') as [|m|m]; try lia.
  destruct (e'' <=? 1024 - 53); [right|left; reflexivity].
  exists m, e''. repeat split; lia.
Qed.

(** *** Positive quotients *)

Lemma digits2_lower (q : positive) (k : Z) :
  2 ^ k <= Z.pos q -> 0 <= k -> k + 1 <= Z.pos (digits2_pos q).
Proof.
  intros H K. destruct (Zdigits2_bounds q) as (_ & _ & Hi).
  assert (2 ^ k < 2 ^ Z.pos (digits2_pos q)) by lia.
  apply Z.pow_lt_mono_r_iff in H0; lia.
Qed.

(** A positive integer is a positive double (or plus infinity), with
    exponent at least -52. *)
Lemma Number_of_Z_positive (z : Z) :
  0 < z ->
  Number_of_Z z = S754_infinity false
  \/ exists m e, Number_of_Z z = S754_finite false m e /\ -52 <= e.
Proof.
  intro H. destruct z as [|p|p]; try lia. clear H.
  unfold Number_of_Z, binary_normalize, binary_round, shl_align.
  destruct (Zdigits2_bounds p) as (D1 & _).
  assert (F : fexp 53 1024 (Z.pos (digits2_pos p) + 0) = Z.pos (digits2_pos p) - 53
              \/ 0 <= fexp 53 1024 (Z.pos (digits2_pos p) + 0) - 0).
  { unfold fexp, emin. lia. }
  assert (F' : -52 <= fexp 53 1024 (Z.pos (digits2_pos p) + 0)).
  { unfold fexp, emin. lia. }
  destruct (fexp 53 1024 (Z.pos (digits2_pos p) + 0) - 0) as [|k|k] eqn:K.
  - destruct (binary_round_aux_positive false p 0 loc_Exact) as [->|(m & e & -> & E & _)];
      [lia|now left|right]. exists m, e. split; [reflexivity|lia].
  - destruct (binary_round_aux_positive false p 0 loc_Exact) as [->|(m & e & -> & E & _)];
      [lia|now left|right]. exists m, e. split; [reflexivity|lia].
  - set (mz := Pos.iter xO p k).
    destruct (Zdigits2_bounds mz) as (D2 & _).
    destruct (binary_round_aux_positive false mz
                (fexp 53 1024 (Z.pos (digits2_pos p) + 0)) loc_Exact)
      as [->|(m & e & -> & E & _)]; [lia|now left|right].
    exists m, e. split; [reflexivity|lia].
Qed.

(** A quotient of finite doubles that is not below the normal range is a
    finite double or an infinity, never zero or NaN. *)
Lemma Number_div_finite (s1 s2 : bool) (m1 m2 : positive) (e1 e2 : Z) :
  -1021 <= Z.pos (digits2_pos m1) + e1 - (Z.pos (digits2_pos m2) + e2) ->
  Number_div (S754_finite s1 m1 e1) (S754_finite s2 m2 e2) = S754_infinity (xorb s1 s2)
  \/ exists m e, Number_div (S754_finite s1 m1 e1) (S754_finite s2 m2 e2)
                 = S754_finite (xorb s1 s2) m e.
Proof.
  intro D. unfold Number_div, SFdiv, SFdiv_core_binary. cbn [Zdigits2].
  destruct (Zdigits2_bounds m1) as (D1 & Lo1 & Hi1).
  destruct (Zdigits2_bounds m2) as (D2 & Lo2 & Hi2).
  set (d1 := Z.pos (digits2_pos m1)) in *. set (d2 := Z.pos (digits2_pos m2)) in *.
  set (e' := Z.min (fexp 53 1024 (d1 + e1 - (d2 + e2))) (e1 - e2)).
  assert (E' : e' <= d1 + e1 - (d2 + e2) - 53 /\ e' <= e1 - e2
               /\ (e' = d1 + e1 - (d2 + e2) - 53 \/ e' = e1 - e2)).
  { unfold e', fexp, emin. lia. }
  set (s := e1 - e2 - e').
  set (m' := match s with Z.pos _ => Z.shiftl (Z.pos m1) s | 0 => Z.pos m1 | Z.neg _ => 0 end).
  assert (M' : m' = Z.pos m1 * 2 ^ s).
  { unfold m'. destruct s as [|k|k] eqn:S; [lia| |lia].
    apply Z.shiftl_mul_pow2. lia. }
  assert (S : 0 <= s /\ 53 - d1 + d2 <= s) by (unfold s; lia).
  set (K := d1 - 1 + s - d2).
  assert (Q : 2 ^ K <= m' / Z.pos m2).
  { apply Z.div_le_lower_bound; [lia|].
    rewrite M'. apply Z.le_trans with (2 ^ d2 * 2 ^ K); [apply Z.mul_le_mono_nonneg_r; [apply Z.pow_nonneg|]; lia|].
    rewrite <- Z.pow_add_r by (unfold K; lia).
    replace (d2 + K) with ((d1 - 1) + s) by (unfold K; lia).
    rewrite Z.pow_add_r by lia.
    apply Z.mul_le_mono_nonneg_r; [apply Z.pow_nonneg; lia|lia]. }
  unfold Z.div in Q. destruct (Z.div_eucl m' (Z.pos m2)) as [q r].
  assert (0 < 2 ^ K) by (apply Z.pow_pos_nonneg; unfold K; lia).
  destruct q as [|q|q]; try lia.
  pose proof (digits2_lower q K Q ltac:(unfold K; lia)) as Dq.
  destruct (binary_round_aux_positive (xorb s1 s2) q e' (new_location (Z.pos m2) r))
    as [->|(m & e & -> & _)]; [unfold K, s in *; lia|now left|right].
  now exists m, e.
Qed.

Lemma finite_positive (m : positive) (e : Z) :
  Number_positive (S754_finite false m e) = true.
Proof. reflexivity. Qed.

(** The test [activeMins > 0] of [getStats] is a test on the milliseconds. *)
Lemma minutes_positive (ms : Z) :
  Number_positive (Number_div (Number_of_Z ms) (Number_of_Z 60000)) = (0 <? ms).
Proof.
  destruct (0 <? ms) eqn:P.
  - apply Z.ltb_lt in P.
    change (Number_of_Z 60000) with (S754_finite false 8246337208320000 (-37)).
    destruct (Number_of_Z_positive ms P) as [->|(m & e & -> & E)]; [reflexivity|].
    destruct (Zdigits2_bounds m) as (D & _).
    destruct (Number_div_finite false false m 8246337208320000 e (-37))
      as [->|(m' & e' & ->)]; [|reflexivity..].
    change (Z.pos (digits2_pos 8246337208320000)) with 53. lia.
  - apply Z.ltb_ge in P. destruct (Z.eq_dec ms 0) as [->|N]; [reflexivity|].
    apply negative_not_positive.
    change true with (xorb true false).
    apply Number_div_signed.
    + replace true with (ms <? 0) by (apply Z.ltb_lt; lia). apply Number_of_Z_signed.
    + reflexivity.
Qed.

(** *** Rounding in the normal range *)

Lemma digits2_unique (p : positive) (k : Z) :
  2 ^ (k - 1) <= Z.pos p < 2 ^ k -> 1 <= k -> Z.pos (digits2_pos p) = k.
Proof.
  intros [Lo Hi] K. destruct (Zdigits2_bounds p) as (D & Lo' & Hi').
  assert (A : 2 ^ (k - 1) < 2 ^ Z.pos (digits2_pos p)) by lia.
  assert (B : 2 ^ (Z.pos (digits2_pos p) - 1) < 2 ^ k) by lia.
  apply Z.pow_lt_mono_r_iff in A; [|lia|lia].
  apply Z.pow_lt_mono_r_iff in B; lia.
Qed.

Lemma loc_of_shr_record_of_loc (m : Z) (l : location) :
  loc_of_shr_record (shr_record_of_loc m l) = l.
Proof. destruct l as [|[]]; reflexivity. Qed.

Lemma shr_fexp_m (p : positive) (e : Z) (l : location) :
  let n := Z.max 0 (fexp 53 1024 (Z.pos (digits2_pos p) + e) - e) in
  let r := shr_fexp 53 1024 (Z.pos p) e l in
  shr_m (fst r) = Z.pos p / 2 ^ n /\ snd r = e + n
  /\ (n = 0 -> fst r = shr_record_of_loc (Z.pos p) l).
Proof.
  intros n r. unfold r, shr_fexp, shr. cbn [Zdigits2]. unfold n.
  destruct (fexp 53 1024 (Z.pos (digits2_pos p) + e) - e) as [|k|k]; cbn [fst snd].
  - rewrite shr_record_of_loc_m. change (Z.max 0 0) with 0.
    rewrite Z.pow_0_r, Z.div_1_r. repeat split; lia.
  - rewrite iter_shr_1_m by (rewrite shr_record_of_loc_m; lia).
    rewrite shr_record_of_loc_m.
    replace (Z.max 0 (Z.pos k)) with (Z.pos k) by lia.
    repeat split; lia.
  - rewrite shr_record_of_loc_m.
    replace (Z.max 0 (Z.neg k)) with 0 by lia.
    rewrite Z.pow_0_r, Z.div_1_r. repeat split; lia.
Qed.

(** A mantissa of 53 bits with an exponent in range is not touched. *)
Lemma binary_round_aux_exact (s : bool) (q : positive) (e : Z) :
  Z.pos (digits2_pos q) = 53 -> -1074 <= e <= 971 ->
  binary_round_aux 53 1024 s (Z.pos q) e loc_Exact = S754_finite s q e.
Proof.
  intros D E. unfold binary_round_aux.
  assert (N : Z.max 0 (fexp 53 1024 (Z.pos (digits2_pos q) + e) - e) = 0).
  { rewrite D. unfold fexp, emin. lia. }
  pose proof (shr_fexp_m q e loc_Exact) as H. cbv zeta in H. rewrite N in H.
  destruct (shr_fexp 53 1024 (Z.pos q) e loc_Exact) as [mrs' e1]. cbn [fst snd] in H.
  destruct H as (_ & H2 & H3). rewrite H3 by reflexivity.
  cbn [shr_record_of_loc shr_m loc_of_shr_record round_nearest_even].
  pose proof (shr_fexp_m q e loc_Exact) as H. cbv zeta in H. rewrite N in H.
  replace e1 with e by lia.
  destruct (shr_fexp 53 1024 (Z.pos q) e loc_Exact) as [mrs'' e2]. cbn [fst snd] in H.
  destruct H as (_ & H2' & H3'). rewrite H3' by reflexivity.
  cbn [shr_record_of_loc shr_m].
  replace (e2 <=? 1024 - 53) with true by (symmetry; apply Z.leb_le; lia).
  f_equal. lia.
Qed.

(** Rounding a mantissa of at least 53 bits in the normal range: the result
    is finite; its mantissa, brought back to the exponent of the 53 leading
    bits, is the truncation or one more. *)
Lemma binary_round_aux_normal (s : bool) (q : positive) (e' : Z) (l : location) :
  let dq := Z.pos (digits2_pos q) in
  53 <= dq -> -1074 <= dq + e' - 53 -> dq + e' <= 1023 ->
  exists m e M,
    binary_round_aux 53 1024 s (Z.pos q) e' l = S754_finite s m e
    /\ Z.pos q / 2 ^ (dq - 53) <= M <= Z.pos q / 2 ^ (dq - 53) + 1
    /\ 2 ^ 52 <= Z.pos q / 2 ^ (dq - 53)
    /\ e' + (dq - 53) <= e
    /\ Z.pos m * 2 ^ (e - (e' + (dq - 53))) = M
    /\ dq + e' <= Z.pos (digits2_pos m) + e <= dq + e' + 1.
Proof.
  intros dq D53 Lo Hi. unfold binary_round_aux.
  destruct (Zdigits2_bounds q) as (_ & Qlo & Qhi). fold dq in Qlo, Qhi.
  assert (N : Z.max 0 (fexp 53 1024 (dq + e') - e') = dq - 53).
  { unfold fexp, emin. lia. }
  pose proof (shr_fexp_m q e' l) as H. cbv zeta in H. fold dq in H. rewrite N in H.
  destruct (shr_fexp 53 1024 (Z.pos q) e' l) as [mrs' e1]. cbn [fst snd] in H.
  destruct H as (H1 & H2 & _).
  set (t := Z.pos q / 2 ^ (dq - 53)) in *.
  assert (P : 0 < 2 ^ (dq - 53)) by (apply Z.pow_pos_nonneg; lia).
  assert (T : 2 ^ 52 <= t < 2 ^ 53).
  { split.
    - apply Z.div_le_lower_bound; [exact P|].
      rewrite <- Z.pow_add_r by lia. replace (dq - 53 + 52) with (dq - 1) by lia.
      exact Qlo.
    - apply Z.div_lt_upper_bound; [exact P|].
      rewrite <- Z.pow_add_r by lia. replace (dq - 53 + 53) with dq by lia.
      exact Qhi. }
  pose proof (round_nearest_even_bounds (shr_m mrs') (loc_of_shr_record mrs')) as R.
  rewrite H1 in R. rewrite H1.
  assert (P52 : 0 < 2 ^ 52) by (apply Z.pow_pos_nonneg; lia).
  destruct (round_nearest_even t (loc_of_shr_record mrs')) as [|q2|q2];
    try lia.
  destruct (Z.eq_dec (Z.pos q2) (2 ^ 53)) as [Top|NotTop].
  - (* the carry: one more shift *)
    assert (D2 : Z.pos (digits2_pos q2) = 54).
    { apply digits2_unique; [|lia]. rewrite Top.
      split; [apply Z.le_refl|]. apply Z.pow_lt_mono_r; lia. }
    pose proof (shr_fexp_m q2 e1 loc_Exact) as H. cbv zeta in H.
    rewrite D2 in H.
    assert (N2 : Z.max 0 (fexp 53 1024 (54 + e1) - e1) = 1).
    { unfold fexp, emin. lia. }
    rewrite N2 in H.
    destruct (shr_fexp 53 1024 (Z.pos q2) e1 loc_Exact) as [mrs'' e2]. cbn [fst snd] in H.
    destruct H as (H3 & H4 & _). rewrite H3, Top.
    change (2 ^ 53 / 2 ^ 1) with (Z.pos (2 ^ 52)).
    cbv iota.
    replace (e2 <=? 1024 - 53) with true by (symmetry; apply Z.leb_le; lia).
    exists (2 ^ 52)%positive, e2, (Z.pos q2).
    split; [reflexivity|]. split; [lia|]. split; [lia|]. split; [lia|].
    split.
    + replace (e2 - (e' + (dq - 53))) with 1 by lia. rewrite Top. reflexivity.
    + change (Z.pos (digits2_pos (2 ^ 52))) with 53. lia.
  - assert (D2 : Z.pos (digits2_pos q2) = 53).
    { apply digits2_unique; [|lia]. change (53 - 1) with 52. lia. }
    pose proof (shr_fexp_m q2 e1 loc_Exact) as H. cbv zeta in H.
    rewrite D2 in H.
    assert (N2 : Z.max 0 (fexp 53 1024 (53 + e1) - e1) = 0).
    { unfold fexp, emin. lia. }
    rewrite N2 in H.
    destruct (shr_fexp 53 1024 (Z.pos q2) e1 loc_Exact) as [mrs'' e2]. cbn [fst snd] in H.
    destruct H as (_ & H4 & H5). rewrite H5 by reflexivity.
    cbn [shr_record_of_loc shr_m].
    replace (e2 <=? 1024 - 53) with true by (symmetry; apply Z.leb_le; lia).
    exists q2, e2, (Z.pos q2).
    split; [reflexivity|]. split; [lia|]. split; [lia|]. split; [lia|].
    split.
    + replace (e2 - (e' + (dq - 53))) with 0 by lia. lia.
    + rewrite D2. lia.
Qed.

Lemma iter_xO (k p : positive) : Z.pos (Pos.iter xO p k) = Z.pos p * 2 ^ Z.pos k.
Proof.
  induction k as [|k IH] using Pos.peano_ind.
  - cbn [Pos.iter]. change (2 ^ 1) with 2. lia.
  - rewrite Pos.iter_succ. change (Z.pos (Pos.iter xO p k)~0) with (2 * Z.pos (Pos.iter xO p k)).
    rewrite IH, Pos2Z.inj_succ, Z.pow_succ_r by lia. lia.
Qed.

(** Integers below 2^53 are doubles. *)
Lemma Number_of_Z_exact (z : Z) :
  0 < z < 2 ^ 53 ->
  exists m e, Number_of_Z z = S754_finite false m e
              /\ Z.pos (digits2_pos m) = 53 /\ -52 <= e <= 0
              /\ Z.pos m = z * 2 ^ (- e)
              /\ 2 ^ (52 + e) <= z < 2 ^ (53 + e).
Proof.
  intros [H0 H1]. destruct z as [|p|p]; try lia. clear H0.
  destruct (Zdigits2_bounds p) as (D1 & Lo & Hi).
  set (d := Z.pos (digits2_pos p)) in *.
  assert (D53 : d <= 53).
  { assert (A : 2 ^ (d - 1) < 2 ^ 53) by lia.
    apply Z.pow_lt_mono_r_iff in A; lia. }
  unfold Number_of_Z, binary_normalize, binary_round, shl_align. fold d.
  assert (F : fexp 53 1024 (d + 0) = d - 53) by (unfold fexp, emin; lia).
  rewrite F.
  destruct (d - 53 - 0) as [|k|k] eqn:K; try lia.
  - exists p, 0. rewrite binary_round_aux_exact by (fold d; lia).
    split; [reflexivity|]. split; [fold d; lia|]. split; [lia|].
    split; [change (2 ^ (- 0)) with 1; lia|].
    replace 53 with d at 2 by lia. replace 52 with (d - 1) by lia.
    rewrite !Z.add_0_r. split; assumption.
  - assert (Dk : d + Z.pos k = 53) by lia.
    set (mz := Pos.iter xO p k).
    assert (Mz : Z.pos mz = Z.pos p * 2 ^ Z.pos k) by apply iter_xO.
    assert (Pk : 0 < 2 ^ Z.pos k) by (apply Z.pow_pos_nonneg; lia).
    assert (Dz : Z.pos (digits2_pos mz) = 53).
    { apply digits2_unique; [|lia]. rewrite Mz.
      assert (A : 2 ^ (53 - 1) = 2 ^ (d - 1) * 2 ^ Z.pos k).
      { rewrite <- Z.pow_add_r by lia. f_equal. lia. }
      assert (B : 2 ^ 53 = 2 ^ d * 2 ^ Z.pos k).
      { rewrite <- Z.pow_add_r by lia. f_equal. lia. }
      rewrite A, B. split.
      - apply Z.mul_le_mono_nonneg_r; lia.
      - apply Z.mul_lt_mono_pos_r; lia. }
    exists mz, (d - 53). rewrite binary_round_aux_exact by lia.
    split; [reflexivity|]. split; [exact Dz|]. split; [lia|].
    split; [rewrite Mz; f_equal; f_equal; lia|].
    replace (52 + (d - 53)) with (d - 1) by lia.
    replace (53 + (d - 53)) with d by lia. split; assumption.
Qed.

(** The quotient of two finite doubles, in the normal range: a finite double
    within one unit in the last place of the exact quotient. With the
    mantissas brought to a common exponent, the product of the result and
    the divisor is the dividend up to one part in 2^52. *)
Lemma Number_div_normal (s1 s2 : bool) (m1 m2 : positive) (e1 e2 : Z) :
  let D := Z.pos (digits2_pos m1) + e1 - (Z.pos (digits2_pos m2) + e2) in
  -1021 <= D <= 1022 ->
  exists m e k s,
    Number_div (S754_finite s1 m1 e1) (S754_finite s2 m2 e2)
    = S754_finite (xorb s1 s2) m e
    /\ D <= Z.pos (digits2_pos m) + e <= D + 2
    /\ 0 <= k /\ 0 <= s /\ e1 - e2 = s + (e - k)
    /\ (2 ^ 52 - 1) * (Z.pos m1 * 2 ^ s) <= 2 ^ 52 * (Z.pos m * 2 ^ k * Z.pos m2)
       <= (2 ^ 52 + 1) * (Z.pos m1 * 2 ^ s).
Proof.
  intros D HD. unfold D in HD. unfold Number_div, SFdiv, SFdiv_core_binary. cbn [Zdigits2].
  destruct (Zdigits2_bounds m1) as (D1 & Lo1 & Hi1).
  destruct (Zdigits2_bounds m2) as (D2 & Lo2 & Hi2).
  set (d1 := Z.pos (digits2_pos m1)) in *. set (d2 := Z.pos (digits2_pos m2)) in *.
  set (e' := Z.min (fexp 53 1024 (d1 + e1 - (d2 + e2))) (e1 - e2)).
  assert (E' : e' <= d1 + e1 - (d2 + e2) - 53 /\ e' <= e1 - e2
               /\ (e' = d1 + e1 - (d2 + e2) - 53 \/ e' = e1 - e2)).
  { unfold e', fexp, emin. lia. }
  set (s := e1 - e2 - e').
  set (m' := match s with Z.pos _ => Z.shiftl (Z.pos m1) s | 0 => Z.pos m1 | Z.neg _ => 0 end).
  assert (M' : m' = Z.pos m1 * 2 ^ s).
  { unfold m'. destruct s as [|k|k] eqn:S; [lia| |lia].
    apply Z.shiftl_mul_pow2. lia. }
  assert (S : 0 <= s /\ 53 - d1 + d2 <= s) by (unfold s; lia).
  set (K := d1 - 1 + s - d2).
  assert (HK : 52 <= K) by (unfold K; lia).
  assert (Ps : 0 < 2 ^ s) by (apply Z.pow_pos_nonneg; lia).
  assert (Q : 2 ^ K <= m' / Z.pos m2 < 2 ^ (K + 2)).
  { split.
    - apply Z.div_le_lower_bound; [lia|].
      rewrite M'. apply Z.le_trans with (2 ^ d2 * 2 ^ K);
        [apply Z.mul_le_mono_nonneg_r; [apply Z.pow_nonneg|]; lia|].
      rewrite <- Z.pow_add_r by lia.
      replace (d2 + K) with ((d1 - 1) + s) by (unfold K; lia).
      rewrite Z.pow_add_r by lia.
      apply Z.mul_le_mono_nonneg_r; [apply Z.pow_nonneg; lia|lia].
    - apply Z.div_lt_upper_bound; [lia|].
      rewrite M'. apply Z.lt_le_trans with (2 ^ d1 * 2 ^ s);
        [apply Z.mul_lt_mono_pos_r; lia|].
      apply Z.le_trans with (2 ^ (d2 - 1) * 2 ^ (K + 2));
        [|apply Z.mul_le_mono_nonneg_r; [apply Z.pow_nonneg|]; lia].
      rewrite <- !Z.pow_add_r by lia.
      apply Z.pow_le_mono_r; unfold K; lia. }
  assert (Dv : m' / Z.pos m2 = fst (Z.div_eucl m' (Z.pos m2))) by reflexivity.
  destruct (Z.div_eucl m' (Z.pos m2)) as [q r]. cbn [fst] in Dv.
  assert (PK : 0 < 2 ^ K) by (apply Z.pow_pos_nonneg; lia).
  destruct q as [|q|q]; try lia.
  assert (Dq : K + 1 <= Z.pos (digits2_pos q) <= K + 2).
  { split; [apply digits2_lower; lia|].
    destruct (Zdigits2_bounds q) as (_ & Lq & _).
    assert (A : 2 ^ (Z.pos (digits2_pos q) - 1) < 2 ^ (K + 2)) by lia.
    apply Z.pow_lt_mono_r_iff in A; lia. }
  set (dq := Z.pos (digits2_pos q)) in *.
  destruct (binary_round_aux_normal (xorb s1 s2) q e' (new_location (Z.pos m2) r))
    as (m & e & M & -> & HM & HT & HE & HV & HDg);
    fold dq; try (unfold K, s in *; lia).
  fold dq in HM, HT, HE, HV, HDg.
  exists m, e, (e - e'), s.
  split; [reflexivity|]. split; [unfold K, s in *; lia|].
  split; [lia|]. split; [lia|]. split; [unfold s; lia|].
  set (n := dq - 53) in *.
  assert (Pn : 0 < 2 ^ n) by (apply Z.pow_pos_nonneg; unfold n; lia).
  assert (Mk : Z.pos m * 2 ^ (e - e') = M * 2 ^ n).
  { rewrite <- HV. replace (e - e') with ((e - (e' + n)) + n) by lia.
    rewrite Z.pow_add_r by (unfold n; lia). lia. }
  rewrite Mk, <- M'.
  set (P := Z.pos m2 * 2 ^ n).
  assert (PP : 0 < P) by (unfold P; lia).
  assert (T : Z.pos q / 2 ^ n = m' / P).
  { rewrite <- Dv. unfold P. rewrite Z.div_div by lia. reflexivity. }
  rewrite T in HM, HT.
  pose proof (Z.mul_div_le m' P PP) as T1.
  pose proof (Z.mul_succ_div_gt m' P PP) as T2.
  set (t := m' / P) in *.
  replace (M * 2 ^ n * Z.pos m2) with (M * P) by (unfold P; lia).
  change (2 ^ 52) with 4503599627370496 in *.
  split; nia.
Qed.

(** *** Values as rationals and the error of a division *)

Lemma two_power_pos (e : Z) : (0 < 2 ^ e)%Q.
Proof. apply Qpower_0_lt. reflexivity. Qed.

Lemma two_power_add (a b : Z) : (2 ^ (a + b) == 2 ^ a * 2 ^ b)%Q.
Proof. apply Qpower_plus. discriminate. Qed.

Lemma two_power_inject (k : Z) : 0 <= k -> (inject_Z (2 ^ k) == 2 ^ k)%Q.
Proof. intro H. now rewrite Zpower_Qpower. Qed.

Lemma val_pos (m : positive) (e : Z) : (0 < val m e)%Q.
Proof.
  unfold val. apply Qmult_lt_0_compat; [|apply two_power_pos].
  change 0%Q with (inject_Z 0). rewrite <- Zlt_Qlt. lia.
Qed.

(** [val m e] with the mantissa scaled up by [2^k]. *)
Lemma val_scale (m : positive) (e k : Z) :
  0 <= k -> (val m e == inject_Z (Z.pos m * 2 ^ k) * 2 ^ (e - k))%Q.
Proof.
  intro H. unfold val. rewrite inject_Z_mult, two_power_inject by assumption.
  replace e with (k + (e - k)) at 1 by lia. rewrite two_power_add. ring.
Qed.

Lemma Number_div_error (s1 s2 : bool) (m1 m2 : positive) (e1 e2 : Z) :
  let D := Z.pos (digits2_pos m1) + e1 - (Z.pos (digits2_pos m2) + e2) in
  -1021 <= D <= 1022 ->
  exists m e,
    Number_div (S754_finite s1 m1 e1) (S754_finite s2 m2 e2)
    = S754_finite (xorb s1 s2) m e
    /\ D <= Z.pos (digits2_pos m) + e <= D + 2
    /\ (val m1 e1 * (1 - u52) <= val m e * val m2 e2 <= val m1 e1 * (1 + u52))%Q.
Proof.
  intros D HD.
  destruct (Number_div_normal s1 s2 m1 m2 e1 e2 HD)
    as (m & e & k & s & E & Dg & Hk & Hs & He & Lo & Hi).
  exists m, e. split; [exact E|]. split; [exact Dg|].
  set (A := inject_Z (Z.pos m1 * 2 ^ s)).
  set (B := inject_Z (Z.pos m * 2 ^ k * Z.pos m2)).
  set (c := (2 ^ (e - k + e2))%Q).
  assert (Pc : (0 < c)%Q) by apply two_power_pos.
  assert (V1 : (val m1 e1 == A * c)%Q).
  { rewrite (val_scale m1 e1 s Hs). unfold A, c.
    replace (e1 - s) with (e - k + e2) by lia. reflexivity. }
  assert (V2 : (val m e * val m2 e2 == B * c)%Q).
  { rewrite (val_scale m e k Hk). unfold val at 1, B, c.
    rewrite two_power_add, (inject_Z_mult _ (Z.pos m2)). ring. }
  rewrite V1, V2.
  change (2 ^ 52) with 4503599627370496 in Lo, Hi.
  assert (Lo' : ((4503599627370495 # 1) * A <= (4503599627370496 # 1) * B)%Q).
  { change (4503599627370495 # 1)%Q with (inject_Z 4503599627370495).
    change (4503599627370496 # 1)%Q with (inject_Z 4503599627370496).
    unfold A, B. rewrite <- !inject_Z_mult, <- Zle_Qle. exact Lo. }
  assert (Hi' : ((4503599627370496 # 1) * B <= (4503599627370497 # 1) * A)%Q).
  { change (4503599627370497 # 1)%Q with (inject_Z 4503599627370497).
    change (4503599627370496 # 1)%Q with (inject_Z 4503599627370496).
    unfold A, B. rewrite <- !inject_Z_mult, <- Zle_Qle. exact Hi. }
  unfold u52.
  assert (L1 : (A * (1 - (1 # 4503599627370496)) <= B)%Q) by lra.
  assert (L2 : (B <= A * (1 + (1 # 4503599627370496)))%Q) by lra.
  split.
  - setoid_replace (A * c * (1 - (1 # 4503599627370496)))%Q
      with (A * (1 - (1 # 4503599627370496)) * c)%Q by ring.
    apply Qmult_le_compat_r; [exact L1|apply Qlt_le_weak, Pc].
  - setoid_replace (A * c * (1 + (1 # 4503599627370496)))%Q
      with (A * (1 + (1 # 4503599627370496)) * c)%Q by ring.
    apply Qmult_le_compat_r; [exact L2|apply Qlt_le_weak, Pc].
Qed.

(** [Math.round] of a positive double is the floor of its value plus 1/2. *)
Lemma Math_round_floor (m : positive) (e : Z) :
  (inject_Z (Math_round (S754_finite false m e)) <= val m e + (1 # 2)
   /\ val m e + (1 # 2) < inject_Z (Math_round (S754_finite false m e)) + 1)%Q.
Proof.
  unfold Math_round. destruct (0 <=? e) eqn:E.
  - apply Z.leb_le in E.
    assert (V : (val m e == inject_Z (Z.pos m * 2 ^ e))%Q).
    { unfold val. now rewrite inject_Z_mult, two_power_inject. }
    rewrite V. split; lra.
  - apply Z.leb_gt in E.
    set (P := 2 ^ (1 - e)).
    assert (PP : 0 < P) by (apply Z.pow_pos_nonneg; lia).
    set (N := 2 * Z.pos m + 2 ^ (- e)).
    pose proof (Z.mul_div_le N P PP) as F1.
    pose proof (Z.mul_succ_div_gt N P PP) as F2.
    set (n := N / P) in *.
    assert (V : (inject_Z P * (val m e + (1 # 2)) == inject_Z N)%Q).
    { unfold P, N, val.
      rewrite inject_Z_plus, inject_Z_mult, !two_power_inject by lia.
      replace (1 - e) with (1 + - e) by lia. rewrite two_power_add.
      setoid_replace (2 ^ 1 * 2 ^ (- e) * (inject_Z (Z.pos m) * 2 ^ e + (1 # 2)))%Q
        with (2 * inject_Z (Z.pos m) * (2 ^ (- e) * 2 ^ e) + 2 ^ (- e))%Q
        by (change (2 ^ 1)%Q with 2%Q; ring).
      rewrite <- two_power_add. replace (- e + e) with 0 by lia.
      change (2 ^ 0)%Q with 1%Q. change (inject_Z 2) with 2%Q. ring. }
    assert (PQ : (0 < inject_Z P)%Q).
    { change 0%Q with (inject_Z 0). now rewrite <- Zlt_Qlt. }
    split.
    + apply (Qmult_le_l _ _ (inject_Z P) PQ). rewrite V, <- inject_Z_mult.
      now rewrite <- Zle_Qle.
    + apply (Qmult_lt_l _ _ (inject_Z P) PQ). rewrite V.
      setoid_replace (inject_Z P * (inject_Z n + 1))%Q
        with (inject_Z (P * Z.succ n)) by (rewrite inject_Z_mult; unfold Z.succ; rewrite inject_Z_plus; ring).
      now rewrite <- Zlt_Qlt.
Qed.

Lemma Number_of_Z_val (z : Z) :
  0 < z < 2 ^ 53 ->
  exists m e, Number_of_Z z = S754_finite false m e
              /\ (val m e == inject_Z z)%Q
              /\ 1 <= Z.pos (digits2_pos m) + e <= 53
              /\ 2 ^ (Z.pos (digits2_pos m) + e - 1) <= z.
Proof.
  intro H. destruct (Number_of_Z_exact z H) as (m & e & E & D & He & Hm & Hz).
  exists m, e. split; [exact E|]. split.
  - rewrite (val_scale m e 0) by lia. rewrite Z.pow_0_r, Z.mul_1_r, Hm, Z.sub_0_r.
    rewrite inject_Z_mult, two_power_inject by lia.
    rewrite <- Qmult_assoc, <- two_power_add. replace (- e + e) with 0 by lia.
    change (2 ^ 0)%Q with 1%Q. ring.
  - rewrite D. split; [lia|]. replace (53 + e - 1) with (52 + e) by lia. lia.
Qed.

(** ** Speed of a snapshot *)

Lemma val_five : (val 5629499534213120 (-50) == 5)%Q.
Proof. reflexivity. Qed.

Lemma val_sixty_thousand : (val 8246337208320000 (-37) == 60000)%Q.
Proof. reflexivity. Qed.

(** The two speeds in doubles against the exact quotients [12000 c / ms] and
    [60000 c / ms]: each is the floor of a number within 1/16 of the exact
    quotient plus 1/2. *)
Lemma speeds_close (c ms : Z) :
  0 < c <= 2 ^ 30 -> 0 < ms < 2 ^ 53 ->
  let b := Number_div (Number_of_Z ms) (Number_of_Z 60000) in
  let w := Math_round (Number_div (Number_div (Number_of_Z c) (Number_of_Z 5)) b) in
  let p := Math_round (Number_div (Number_of_Z c) b) in
  (16 * (w * ms) <= 192000 * c + 9 * ms /\ 192000 * c + 7 * ms < 16 * ((w + 1) * ms))
  /\ (16 * (p * ms) <= 960000 * c + 9 * ms /\ 960000 * c + 7 * ms < 16 * ((p + 1) * ms)).
Proof.
  intros Hc Hm.
  assert (C53 : 0 < c < 2 ^ 53).
  { split; [lia|]. apply Z.le_lt_trans with (2 ^ 30); [lia|]. apply Z.pow_lt_mono_r; lia. }
  destruct (Number_of_Z_val c C53) as (mc & ec & Ec & Vc & Dc & Lc).
  destruct (Number_of_Z_val ms Hm) as (mm & em & Em & Vm & Dm & Lm).
  assert (Dc' : Z.pos (digits2_pos mc) + ec <= 31).
  { assert (A : 2 ^ (Z.pos (digits2_pos mc) + ec - 1) <= 2 ^ 30) by lia.
    apply Z.pow_le_mono_r_iff in A; lia. }
  rewrite Ec, Em.
  change (Number_of_Z 5) with (S754_finite false 5629499534213120 (-50)).
  change (Number_of_Z 60000) with (S754_finite false 8246337208320000 (-37)).
  destruct (Number_div_error false false mc 5629499534213120 ec (-50))
    as (ma & ea & -> & Da & Ha).
  { change (Z.pos (digits2_pos 5629499534213120)) with 53. lia. }
  destruct (Number_div_error false false mm 8246337208320000 em (-37))
    as (mb & eb & -> & Db & Hb).
  { change (Z.pos (digits2_pos 8246337208320000)) with 53. lia. }
  change (Z.pos (digits2_pos 5629499534213120)) with 53 in Da.
  change (Z.pos (digits2_pos 8246337208320000)) with 53 in Db.
  cbn [xorb] in *.
  destruct (Number_div_error false false ma mb ea eb) as (mx & ex & -> & _ & Hx); [lia|].
  destruct (Number_div_error false false mc mb ec eb) as (my & ey & -> & _ & Hy); [lia|].
  cbn [xorb] in *.
  destruct (Math_round_floor mx ex) as [Wl Wu].
  destruct (Math_round_floor my ey) as [Pl Pu].
  set (w := Math_round (S754_finite false mx ex)) in *.
  set (p := Math_round (S754_finite false my ey)) in *.
  cbv zeta.
  rewrite val_five, Vc in Ha. rewrite val_sixty_thousand, Vm in Hb. rewrite Vc in Hy.
  pose proof (val_pos mx ex) as Xp. pose proof (val_pos my ey) as Yp.
  pose proof (val_pos mb eb) as Bp.
  set (A := val ma ea) in *. set (B := val mb eb) in *.
  set (X := val mx ex) in *. set (Y := val my ey) in *.
  set (cq := inject_Z c) in *. set (mq := inject_Z ms) in *.
  assert (Cq : (cq <= 1073741824)%Q).
  { unfold cq. change 1073741824%Q with (inject_Z (2 ^ 30)). rewrite <- Zle_Qle. lia. }
  assert (Cq0 : (0 < cq)%Q).
  { unfold cq. change 0%Q with (inject_Z 0). rewrite <- Zlt_Qlt. lia. }
  assert (Mq : (1 <= mq)%Q).
  { unfold mq. change 1%Q with (inject_Z 1). rewrite <- Zle_Qle. lia. }
  unfold u52 in *.
  destruct Ha as [Ha1 Ha2]. destruct Hb as [Hb1 Hb2].
  destruct Hx as [Hx1 Hx2]. destruct Hy as [Hy1 Hy2].
  (* the divisor's bounds, times each quotient *)
  assert (X1 : (X * (mq * (1 - (1 # 4503599627370496))) <= X * (B * 60000))%Q)
    by (apply Qmult_le_l; assumption).
  assert (X2 : (X * (B * 60000) <= X * (mq * (1 + (1 # 4503599627370496))))%Q)
    by (apply Qmult_le_l; assumption).
  assert (Y1 : (Y * (mq * (1 - (1 # 4503599627370496))) <= Y * (B * 60000))%Q)
    by (apply Qmult_le_l; assumption).
  assert (Y2 : (Y * (B * 60000) <= Y * (mq * (1 + (1 # 4503599627370496))))%Q)
    by (apply Qmult_le_l; assumption).
  assert (TX : (12000 * cq - mq * (1 # 16) <= X * mq <= 12000 * cq + mq * (1 # 16))%Q)
    by (split; lra).
  assert (TY : (60000 * cq - mq * (1 # 16) <= Y * mq <= 60000 * cq + mq * (1 # 16))%Q)
    by (split; lra).
  assert (M0 : (0 < mq)%Q) by lra.
  assert (W1 : (inject_Z w * mq <= (X + (1 # 2)) * mq)%Q)
    by (apply Qmult_le_compat_r; [exact Wl|lra]).
  assert (W2 : ((X + (1 # 2)) * mq < (inject_Z w + 1) * mq)%Q)
    by (apply Qmult_lt_r; assumption).
  assert (P1 : (inject_Z p * mq <= (Y + (1 # 2)) * mq)%Q)
    by (apply Qmult_le_compat_r; [exact Pl|lra]).
  assert (P2 : ((Y + (1 # 2)) * mq < (inject_Z p + 1) * mq)%Q)
    by (apply Qmult_lt_r; assumption).
  rewrite !Zle_Qle, !Zlt_Qlt.
  rewrite !inject_Z_plus, !inject_Z_mult, !inject_Z_plus. fold cq mq.
  change (inject_Z 16) with 16%Q. change (inject_Z 192000) with 192000%Q.
  change (inject_Z 960000) with 960000%Q. change (inject_Z 9) with 9%Q.
  change (inject_Z 7) with 7%Q. change (inject_Z 1) with 1%Q.
  repeat split; lra.
Qed.

(** For a counter and active milliseconds that doubles hold exactly, the two
    quotients that [getStats] rounds are finite positive doubles: neither
    NaN nor an infinity reaches [Math.round]. *)
Lemma speed_quotients_finite (c ms : Z) :
  0 < c < 2 ^ 53 -> 0 < ms < 2 ^ 53 ->
  let b := Number_div (Number_of_Z ms) (Number_of_Z 60000) in
  (exists m e, Number_div (Number_div (Number_of_Z c) (Number_of_Z 5)) b
               = S754_finite false m e)
  /\ (exists m e, Number_div (Number_of_Z c) b = S754_finite false m e).
Proof.
  intros Hc Hm.
  destruct (Number_of_Z_val c Hc) as (mc & ec & Ec & _ & Dc & _).
  destruct (Number_of_Z_val ms Hm) as (mm & em & Em & _ & Dm & _).
  rewrite Ec, Em.
  change (Number_of_Z 5) with (S754_finite false 5629499534213120 (-50)).
  change (Number_of_Z 60000) with (S754_finite false 8246337208320000 (-37)).
  destruct (Number_div_error false false mc 5629499534213120 ec (-50))
    as (ma & ea & -> & Da & _).
  { change (Z.pos (digits2_pos 5629499534213120)) with 53. lia. }
  destruct (Number_div_error false false mm 8246337208320000 em (-37))
    as (mb & eb & -> & Db & _).
  { change (Z.pos (digits2_pos 8246337208320000)) with 53. lia. }
  change (Z.pos (digits2_pos 5629499534213120)) with 53 in Da.
  change (Z.pos (digits2_pos 8246337208320000)) with 53 in Db.
  cbn [xorb] in *.
  destruct (Number_div_error false false ma mb ea eb) as (mx & ex & -> & _); [lia|].
  destruct (Number_div_error false false mc mb ec eb) as (my & ey & -> & _); [lia|].
  cbv zeta. split; [now exists mx, ex|now exists my, ey].
Qed.




Lemma positive_cases (x : spec_float) :
  Number_positive x = true ->
  x = S754_infinity false \/ exists m e, x = S754_finite false m e.
Proof.
  destruct x as [a|[|]| |[|] m e]; try discriminate; intros _;
    [now left|right; now exists m, e].
Qed.

Lemma positive_signed (x : spec_float) : Number_positive x = true -> signed false x.
Proof. intro P. destruct (positive_cases x P) as [->|(m & e & ->)]; reflexivity. Qed.

(** Without a counted character both speeds are 0. *)
Lemma speeds_zero_without_chars (now : Z) (s : State) :
  totalChars s = 0 ->
  wpm (fst (getStats now s)) = 0 /\ cpm (fst (getStats now s)) = 0.
Proof.
  intro H. destruct (getStats_speed now s) as [W C]. rewrite W, C, H.
  destruct (Number_positive _) eqn:P; [|now split].
  destruct (positive_cases _ P) as [->|(m & e & ->)]; split; reflexivity.
Qed.

(** A counter that is not negative gives speeds that are not negative. *)
Lemma speeds_nonneg (now : Z) (s : State) :
  0 <= totalChars s ->
  0 <= wpm (fst (getStats now s)) /\ 0 <= cpm (fst (getStats now s)).
Proof.
  intro H. destruct (getStats_speed now s) as [W C]. rewrite W, C.
  destruct (Number_positive _) eqn:P; [|split; lia].
  apply positive_signed in P.
  assert (S : signed false (Number_of_Z (totalChars s))).
  { replace false with (totalChars s <? 0) by (apply Z.ltb_ge; exact H).
    apply Number_of_Z_signed. }
  split; apply Math_round_nonneg.
  - change false with (xorb false false). apply Number_div_signed; [|exact P].
    change false with (xorb false false). apply Number_div_signed; [exact S|reflexivity].
  - change false with (xorb false false). now apply Number_div_signed.
Qed.

(** At the example of the specification, and at 3 characters over 24 and
    over 1.6 active seconds, the machine's doubles are the numbers computed
    here. *)
Lemma scenario_in_doubles :
  Prim2SF (wpm_double 25 3000) = Prim2SF 100
  /\ Prim2SF (cpm_double 25 3000) = Prim2SF 500
  /\ Prim2SF (wpm_double 25 3000)
     = Number_div (Number_div (Number_of_Z 25) (Number_of_Z 5))
         (Number_div (Number_of_Z 3000) (Number_of_Z 60000))
  /\ Prim2SF (wpm_double 3 24000)
     = Number_div (Number_div (Number_of_Z 3) (Number_of_Z 5))
         (Number_div (Number_of_Z 24000) (Number_of_Z 60000))
  /\ Prim2SF (cpm_double 3 1600)
     = Number_div (Number_of_Z 3)
         (Number_div (Number_of_Z 1600) (Number_of_Z 60000)).
Proof. repeat split; vm_compute; reflexivity. Qed.


(** The doubles of the source are not the exact quotients: at 3 characters
    over 24 active seconds the exact WPM quotient is 1.5, which rounds to 2,
    and the double quotient is just below, which rounds to 1. *)
Lemma doubles_round_differently :
  wpm (fst (getStats 30000 (set_accumulatedActiveMs 24000
                              (set_totalChars 3 Sample.running)))) = 1
  /\ exact_wpm 3 24000 = 2
  /\ cpm (fst (getStats 30000 (set_accumulatedActiveMs 24000
                                 (set_totalChars 3 Sample.running)))) = 8
  /\ exact_cpm 3 24000 = 8.
Proof. repeat split; vm_compute; reflexivity. Qed.



(** ** Peak WPM *)

Lemma nondecreasing_from_weaken (lo lo' : Z) (l : list Z) :
  lo <= lo' -> nondecreasing_from lo' l -> nondecreasing_from lo l.
Proof. destruct l; simpl; [trivial|]. intros H [H1 H2]. split; [lia|assumption]. Qed.

Lemma getStats_peak_le (now : Z) (s : State) :
  peakWpm s <= peakWpm (snd (getStats now s)).
Proof. destruct (getStats_peak now s) as [H _]. rewrite H. lia. Qed.

Lemma step_peak (now : Z) (pg : Page) (ev : Event) (w w' : World) (o : option Stats) :
  step now pg ev w = Ok (w', o) ->
  ev <> Message "start" ->
  peakWpm (run w) <= peakWpm (run w')
  /\ (forall st, o = Some st -> st_peakWpm st = peakWpm (run w')).
Proof.
  intros Hs Hne. destruct ev as [e | e | | | a]; simpl in Hs.
  - rewrite handleKeyDown_filter in Hs. simpl in Hs. injection Hs as <- <-.
    split; [|discriminate]. simpl.
    destruct (_ && _); [|lia]. rewrite key_effect_classify.
    destruct (mark_burst_frame now (run w)) as (_ & _ & _ & _ & _ & P & _).
    destruct (classify_key e); simpl; lia.
  - rewrite handlePaste_filter in Hs. simpl in Hs. injection Hs as <- <-.
    split; [|discriminate]. simpl.
    destruct (_ && _); [|lia]. unfold paste_effect.
    destruct (0 <? _); simpl; lia.
  - destruct (idleTimer (run w)) as [due|]; [destruct (due <=? now)|];
      injection Hs as <- <-; (split; [|discriminate]); try lia.
    simpl. unfold onIdle. destruct (burstStart (run w)); simpl; lia.
  - destruct (broadcastTimer (run w)); injection Hs as <- <-.
    + cbn [run with_run]. split; [apply getStats_peak_le|].
      intros st E. injection E as <-. apply getStats_peak.
    + split; [lia|discriminate].
  - unfold onMessage in Hs.
    destruct (String.eqb a "start") eqn:A.
    { apply String.eqb_eq in A. subst a. now elim Hne. }
    destruct (String.eqb a "stop").
    { injection Hs as <- <-. cbn [run with_run]. split.
      - etransitivity; [|apply getStats_peak_le]. simpl. lia.
      - intros st E. injection E as <-. apply getStats_peak. }
    destruct (String.eqb a "getStats"); injection Hs as <- <-.
    + cbn [run with_run]. split; [apply getStats_peak_le|].
      intros st E. injection E as <-. apply getStats_peak.
    + split; [lia|discriminate].
Qed.

Lemma start_peak (now : Z) (pg : Page) (w w' : World) (o : option Stats) :
  onMessage now pg "start" w = Ok (w', o) -> peakWpm (run w') = 0.
Proof.
  unfold onMessage; simpl. unfold startIframeWatcher, createOverlay.
  destruct (documentElement pg); [|discriminate]. simpl.
  destruct (overlay (run w)); simpl; [|destruct (body pg); [|discriminate]];
    simpl; intro Hs; injection Hs as <- _; cbn [run with_run];
    match goal with |- peakWpm (snd (getStats now ?x)) = 0 =>
      destruct (getStats_peak now x) as [P _];
      destruct (getStats_speed now x) as [W _];
      rewrite P, W end; reflexivity.
Qed.

(** Outside ['start'] no handler can throw. *)
Lemma step_total (now : Z) (pg : Page) (ev : Event) (w : World) :
  ev <> Message "start" -> exists w' o, step now pg ev w = Ok (w', o).
Proof.
  intro N. destruct ev as [e | e | | | a]; simpl.
  - rewrite handleKeyDown_filter. simpl. do 2 eexists; reflexivity.
  - rewrite handlePaste_filter. simpl. do 2 eexists; reflexivity.
  - destruct (idleTimer (run w)) as [due|]; [destruct (due <=? now)|];
      do 2 eexists; reflexivity.
  - destruct (broadcastTimer (run w)); do 2 eexists; reflexivity.
  - unfold onMessage. destruct (String.eqb a "start") eqn:A.
    { apply String.eqb_eq in A. subst a. now elim N. }
    destruct (String.eqb a "stop"); [do 2 eexists; reflexivity|].
    destruct (String.eqb a "getStats"); do 2 eexists; reflexivity.
Qed.

Lemma run_trace_total (tr : list Occurrence) (w : World) :
  within_run tr -> exists w' out, run_trace tr w = Ok (w', out).
Proof.
  intro H. revert w. induction H as [|o tr Ho _ IH]; intro w; simpl.
  - do 2 eexists; reflexivity.
  - destruct (step_total (at_time o) (on_page o) (what o) w Ho) as (w1 & o1 & S).
    rewrite S. simpl. destruct (IH w1) as (w2 & out & R). rewrite R. simpl.
    do 2 eexists; reflexivity.
Qed.

Lemma run_trace_peak (tr : list Occurrence) (w w' : World) (out : list Stats) :
  within_run tr ->
  run_trace tr w = Ok (w', out) ->
  nondecreasing_from (peakWpm (run w)) (map st_peakWpm out ++ [peakWpm (run w')]).
Proof.
  intro Hw. revert w w' out. induction Hw as [|o tr Ho Hw IH]; intros w w' out Hr.
  - injection Hr as <- <-. simpl. split; [lia|trivial].
  - simpl in Hr.
    destruct (step (at_time o) (on_page o) (what o) w) as [[w1 o1]|] eqn:S;
      [|discriminate]. simpl in Hr.
    destruct (run_trace tr w1) as [[w2 out2]|] eqn:R; [|discriminate].
    simpl in Hr. injection Hr as <- <-.
    destruct (step_peak _ _ _ _ _ _ S Ho) as [Hle Hst].
    specialize (IH _ _ _ R).
    destruct o1 as [st|]; simpl.
    + rewrite (Hst st eq_refl). split; assumption.
    + apply nondecreasing_from_weaken with (lo' := peakWpm (run w1)); assumption.
Qed.

(** C4. Within a run, that is along any trace of events with no ['start']
    command, every event is handled without a throw and the peak WPM of the
    successive snapshots (periodic broadcasts, queries, the final snapshot of
    a stop) never decreases: it starts at or above the stored peak and ends at
    the stored peak. Every snapshot stores the maximum of the stored peak and
    its own WPM and reports it; ['start'] stores zero, and no other event
    lowers the stored peak. *)
Theorem peakWpm_never_decreases (tr : list Occurrence) (w : World) :
  within_run tr ->
  (exists w' out,
     run_trace tr w = Ok (w', out)
     /\ nondecreasing_from (peakWpm (run w))
          (map st_peakWpm out ++ [peakWpm (run w')]))
  /\ (forall now s,
        peakWpm (snd (getStats now s))
        = Z.max (peakWpm s) (wpm (fst (getStats now s)))
        /\ st_peakWpm (fst (getStats now s)) = peakWpm (snd (getStats now s)))
  /\ (forall now pg w1 w2 o,
        onMessage now pg "start" w1 = Ok (w2, o) -> peakWpm (run w2) = 0)
  /\ (forall now pg ev w1 w2 o,
        step now pg ev w1 = Ok (w2, o) ->
        peakWpm (run w2) < peakWpm (run w1) -> ev = Message "start").
Proof.
  intros Hw. split; [|split; [|split]].
  - destruct (run_trace_total tr w Hw) as (w' & out & Hr).
    exists w', out. split; [exact Hr|]. exact (run_trace_peak tr w w' out Hw Hr).
  - intros now s. apply getStats_peak.
  - intros now pg w1 w2 o. apply start_peak.
  - intros now pg ev w1 w2 o S L.
    destruct ev as [e | e | | | a]; try (destruct (step_peak _ _ _ _ _ _ S);
      [discriminate | lia]).
    destruct (String.eqb a "start") eqn:A.
    + apply String.eqb_eq in A. now subst.
    + destruct (step_peak _ _ _ _ _ _ S); [|lia].
      intro E. injection E as ->. discriminate.
Qed.

Lemma peakWpm_never_decreases_witness :
  exists w out,
    run_trace (tl scenario_25_in_3s) {| run := Sample.running; storage := storage boot |}
    = Ok (w, out)
    /\ nondecreasing_from 0 (map st_peakWpm out ++ [peakWpm (run w)]).
Proof.
  apply (peakWpm_never_decreases (tl scenario_25_in_3s)
           {| run := Sample.running; storage := storage boot |}).
  repeat constructor; discriminate.
Defined.

(** ** The bounded history *)

Lemma unshift_capped_firstn (session : Session) (old : list Session) :
  unshift_capped session old = firstn 10 (session :: old).
Proof.
  unfold unshift_capped.
  destruct (10 <? Z.of_nat (List.length (session :: old))) eqn:L; [reflexivity|].
  symmetry. apply firstn_all2. apply Z.ltb_ge in L. lia.
Qed.

Lemma firstn_In {A : Type} (n : nat) (l : list A) (x : A) :
  In x (firstn n l) -> In x l.
Proof.
  revert n. induction l as [|y l IH]; intros [|n] H; simpl in *; try contradiction.
  destruct H as [H|H]; [now left|right; eauto].
Qed.

Lemma newest_first_firstn (n : nat) (l : list Session) :
  newest_first l -> newest_first (firstn n l).
Proof.
  unfold newest_first. revert n.
  induction l as [|x l IH]; intros [|n] H; simpl; try constructor.
  - apply IH. now inversion H.
  - inversion H as [|? ? _ F]; subst.
    rewrite Forall_forall in *. intros y Hy. apply F.
    eapply firstn_In; exact Hy.
Qed.

Lemma saveSession_bounded (now : Z) (pg : Page) (st : Stats) (a : StorageArea) :
  match sessions a with Some l => (List.length l <= 10)%nat | None => True end ->
  match sessions (saveSession now pg st a) with
  | Some l => (List.length l <= 10)%nat
  | None => True
  end.
Proof.
  intro H. unfold saveSession.
  destruct (new_session now pg st) as [session|]; [|exact H].
  unfold append_session, storage_get, storage_set.
  destruct (resolves a) eqn:R; simpl; rewrite ?R; simpl; [|exact H].
  rewrite unshift_capped_firstn. rewrite length_firstn. lia.
Qed.

Lemma step_history_bounded (now : Z) (pg : Page) (ev : Event) (w w' : World)
    (o : option Stats) :
  step now pg ev w = Ok (w', o) -> history_bounded w -> history_bounded w'.
Proof.
  unfold history_bounded. intros Hs H.
  destruct ev as [e | e | | | a]; simpl in Hs.
  - destruct (handleKeyDown now pg e (run w)); [|discriminate].
    simpl in Hs. now injection Hs as <- _.
  - destruct (handlePaste now pg e (run w)); [|discriminate].
    simpl in Hs. now injection Hs as <- _.
  - destruct (idleTimer (run w)) as [due|]; [destruct (due <=? now)|];
      now injection Hs as <- _.
  - destruct (broadcastTimer (run w)); now injection Hs as <- _.
  - unfold onMessage in Hs.
    destruct (String.eqb a "start").
    { destruct (startIframeWatcher pg (start_reset (run w))); [|discriminate].
      simpl in Hs. destruct (createOverlay pg a0); [|discriminate].
      simpl in Hs. now injection Hs as <- _. }
    destruct (String.eqb a "stop").
    { injection Hs as <- _. cbn [storage]. now apply saveSession_bounded. }
    destruct (String.eqb a "getStats"); now injection Hs as <- _.
Qed.

(** C7. Persisting a session on top of a stored list [old] stores the first
    ten entries of [session :: old]: the new session is at the head, behind
    it come the nine most recent earlier entries, unchanged and in their
    order; an absent key counts as the empty list. The stored list has at
    most ten entries, after this step and in every world reached from one
    whose list has at most ten; and it stays ordered newest first when the new
    session is at least as recent as every stored one. *)
Theorem history_append (session : Session) (old : list Session) :
  let l := unshift_capped session old in
  (Forall (fun x => id x <= id session) old -> newest_first old -> newest_first l)
  /\ l = firstn 10 (session :: old)
  /\ hd_error l = Some session
  /\ tl l = firstn 9 old
  /\ (List.length l <= 10)%nat
  /\ append_session session {| sessions := Some old; resolves := true |}
     = {| sessions := Some l; resolves := true |}
  /\ append_session session {| sessions := None; resolves := true |}
     = {| sessions := Some [session]; resolves := true |}
  /\ (forall tr w w' out,
        run_trace tr w = Ok (w', out) -> history_bounded w -> history_bounded w').
Proof.
  intro l. unfold l. rewrite unshift_capped_firstn.
  repeat split; try reflexivity.
  - intros F S. apply newest_first_firstn. constructor; [exact S|].
    eapply Forall_impl; [|exact F]. intros x Hx. exact Hx.
  - rewrite length_firstn. lia.
  - unfold append_session; simpl. now rewrite unshift_capped_firstn.
  - intro tr. induction tr as [|o tr IH]; intros w w' out Hr Hb.
    + now injection Hr as <- _.
    + simpl in Hr.
      destruct (step (at_time o) (on_page o) (what o) w) as [[w1 o1]|] eqn:S;
        [|discriminate]. simpl in Hr.
      destruct (run_trace tr w1) as [[w2 out2]|] eqn:R; [|discriminate].
      simpl in Hr. injection Hr as <- _.
      eapply IH; [exact R|]. eapply step_history_bounded; eassumption.
Qed.

Lemma history_append_witness :
  newest_first
    (unshift_capped (Sample.session 300) [Sample.session 200; Sample.session 100]).
Proof.
  apply (proj1 (history_append (Sample.session 300)
                  [Sample.session 200; Sample.session 100])).
  - repeat constructor; simpl; lia.
  - repeat constructor; simpl; lia.
Defined.

(** Eleven sessions do not fit: the oldest one is dropped. *)
Lemma history_drops_the_oldest :
  let old := map (fun i => Sample.session (1000 - Z.of_nat i)) (seq 0 10) in
  unshift_capped (Sample.session 2000) old
  = Sample.session 2000 :: removelast old.
Proof. reflexivity. Qed.

(** ** Start and stop *)

Lemma getStats_at_rest (now : Z) (s : State) :
  burstStart s = None -> accumulatedActiveMs s = 0 -> peakWpm s = 0 ->
  snd (getStats now s) = s /\ wpm (fst (getStats now s)) = 0
  /\ cpm (fst (getStats now s)) = 0.
Proof.
  intros B A P.
  destruct (getStats_speed now s) as [W C].
  unfold getActiveTimeMs in W, C. rewrite B, A in W, C. simpl in W, C.
  rewrite getStats_state, W, P. simpl. repeat split; assumption.
Qed.

(** C8. A ['start'] command, in whatever state it arrives (so also while a
    run is active), leaves the run state equal to that of a fresh run: active,
    no start or stop time, the three counters, the peak WPM and the
    accumulated active time at zero, no open burst, no pending idle timer; it
    succeeds whenever the page has a root element and either the widget
    exists or the page has a body, and answers with a zero snapshot. A
    ['stop'] command never throws, in whatever state it arrives: it answers
    with a snapshot, leaves the run inactive with no open burst and no timer
    pending, and when no run was active it leaves the counters, the start
    time and the accumulated active time as they were. *)
Theorem start_resets_stop_is_safe (now : Z) (pg : Page) (w : World) :
  (forall w' o, onMessage now pg "start" w = Ok (w', o) ->
     run w' = Sample.running /\ storage w' = storage w
     /\ exists st, o = Some st /\ wpm st = 0 /\ cpm st = 0
                   /\ st_totalChars st = 0 /\ st_peakWpm st = 0
                   /\ hasData st = false)
  /\ (documentElement pg <> None ->
      overlay (run w) = true \/ body pg <> None ->
      exists w' o, onMessage now pg "start" w = Ok (w', o))
  /\ (exists w' st, onMessage now pg "stop" w = Ok (w', Some st)
        /\ st_isActive st = false
        /\ isActive (run w') = false /\ burstStart (run w') = None
        /\ idleTimer (run w') = None /\ broadcastTimer (run w') = false
        /\ totalChars (run w') = totalChars (run w)
        /\ backspaces (run w') = backspaces (run w)
        /\ pastedChars (run w') = pastedChars (run w)
        /\ startTime (run w') = startTime (run w)
        /\ (burstStart (run w) = None ->
            accumulatedActiveMs (run w') = accumulatedActiveMs (run w))).
Proof.
  split; [|split].
  - intros w' o. unfold onMessage; simpl.
    unfold startIframeWatcher, createOverlay.
    destruct (documentElement pg); [|discriminate]. simpl.
    assert (R : forall s, s = Sample.running ->
                Ok (with_run (snd (getStats now s)) w, Some (fst (getStats now s)))
                = Ok (w', o) ->
                run w' = Sample.running /\ storage w' = storage w
                /\ exists st, o = Some st /\ wpm st = 0 /\ cpm st = 0
                              /\ st_totalChars st = 0 /\ st_peakWpm st = 0
                              /\ hasData st = false).
    { intros s -> Hs. injection Hs as <- <-.
      destruct (getStats_at_rest now Sample.running eq_refl eq_refl eq_refl)
        as (S & W & C).
      destruct (getStats_fields now Sample.running) as (_ & T & _ & _ & _ & D).
      destruct (getStats_peak now Sample.running) as [_ P].
      cbn [run with_run storage]. rewrite S.
      repeat split. eexists; split; [reflexivity|].
      rewrite W, C, T, D, P, S. repeat split. }
    destruct (overlay (run w)); simpl; [|destruct (body pg); [|discriminate]];
      simpl; apply R; reflexivity.
  - intros Hd Hb. unfold onMessage; simpl.
    unfold startIframeWatcher, createOverlay.
    destruct (documentElement pg); [|now elim Hd]. simpl.
    destruct (overlay (run w)); simpl; [do 2 eexists; reflexivity|].
    destruct Hb as [Hb|Hb]; [discriminate|].
    destruct (body pg); [|now elim Hb]. simpl. do 2 eexists; reflexivity.
  - unfold onMessage; simpl. do 2 eexists. split; [reflexivity|].
    cbn [run].
    destruct (getStats_frame now (stop_finalize now (run w)))
      as (Fa & Fs & _ & Fc & Fb & Fp & Fm & Fu & Fi & Ft & _).
    destruct (getStats_fields now (stop_finalize now (run w))) as (Sa & _).
    rewrite Sa, Fa, Fs, Fc, Fb, Fp, Fm, Fu, Fi, Ft. simpl.
    repeat split. now intros ->.
Qed.

Lemma start_resets_stop_is_safe_witness :
  exists w mid o w',
    run_trace (removelast scenario_25_in_3s) boot = Ok (w, mid)
    /\ isActive (run w) = true /\ totalChars (run w) = 25
    /\ onMessage 5000 Sample.page "start" w = Ok (w', o)
    /\ run w' = Sample.running.
Proof.
  destruct (proj1 (proj2 (start_resets_stop_is_safe 5000 Sample.page
             {| run := {| isActive := true; startTime := Some 1000;
                          stopTime := None; totalChars := 25; backspaces := 0;
                          pastedChars := 0; peakWpm := 0;
                          accumulatedActiveMs := 0; burstStart := Some 1000;
                          idleTimer := Some 6000; broadcastTimer := true;
                          overlay := true; iframeObserver := true |};
                storage := storage boot |}))) as (w' & o & Hs).
  - discriminate.
  - left; reflexivity.
  - do 4 eexists. split; [vm_compute; reflexivity|].
    split; [reflexivity|]. split; [reflexivity|]. split; [exact Hs|].
    exact (proj1 (proj1 (start_resets_stop_is_safe 5000 Sample.page _) w' o Hs)).
Defined.

(** ** Countable characters of a run and the session of a stop *)

Lemma step_counts (now : Z) (pg : Page) (ev : Event) (w w' : World)
    (o : option Stats) :
  step now pg ev w = Ok (w', o) ->
  ev <> Message "start" -> ev <> Message "stop" ->
  isActive (run w) = true ->
  isActive (run w') = true
  /\ totalChars (run w')
     = totalChars (run w)
       + (if counts {| at_time := now; on_page := pg; what := ev |} then 1 else 0).
Proof.
  intros Hs N1 N2 Ha. unfold counts; cbn [what on_page].
  destruct ev as [e | e | | | a]; simpl in Hs.
  - rewrite handleKeyDown_filter in Hs. simpl in Hs. injection Hs as <- _.
    cbn [run with_run]. rewrite Ha. simpl.
    destruct (accepted pg e); simpl; [|split; [assumption|lia]].
    rewrite key_effect_classify.
    destruct (mark_burst_frame now (run w)) as (A & _).
    destruct (classify_key e); simpl; split; try assumption; try lia.
    now rewrite A.
  - rewrite handlePaste_filter in Hs. simpl in Hs. injection Hs as <- _.
    cbn [run with_run]. rewrite Ha. simpl.
    destruct (eligible pg (paste_target e)); [|split; [assumption|lia]].
    unfold paste_effect. destruct (0 <? _); simpl; split; try assumption; lia.
  - destruct (idleTimer (run w)) as [due|]; [destruct (due <=? now)|];
      injection Hs as <- _; try (split; [assumption|lia]).
    simpl. unfold onIdle. destruct (burstStart (run w)); simpl;
      split; try assumption; lia.
  - destruct (getStats_frame now (run w)) as (A & _ & _ & C & _).
    destruct (broadcastTimer (run w)); injection Hs as <- _;
      cbn [run with_run]; rewrite ?A, ?C; split; try assumption; lia.
  - unfold onMessage in Hs.
    destruct (String.eqb a "start") eqn:E1.
    { apply String.eqb_eq in E1. subst a. now elim N1. }
    destruct (String.eqb a "stop") eqn:E2.
    { apply String.eqb_eq in E2. subst a. now elim N2. }
    destruct (getStats_frame now (run w)) as (A & _ & _ & C & _).
    destruct (String.eqb a "getStats"); injection Hs as <- _;
      cbn [run with_run]; rewrite ?A, ?C; split; try assumption; lia.
Qed.

Lemma run_counts (tr : list Occurrence) (w w' : World) (out : list Stats) :
  run_trace tr w = Ok (w', out) ->
  inside_run tr ->
  isActive (run w) = true ->
  isActive (run w') = true
  /\ totalChars (run w') = totalChars (run w) + typed_chars tr.
Proof.
  intros Hr Hi. revert w w' out Hr.
  induction Hi as [|o tr [N1 N2] Hi IH]; intros w w' out Hr Ha.
  - injection Hr as <- _. unfold typed_chars; simpl. split; [assumption|lia].
  - simpl in Hr.
    destruct (step (at_time o) (on_page o) (what o) w) as [[w1 o1]|] eqn:S;
      [|discriminate]. simpl in Hr.
    destruct (run_trace tr w1) as [[w2 out2]|] eqn:R; [|discriminate].
    simpl in Hr. injection Hr as <- _.
    destruct (step_counts _ _ _ _ _ _ S N1 N2 Ha) as [A1 C1].
    destruct (IH _ _ _ R A1) as [A2 C2].
    split; [assumption|]. rewrite C2, C1.
    unfold typed_chars. simpl filter.
    replace {| at_time := at_time o; on_page := on_page o; what := what o |}
      with o by now destruct o.
    destruct (counts o); simpl List.length; lia.
Qed.

(** C5. Take any run: a ['start'], then events with no further ['start'] or
    ['stop'], then ['stop']. The events are handled without a throw, and the
    stop answers with the final snapshot, taken from the state in which the
    run is inactive, the idle timer is cancelled and the open burst is closed;
    its character count is the number of countable characters typed in the
    run. A session is built from that snapshot, and put in front of the stored
    history, if and only if at least one countable character was typed; with
    none, no session is built and the stored history is left as it was. *)
Theorem session_iff_typed (now0 now : Z) (pg0 pg : Page) (w0 w1 : World)
    (o1 : option Stats) (tr : list Occurrence) :
  onMessage now0 pg0 "start" w0 = Ok (w1, o1) ->
  inside_run tr ->
  exists w2 out w3,
    let closed := stop_finalize now (run w2) in
    let final := fst (getStats now closed) in
    run_trace tr w1 = Ok (w2, out)
    /\ onMessage now pg "stop" w2 = Ok (w3, Some final)
    /\ isActive closed = false /\ burstStart closed = None
    /\ idleTimer closed = None
    /\ accumulatedActiveMs closed = getActiveTimeMs now (run w2)
    /\ st_isActive final = false
    /\ st_totalChars final = typed_chars tr
    /\ storage w3 = saveSession now pg final (storage w2)
    /\ (new_session now pg final <> None <-> 1 <= typed_chars tr)
    /\ (typed_chars tr = 0 ->
        new_session now pg final = None /\ storage w3 = storage w2)
    /\ (1 <= typed_chars tr ->
        exists session,
          new_session now pg final = Some session
          /\ storage w3 = append_session session (storage w2)
          /\ duration session = activeTime final
          /\ avgWPM session = wpm final /\ avgCPM session = cpm final
          /\ sess_totalChars session = typed_chars tr
          /\ sess_backspaces session = st_backspaces final
          /\ sess_pastedChars session = st_pastedChars final).
Proof.
  intros Hstart Hin.
  destruct (run_trace_total tr w1) as (w2 & out & Hrun).
  { eapply Forall_impl; [|exact Hin]. now intros o [N _]. }
  exists w2, out.
  set (closed := stop_finalize now (run w2)).
  set (final := fst (getStats now closed)).
  assert (H1 : isActive (run w1) = true /\ totalChars (run w1) = 0).
  { revert Hstart. unfold onMessage; simpl.
    unfold startIframeWatcher, createOverlay.
    destruct (documentElement pg0); [|discriminate]. simpl.
    destruct (getStats_frame now0
                (arm_broadcast
                   (if overlay (run w0) then
                      {| isActive := true; startTime := None; stopTime := None;
                         totalChars := 0; backspaces := 0; pastedChars := 0;
                         peakWpm := 0; accumulatedActiveMs := 0;
                         burstStart := None; idleTimer := None;
                         broadcastTimer := broadcastTimer (run w0);
                         overlay := overlay (run w0); iframeObserver := true |}
                    else
                      {| isActive := true; startTime := None; stopTime := None;
                         totalChars := 0; backspaces := 0; pastedChars := 0;
                         peakWpm := 0; accumulatedActiveMs := 0;
                         burstStart := None; idleTimer := None;
                         broadcastTimer := broadcastTimer (run w0);
                         overlay := true; iframeObserver := true |})))
      as (A & _ & _ & C & _).
    destruct (overlay (run w0)) eqn:O; simpl;
      [|destruct (body pg0); [|discriminate]]; simpl;
      intro Hs; injection Hs as <- _; cbn [run with_run];
      rewrite ?O in *; split; assumption. }
  destruct H1 as [A1 C1].
  destruct (run_counts tr w1 w2 out Hrun Hin A1) as [A2 C2].
  rewrite C1 in C2. simpl in C2.
  destruct (getStats_fields now closed) as (Sa & St & _).
  fold final in Sa, St.
  assert (T : st_totalChars final = typed_chars tr).
  { rewrite St. unfold closed. simpl. exact C2. }
  assert (Tpos : 0 <= typed_chars tr) by (unfold typed_chars; lia).
  eexists. cbv zeta. split; [exact Hrun|].
  split; [unfold onMessage; simpl; reflexivity|].
  cbn [storage]. fold closed. fold final.
  split; [reflexivity|]. split; [reflexivity|]. split; [reflexivity|].
  split.
  { unfold closed, getActiveTimeMs. simpl. now destruct (burstStart (run w2)). }
  split; [rewrite Sa; reflexivity|]. split; [exact T|].
  split; [reflexivity|].
  unfold saveSession, new_session. rewrite T.
  destruct (typed_chars tr =? 0) eqn:Z0.
  - apply Z.eqb_eq in Z0. split; [|split].
    + split; [intro X; now elim X|lia].
    + intros _. split; reflexivity.
    + lia.
  - apply Z.eqb_neq in Z0. split; [|split].
    + split; [lia|discriminate].
    + intro X. now elim Z0.
    + intros _. eexists. split; [reflexivity|]. simpl. repeat split.
Qed.

Lemma session_iff_typed_witness :
  exists w2 out w3 final,
    run_trace twenty_five_keys {| run := Sample.running; storage := storage boot |}
    = Ok (w2, out)
    /\ typed_chars twenty_five_keys = 25
    /\ onMessage 5000 Sample.page "stop" w2 = Ok (w3, Some final)
    /\ new_session 5000 Sample.page final <> None.
Proof.
  destruct (session_iff_typed 500 5000 Sample.page Sample.page boot
              {| run := Sample.running; storage := storage boot |}
              (Some (fst (getStats 500 Sample.running)))
              twenty_five_keys)
    as (w2 & out & w3 & Hrun & Hstop & _ & _ & _ & _ & _ & _ & _ & Hiff & _).
  - vm_compute; reflexivity.
  - repeat constructor; discriminate.
  - exists w2, out, w3. eexists.
    split; [exact Hrun|]. split; [reflexivity|]. split; [exact Hstop|].
    apply Hiff. vm_compute. discriminate.
Defined.

(** ** Bursts, the idle timer and the active time *)

(** C1 as stated fails: two bursts of 500 ms each, 3000 ms apart, give 3000
    active milliseconds at the last keystroke, not 1000: the idle timer
    closed the first burst 2000 ms after its last key and those 2000 ms are
    counted. The same holds with the timeout delivered as an event. *)
Lemma two_bursts_count_the_threshold :
  all_count two_bursts
  /\ (exists w, run_on_time two_bursts
                  {| run := Sample.running; storage := storage boot |} = Ok (w, [])
                /\ active_ms_at 5000 w = 3000
                /\ active_ms_at 5000 w <> (1500 - 1000) + (5000 - 4500))
  /\ (exists w, run_trace
                  [Sample.at_ 1000 (KeyDown (Sample.press "a"));
                   Sample.at_ 1500 (KeyDown (Sample.press "b"));
                   Sample.at_ 3500 IdleTimeout;
                   Sample.at_ 4500 (KeyDown (Sample.press "c"));
                   Sample.at_ 5000 (KeyDown (Sample.press "d"))]
                  {| run := Sample.running; storage := storage boot |} = Ok (w, [])
                /\ getActiveTimeMs 5000 (run w) = 3000).
Proof.
  split; [repeat constructor|].
  split; eexists; (split; [vm_compute; reflexivity|]);
    [split; [reflexivity|discriminate] | reflexivity].
Qed.

Lemma counts_step (o : Occurrence) (w : World) :
  counts o = true ->
  isActive (run w) = true ->
  step (at_time o) (on_page o) (what o) w
  = Ok (with_run (resetIdleTimer (at_time o)
                    (set_totalChars (totalChars (run w) + 1)
                       (mark_burst (at_time o) (run w)))) w,
        None).
Proof.
  unfold counts. intros Hc Ha.
  destruct (what o) as [e| | | |]; try discriminate.
  apply andb_true_iff in Hc. destruct Hc as [Hacc Hk].
  simpl. rewrite handleKeyDown_filter, Ha, Hacc. simpl.
  rewrite key_effect_classify.
  destruct (classify_key e); try discriminate. reflexivity.
Qed.

Lemma fire_due_early (now due : Z) (w : World) :
  idleTimer (run w) = Some due -> now < due -> fire_due now w = w.
Proof.
  unfold fire_due. intros -> H.
  destruct (due <=? now) eqn:L; [lia|reflexivity].
Qed.

Lemma fire_due_late (now due : Z) (w : World) :
  idleTimer (run w) = Some due -> due <= now ->
  fire_due now w = with_run (onIdle due (run w)) w.
Proof.
  unfold fire_due. intros -> H.
  destruct (due <=? now) eqn:L; [reflexivity|lia].
Qed.

Lemma run_on_time_app (a b : list Occurrence) (w : World) :
  run_on_time (a ++ b) w =
  (r <- run_on_time a w ;;
   r' <- run_on_time b (fst r) ;;
   Ok (fst r', (snd r ++ snd r')%list)).
Proof.
  revert w. induction a as [|o a IH]; intro w; simpl.
  - destruct (run_on_time b w) as [[w' out]|]; reflexivity.
  - destruct (step _ _ _ _) as [[w1 o1]|]; simpl; [|reflexivity].
    rewrite IH. destruct (run_on_time a w1) as [[w2 out2]|]; simpl; [|reflexivity].
    destruct (run_on_time b w2) as [[w3 out3]|]; simpl; [|reflexivity].
    now rewrite app_assoc.
Qed.

Lemma last_cons (l : list Z) (x d : Z) : last (x :: l) d = last l x.
Proof.
  revert x d. induction l as [|y l IH]; intros x d; [reflexivity|].
  change (last (x :: y :: l) d) with (last (y :: l) d).
  now rewrite !IH.
Qed.

(** Keys that keep an open burst going. *)
Lemma burst_continues (ks : list Occurrence) (w : World) (t b : Z) :
  all_count ks ->
  spaced t (map at_time ks) ->
  isActive (run w) = true ->
  truthy_time (startTime (run w)) = true ->
  burstStart (run w) = Some b ->
  idleTimer (run w) = Some (t + IDLE_THRESHOLD_MS) ->
  exists w',
    run_on_time ks w = Ok (w', [])
    /\ isActive (run w') = true
    /\ startTime (run w') = startTime (run w)
    /\ burstStart (run w') = Some b
    /\ idleTimer (run w') = Some (last (map at_time ks) t + IDLE_THRESHOLD_MS)
    /\ accumulatedActiveMs (run w') = accumulatedActiveMs (run w).
Proof.
  intros Hc. revert w t. induction Hc as [|o ks Ho Hc IH]; intros w t Hs Ha Ht Hb Hi.
  - exists w. simpl. repeat split; assumption.
  - simpl in Hs. destruct Hs as [Hu Hs].
    simpl run_on_time.
    rewrite (fire_due_early (at_time o) _ w Hi) by lia.
    rewrite (counts_step o w Ho Ha). simpl bind.
    rewrite (mark_burst_open (at_time o) b (run w) Hb Ht).
    destruct (IH (with_run (resetIdleTimer (at_time o)
                              (set_totalChars (totalChars (run w) + 1) (run w))) w)
                 (at_time o) Hs Ha Ht Hb eq_refl)
      as (w' & R & A' & T' & B' & I' & C').
    exists w'. simpl fst. rewrite R. simpl.
    repeat split; try assumption.
    rewrite I'. destruct (map at_time ks); [reflexivity|].
    now rewrite !last_cons.
Qed.

Lemma onIdle_open (due b : Z) (s : State) :
  burstStart s = Some b ->
  isActive (onIdle due s) = isActive s
  /\ startTime (onIdle due s) = startTime s
  /\ burstStart (onIdle due s) = None
  /\ idleTimer (onIdle due s) = None
  /\ accumulatedActiveMs (onIdle due s) = accumulatedActiveMs s + (due - b).
Proof. unfold onIdle. intros ->. simpl. repeat split. Qed.

Lemma spaced_last (l : list Z) (t : Z) : spaced t l -> t <= last l t.
Proof.
  revert t. induction l as [|u l IH]; intros t H; [simpl; lia|].
  destruct H as [H1 H2]. rewrite last_cons. specialize (IH u H2). lia.
Qed.

Lemma fire_due_none (now : Z) (w : World) :
  idleTimer (run w) = None -> fire_due now w = w.
Proof. unfold fire_due. now intros ->. Qed.

(** A key that opens a burst in a run that is idle. *)
Lemma burst_opens (o : Occurrence) (w : World) :
  counts o = true ->
  0 < at_time o ->
  isActive (run w) = true ->
  burstStart (run w) = None ->
  startTime (run w) = None \/ truthy_time (startTime (run w)) = true ->
  exists w',
    step (at_time o) (on_page o) (what o) w = Ok (w', None)
    /\ isActive (run w') = true
    /\ truthy_time (startTime (run w')) = true
    /\ burstStart (run w') = Some (at_time o)
    /\ idleTimer (run w') = Some (at_time o + IDLE_THRESHOLD_MS)
    /\ accumulatedActiveMs (run w') = accumulatedActiveMs (run w).
Proof.
  intros Hc Hp Ha Hb Hs.
  rewrite (counts_step o w Hc Ha).
  eexists. split; [reflexivity|]. cbn [run with_run].
  unfold mark_burst. destruct Hs as [Hs|Hs]; rewrite Hs; simpl.
  - repeat split; try assumption.
    destruct (at_time o =? 0) eqn:Z0; [lia|reflexivity].
  - rewrite Hb. simpl. repeat split; assumption.
Qed.

(** C1, amended. In a fresh run whose timers run on time, take a burst of
    countable keys, each less than 2000 ms after the one before, then a pause
    of at least 2000 ms, then a second such burst. The active time read at
    [now], at or after the last key, is the sum of the two bursts' durations
    (first to last key of each) plus the 2000 ms of idle threshold that ran
    before the first burst was closed, plus the time since the last key,
    capped at 2000 ms; the rest of the pause is not counted. *)
Theorem idle_gap_beyond_threshold_excluded (w : World) (k1 k2 : Occurrence)
    (ks1 ks2 : list Occurrence) (now : Z) :
  isActive (run w) = true ->
  startTime (run w) = None ->
  burstStart (run w) = None ->
  idleTimer (run w) = None ->
  accumulatedActiveMs (run w) = 0 ->
  all_count (k1 :: ks1 ++ k2 :: ks2) ->
  0 < at_time k1 ->
  spaced (at_time k1) (map at_time ks1) ->
  let last1 := last (map at_time ks1) (at_time k1) in
  last1 + IDLE_THRESHOLD_MS <= at_time k2 ->
  spaced (at_time k2) (map at_time ks2) ->
  let last2 := last (map at_time ks2) (at_time k2) in
  last2 <= now ->
  exists w',
    run_on_time (k1 :: ks1 ++ k2 :: ks2) w = Ok (w', [])
    /\ active_ms_at now w'
       = (last1 - at_time k1) + (last2 - at_time k2)
         + IDLE_THRESHOLD_MS + Z.min (now - last2) IDLE_THRESHOLD_MS.
Proof.
  intros Ha Hst Hb Hi Hacc Hall Hp Hs1 last1 Hgap Hs2 last2 Hnow.
  apply Forall_cons_iff in Hall. destruct Hall as [C1 Hall].
  apply Forall_app in Hall. destruct Hall as [Cs1 Hall].
  apply Forall_cons_iff in Hall. destruct Hall as [C2 Cs2].
  pose proof (spaced_last _ _ Hs1) as L1. fold last1 in L1.
  (* the first key opens the first burst *)
  destruct (burst_opens k1 w C1 Hp Ha Hb (or_introl Hst))
    as (w1 & S1 & A1 & T1 & B1 & I1 & M1).
  (* the rest of the first burst keeps it open *)
  destruct (burst_continues ks1 w1 (at_time k1) (at_time k1) Cs1 Hs1 A1 T1 B1 I1)
    as (w2 & R2 & A2 & T2 & B2 & I2 & M2).
  fold last1 in I2.
  (* the idle timer closes it, 2000 ms after its last key *)
  destruct (onIdle_open (last1 + IDLE_THRESHOLD_MS) _ _ B2)
    as (A3 & T3 & B3 & I3 & M3).
  set (w3 := with_run (onIdle (last1 + IDLE_THRESHOLD_MS) (run w2)) w2) in *.
  assert (F3 : fire_due (at_time k2) w2 = w3) by now apply fire_due_late.
  (* the second burst *)
  assert (P2 : 0 < at_time k2) by (unfold IDLE_THRESHOLD_MS in *; lia).
  destruct (burst_opens k2 w3 C2 P2) as (w4 & S4 & A4 & T4 & B4 & I4 & M4).
  { unfold w3; cbn [run with_run]. now rewrite A3. }
  { exact B3. }
  { right. unfold w3; cbn [run with_run]. rewrite T3, T2. exact T1. }
  destruct (burst_continues ks2 w4 (at_time k2) (at_time k2) Cs2 Hs2 A4 T4 B4 I4)
    as (w5 & R5 & A5 & T5 & B5 & I5 & M5).
  fold last2 in I5.
  exists w5. split.
  - cbn [run_on_time]. rewrite (fire_due_none _ w Hi), S1. cbn [bind fst snd].
    rewrite run_on_time_app, R2. cbn [bind fst snd run_on_time].
    rewrite F3, S4. cbn [bind fst snd]. rewrite R5. reflexivity.
  - assert (M : accumulatedActiveMs (run w5)
                = last1 + IDLE_THRESHOLD_MS - at_time k1).
    { rewrite M5, M4. unfold w3; cbn [run with_run]. rewrite M3, M2, M1, Hacc. lia. }
    unfold active_ms_at.
    destruct (Z_le_gt_dec (last2 + IDLE_THRESHOLD_MS) now) as [Late|Early].
    + rewrite (fire_due_late now _ w5 I5 Late). cbn [run with_run].
      destruct (onIdle_open (last2 + IDLE_THRESHOLD_MS) _ _ B5)
        as (_ & _ & B6 & _ & M6).
      unfold getActiveTimeMs. rewrite B6, M6, M.
      unfold IDLE_THRESHOLD_MS in *. lia.
    + rewrite (fire_due_early now _ w5 I5) by lia.
      unfold getActiveTimeMs. rewrite B5, M.
      unfold IDLE_THRESHOLD_MS in *. lia.
Qed.

Lemma idle_gap_beyond_threshold_excluded_witness :
  exists w,
    run_on_time two_bursts {| run := Sample.running; storage := storage boot |}
    = Ok (w, [])
    /\ active_ms_at 5000 w = (1500 - 1000) + (5000 - 4500) + 2000 + 0.
Proof.
  destruct (idle_gap_beyond_threshold_excluded
              {| run := Sample.running; storage := storage boot |}
              (Sample.at_ 1000 (KeyDown (Sample.press "a")))
              (Sample.at_ 4500 (KeyDown (Sample.press "c")))
              [Sample.at_ 1500 (KeyDown (Sample.press "b"))]
              [Sample.at_ 5000 (KeyDown (Sample.press "d"))]
              5000)
    as (w & R & V).
  - reflexivity.
  - reflexivity.
  - reflexivity.
  - reflexivity.
  - reflexivity.
  - repeat constructor.
  - simpl; lia.
  - simpl; unfold IDLE_THRESHOLD_MS; lia.
  - simpl; unfold IDLE_THRESHOLD_MS; lia.
  - simpl; unfold IDLE_THRESHOLD_MS; lia.
  - simpl; lia.
  - exists w. split; [exact R|exact V].
Defined.

(** * Further properties of the engine *)

(** ** The clock against the wall clock *)

Transparent getStats.

Lemma getStats_elapsed (now : Z) (s : State) :
  elapsedTime (fst (getStats now s))
  = match startTime s with
    | Some st =>
        if truthy_time (startTime s) then
          ((if isActive s then now
            else match stopTime s with Some e => e | None => now end) - st) / 1000
        else 0
    | None => 0
    end.
Proof.
  unfold getStats; cbv zeta.
  match goal with |- context [if ?c then set_peakWpm _ _ else _] => destruct c end;
    reflexivity.
Qed.

Opaque getStats.













(** ** What reachable worlds keep *)

Lemma Coherent_getStats (now : Z) (s : State) :
  Coherent s -> Coherent (snd (getStats now s)).
Proof.
  unfold Coherent.
  destruct (getStats_frame now s)
    as (Fa & Fs & _ & Fc & _ & _ & _ & Fu & Fi & Fb & _ & Fo).
  rewrite Fa, Fs, Fc, Fu, Fi, Fb, Fo. exact (fun H => H).
Qed.

Lemma Coherent_key_effect (now : Z) (e : KeyboardEvent) (s : State) :
  isActive s = true -> Coherent s -> Coherent (key_effect now e s).
Proof.
  intros Ha H0. pose proof H0 as (C & S & B & I & Bt & Ob).
  rewrite key_effect_classify. destruct (classify_key e); [exact H0| |].
  - unfold Coherent; simpl. repeat split; try assumption; try apply S;
      try congruence; try (apply B; assumption).
  - unfold Coherent, mark_burst.
    destruct (truthy_time (startTime s)) eqn:T;
      [destruct (burstStart s) eqn:Bs|]; simpl; rewrite ?Bs;
      repeat split; try assumption; try lia; try congruence;
      try (intro X; apply S in X; lia);
      try (intros _ X; apply S in X; lia);
      try (intros _; apply B; congruence).
    all: try (intros _ X; destruct (startTime s); [discriminate|discriminate]).
    all: try (destruct (startTime s); simpl in *; congruence).
Qed.

Lemma Coherent_paste_effect (now : Z) (e : ClipboardEvent) (s : State) :
  isActive s = true -> Coherent s -> Coherent (paste_effect now e s).
Proof.
  intros Ha H0. pose proof H0 as (C & S & B & I & Bt & Ob).
  unfold paste_effect. destruct (0 <? _); [|exact H0].
  unfold Coherent; simpl. repeat split; try assumption; try apply S;
    try congruence; try (apply B; assumption).
Qed.

Lemma Coherent_onIdle (now : Z) (s : State) : Coherent s -> Coherent (onIdle now s).
Proof.
  intros (C & S & B & I & Bt & Ob). unfold Coherent, onIdle.
  destruct (burstStart s) eqn:E; simpl; rewrite ?E; repeat split;
    try assumption; try apply S; try congruence; try (intros _; reflexivity);
    try (intro X; now elim X).
Qed.

Lemma Coherent_step (now : Z) (pg : Page) (ev : Event) (w w' : World)
    (o : option Stats) :
  step now pg ev w = Ok (w', o) -> Coherent (run w) -> Coherent (run w').
Proof.
  intros Hs H. destruct ev as [e | e | | | a]; simpl in Hs.
  - rewrite handleKeyDown_filter in Hs. simpl in Hs. injection Hs as <- _.
    cbn [run with_run].
    destruct (isActive (run w)) eqn:A; simpl; [|assumption].
    destruct (accepted pg e); [|assumption]. now apply Coherent_key_effect.
  - rewrite handlePaste_filter in Hs. simpl in Hs. injection Hs as <- _.
    cbn [run with_run].
    destruct (isActive (run w)) eqn:A; simpl; [|assumption].
    destruct (eligible pg (paste_target e)); [|assumption].
    now apply Coherent_paste_effect.
  - destruct (idleTimer (run w)) as [due|]; [destruct (due <=? now)|];
      injection Hs as <- _; try assumption.
    cbn [run with_run]. now apply Coherent_onIdle.
  - destruct (broadcastTimer (run w)); injection Hs as <- _; [|assumption].
    cbn [run with_run]. now apply Coherent_getStats.
  - unfold onMessage in Hs.
    destruct (String.eqb a "start").
    { unfold startIframeWatcher, createOverlay in Hs.
      destruct (documentElement pg); [|discriminate]. simpl in Hs.
      destruct (overlay (run w)); simpl in Hs;
        [|destruct (body pg); [|discriminate]]; simpl in Hs;
        injection Hs as <- _; cbn [run with_run]; apply Coherent_getStats;
        unfold Coherent; simpl; repeat split; try lia; try congruence. }
    destruct (String.eqb a "stop").
    { injection Hs as <- _. cbn [run with_run]. apply Coherent_getStats.
      destruct H as (C & S & B & I & Bt & Ob).
      unfold Coherent; simpl. repeat split; try assumption; try apply S;
        congruence. }
    destruct (String.eqb a "getStats"); injection Hs as <- _; [|assumption].
    cbn [run with_run]. now apply Coherent_getStats.
Qed.

Lemma Coherent_interrupted (pg : Page) (ev : Event) (w : World) :
  Coherent (run w) -> Coherent (run (interrupted pg ev w)).
Proof.
  intro H. destruct ev as [e | e | | | a]; try exact H. simpl.
  destruct (String.eqb a "start"); [|exact H].
  unfold Coherent; simpl. repeat split; try lia; congruence.
Qed.

Lemma Coherent_reachable (w : World) : reachable w -> Coherent (run w).
Proof.
  induction 1 as [a | now pg ev w w' o _ IH _ Hs | now pg ev w _ IH _ _].
  - unfold Coherent; simpl. repeat split; try lia; congruence.
  - exact (Coherent_step now pg ev w w' o Hs IH).
  - now apply Coherent_interrupted.
Qed.

(** Only ['start'] throws, and only on a document without root element or,
    with no widget yet, without body. *)
Lemma only_start_throws (now : Z) (pg : Page) (ev : Event) (w : World) :
  step now pg ev w = Throw ->
  ev = Message "start"
  /\ (documentElement pg = None \/ overlay (run w) = false /\ body pg = None).
Proof.
  destruct ev as [e | e | | | a]; simpl.
  - rewrite handleKeyDown_filter. discriminate.
  - rewrite handlePaste_filter. discriminate.
  - destruct (idleTimer (run w)) as [due|]; [destruct (due <=? now)|]; discriminate.
  - destruct (broadcastTimer (run w)); discriminate.
  - unfold onMessage. destruct (String.eqb a "start") eqn:A.
    + apply String.eqb_eq in A. subst a. intro H. split; [reflexivity|].
      unfold startIframeWatcher, createOverlay in H.
      destruct (documentElement pg); [right|now left]. simpl in H.
      destruct (overlay (run w)); [discriminate|].
      destruct (body pg); [discriminate|now split].
    + destruct (String.eqb a "stop"); [discriminate|].
      destruct (String.eqb a "getStats"); discriminate.
Qed.

(** A handler that returns keeps the broadcast interval in step with the
    run, and a ['start'] or ['stop'] that returns puts it in step. *)
Lemma broadcast_follows_step (now : Z) (pg : Page) (ev : Event) (w w' : World)
    (o : option Stats) :
  step now pg ev w = Ok (w', o) ->
  (broadcastTimer (run w) = isActive (run w)
   \/ ev = Message "start" \/ ev = Message "stop") ->
  broadcastTimer (run w') = isActive (run w').
Proof.
  intros Hs H. destruct ev as [e | e | | | a]; simpl in Hs.
  - destruct H as [H|[H|H]]; try discriminate.
    rewrite handleKeyDown_filter in Hs. injection Hs as <- _. cbn [run with_run].
    destruct (isActive (run w) && accepted pg e); [|exact H].
    rewrite key_effect_classify. destruct (classify_key e); [exact H|exact H|].
    unfold mark_burst.
    destruct (negb _); [exact H|]. destruct (burstStart (run w)); exact H.
  - destruct H as [H|[H|H]]; try discriminate.
    rewrite handlePaste_filter in Hs. injection Hs as <- _. cbn [run with_run].
    destruct (isActive (run w) && eligible pg (paste_target e)); [|exact H].
    unfold paste_effect. destruct (0 <? _); exact H.
  - destruct H as [H|[H|H]]; try discriminate.
    destruct (idleTimer (run w)) as [due|]; [destruct (due <=? now)|];
      injection Hs as <- _; try exact H.
    cbn [run with_run]. unfold onIdle. destruct (burstStart (run w)); exact H.
  - destruct H as [H|[H|H]]; try discriminate.
    destruct (broadcastTimer (run w)) eqn:B; injection Hs as <- _;
      [|now rewrite B].
    cbn [run with_run].
    destruct (getStats_frame now (run w))
      as (Fa & _ & _ & _ & _ & _ & _ & _ & _ & Fb & _).
    now rewrite Fa, Fb, B.
  - unfold onMessage in Hs.
    destruct (String.eqb a "start") eqn:A.
    { unfold startIframeWatcher, createOverlay in Hs.
      destruct (documentElement pg); [|discriminate]. simpl in Hs.
      destruct (overlay (run w)); simpl in Hs;
        [|destruct (body pg); [|discriminate]]; simpl in Hs;
        injection Hs as <- _; cbn [run with_run];
        match goal with |- context [getStats ?n ?x] =>
          destruct (getStats_frame n x)
            as (Fa & _ & _ & _ & _ & _ & _ & _ & _ & Fb & _) end;
        rewrite Fa, Fb; reflexivity. }
    destruct (String.eqb a "stop") eqn:P.
    { injection Hs as <- _. cbn [run with_run].
      match goal with |- context [getStats ?n ?x] =>
        destruct (getStats_frame n x)
          as (Fa & _ & _ & _ & _ & _ & _ & _ & _ & Fb & _) end.
      rewrite Fa, Fb; reflexivity. }
    destruct H as [H|[H|H]];
      [|injection H as ->; discriminate|injection H as ->; discriminate].
    destruct (String.eqb a "getStats"); injection Hs as <- _; [|exact H].
    cbn [run with_run].
    destruct (getStats_frame now (run w))
      as (Fa & _ & _ & _ & _ & _ & _ & _ & _ & Fb & _).
    now rewrite Fa, Fb.
Qed.

(** A ['start'] on a document without body throws and leaves a run that is
    active with no broadcast interval. *)
Lemma interrupted_start_is_not_broadcast :
  step 500 Sample.bodiless (Message "start") boot = Throw
  /\ reachable (interrupted Sample.bodiless (Message "start") boot)
  /\ isActive (run (interrupted Sample.bodiless (Message "start") boot)) = true
  /\ broadcastTimer (run (interrupted Sample.bodiless (Message "start") boot))
     = false.
Proof.
  split; [reflexivity|]. split; [|split; reflexivity].
  apply (reach_throw 500); [apply reach_boot|lia|reflexivity].
Qed.

(** In every world the script can be in, also after a ['start'] that threw:
    the broadcast interval is armed only while a run is active and the frame
    observer is held exactly then; an idle timeout is pending only inside a
    run; an open burst always has its idle timeout pending, so no burst is
    left open without a timer that will close it. Every handler that returns
    keeps the interval armed exactly while the run is active, and a
    ['start'] or ['stop'] that returns makes it so. *)
Theorem run_resources_follow_activity (w : World) :
  reachable w ->
  (broadcastTimer (run w) = true -> isActive (run w) = true)
  /\ iframeObserver (run w) = isActive (run w)
  /\ (isActive (run w) = false ->
      idleTimer (run w) = None /\ burstStart (run w) = None)
  /\ (forall b, burstStart (run w) = Some b ->
        exists due, idleTimer (run w) = Some due)
  /\ (forall now pg ev w' o,
        step now pg ev w = Ok (w', o) ->
        broadcastTimer (run w) = isActive (run w)
        \/ ev = Message "start" \/ ev = Message "stop" ->
        broadcastTimer (run w') = isActive (run w')).
Proof.
  intro R.
  destruct (Coherent_reachable w R) as (C & S & B & I & Bt & Ob).
  split; [assumption|]. split; [assumption|]. split; [|split].
  - intro Ha. split; [now apply I|].
    destruct (burstStart (run w)) eqn:E; [|reflexivity].
    destruct B as (_ & _ & X); [discriminate|congruence].
  - intros b E. destruct B as (X & _); [congruence|].
    destruct (idleTimer (run w)) as [due|]; [now exists due|now elim X].
  - intros now pg ev w' o. apply broadcast_follows_step.
Qed.

Lemma run_resources_follow_activity_witness :
  iframeObserver (start_interrupted Sample.bodiless initial)
  = isActive (start_interrupted Sample.bodiless initial).
Proof.
  apply (run_resources_follow_activity
           (interrupted Sample.bodiless (Message "start") boot)).
  apply (reach_throw 500); [apply reach_boot|lia|reflexivity].
Defined.

(** In every reachable world a snapshot, whenever it is taken, reports data
    exactly when at least one character has been counted: the start time is
    set with the first counted character and cleared with the counter. *)
Theorem hasData_iff_typed (w : World) (now : Z) :
  reachable w ->
  (hasData (fst (getStats now (run w))) = true
   <-> 0 < st_totalChars (fst (getStats now (run w))))
  /\ (startTime (run w) = None <-> totalChars (run w) = 0).
Proof.
  intro R.
  destruct (Coherent_reachable w R) as (C & S & _). split; [|exact S].
  destruct (getStats_fields now (run w)) as (_ & Tc & _ & _ & _ & Hd).
  rewrite Hd, Tc. destruct (startTime (run w)) as [st|].
  - split; [intros _|reflexivity].
    destruct (Z.eq_dec (totalChars (run w)) 0) as [E|E]; [|lia].
    apply S in E. discriminate.
  - split; [discriminate|]. intro X. destruct S as [S _]. rewrite S in X; [lia|reflexivity].
Qed.

Lemma hasData_iff_typed_witness :
  hasData (fst (getStats 700 Sample.running)) = true
  <-> 0 < st_totalChars (fst (getStats 700 Sample.running)).
Proof.
  apply (hasData_iff_typed {| run := Sample.running; storage := storage boot |} 700).
  apply (reach_step 500 Sample.page (Message "start") boot _
           (Some (fst (getStats 500 Sample.running)))).
  - apply reach_boot.
  - lia.
  - vm_compute. reflexivity.
Defined.

(** ** The three counters *)

Lemma step_tallies (now : Z) (pg : Page) (ev : Event) (w w' : World)
    (o : option Stats) :
  step now pg ev w = Ok (w', o) ->
  ev <> Message "start" -> ev <> Message "stop" ->
  isActive (run w) = true ->
  backspaces (run w')
  = backspaces (run w)
    + (if deletes {| at_time := now; on_page := pg; what := ev |} then 1 else 0)
  /\ pastedChars (run w')
     = pastedChars (run w) + pasted {| at_time := now; on_page := pg; what := ev |}.
Proof.
  intros Hs N1 N2 Ha. unfold deletes, pasted; cbn [what on_page].
  destruct ev as [e | e | | | a]; simpl in Hs.
  - rewrite handleKeyDown_filter in Hs. simpl in Hs. injection Hs as <- _.
    cbn [run with_run]. rewrite Ha. simpl.
    destruct (accepted pg e); simpl; [|lia].
    rewrite key_effect_classify.
    destruct (mark_burst_frame now (run w)) as (_ & _ & _ & B & P & _).
    destruct (classify_key e); simpl; rewrite ?B, ?P; lia.
  - rewrite handlePaste_filter in Hs. simpl in Hs. injection Hs as <- _.
    cbn [run with_run]. rewrite Ha. simpl.
    destruct (eligible pg (paste_target e)); [|lia].
    unfold paste_effect. destruct (0 <? _) eqn:L; simpl; lia.
  - destruct (idleTimer (run w)) as [due|]; [destruct (due <=? now)|];
      injection Hs as <- _; try lia.
    simpl. unfold onIdle. destruct (burstStart (run w)); simpl; lia.
  - destruct (getStats_frame now (run w)) as (_ & _ & _ & _ & B & P & _).
    destruct (broadcastTimer (run w)); injection Hs as <- _;
      cbn [run with_run]; rewrite ?B, ?P; lia.
  - unfold onMessage in Hs.
    destruct (String.eqb a "start") eqn:E1.
    { apply String.eqb_eq in E1. subst a. now elim N1. }
    destruct (String.eqb a "stop") eqn:E2.
    { apply String.eqb_eq in E2. subst a. now elim N2. }
    destruct (getStats_frame now (run w)) as (_ & _ & _ & _ & B & P & _).
    destruct (String.eqb a "getStats"); injection Hs as <- _;
      cbn [run with_run]; rewrite ?B, ?P; lia.
Qed.

Lemma run_tallies (tr : list Occurrence) (w w' : World) (out : list Stats) :
  run_trace tr w = Ok (w', out) ->
  inside_run tr ->
  isActive (run w) = true ->
  backspaces (run w') = backspaces (run w) + deleted_keys tr
  /\ pastedChars (run w') = pastedChars (run w) + pasted_chars tr.
Proof.
  intros Hr Hi. revert w w' out Hr.
  induction Hi as [|o tr [N1 N2] Hi IH]; intros w w' out Hr Ha.
  - injection Hr as <- _. unfold deleted_keys, pasted_chars; simpl. lia.
  - simpl in Hr.
    destruct (step (at_time o) (on_page o) (what o) w) as [[w1 o1]|] eqn:S;
      [|discriminate]. simpl in Hr.
    destruct (run_trace tr w1) as [[w2 out2]|] eqn:R; [|discriminate].
    simpl in Hr. injection Hr as <- _.
    destruct (step_counts _ _ _ _ _ _ S N1 N2 Ha) as [A1 _].
    destruct (step_tallies _ _ _ _ _ _ S N1 N2 Ha) as [B1 P1].
    destruct (IH _ _ _ R A1) as [B2 P2].
    rewrite B2, P2, B1, P1.
    replace {| at_time := at_time o; on_page := on_page o; what := what o |}
      with o by now destruct o.
    unfold deleted_keys, pasted_chars. simpl filter. simpl fold_right.
    destruct (deletes o); simpl List.length; lia.
Qed.

(** In a run (a ['start'], then events with no further ['start'] or ['stop'])
    the three counters are tallies of the input: the character counter is the
    number of accepted printable or Enter keys, the backspace counter the
    number of accepted Backspace or Delete keys, the paste counter the total
    length of the texts pasted into editable surfaces; no kind of input moves
    the counter of another. *)
Theorem counters_are_tallies (now0 : Z) (pg0 : Page) (w0 w1 : World)
    (o1 : option Stats) (tr : list Occurrence) :
  onMessage now0 pg0 "start" w0 = Ok (w1, o1) ->
  inside_run tr ->
  exists w2 out,
    run_trace tr w1 = Ok (w2, out)
    /\ totalChars (run w2) = typed_chars tr
    /\ backspaces (run w2) = deleted_keys tr
    /\ pastedChars (run w2) = pasted_chars tr.
Proof.
  intros Hstart Hin.
  destruct (run_trace_total tr w1) as (w2 & out & Hrun).
  { eapply Forall_impl; [|exact Hin]. now intros o [N _]. }
  exists w2, out. split; [exact Hrun|].
  assert (H1 : run w1 = Sample.running).
  { revert Hstart. unfold onMessage; simpl.
    unfold startIframeWatcher, createOverlay.
    destruct (documentElement pg0); [|discriminate]. simpl.
    destruct (getStats_at_rest now0 Sample.running eq_refl eq_refl eq_refl)
      as (S & _).
    destruct (overlay (run w0)); simpl; [|destruct (body pg0); [|discriminate]];
      simpl; intro Hs; injection Hs as <- _; exact S. }
  assert (Ha : isActive (run w1) = true) by now rewrite H1.
  destruct (run_counts tr w1 w2 out Hrun Hin Ha) as [_ C].
  destruct (run_tallies tr w1 w2 out Hrun Hin Ha) as [B P].
  rewrite H1 in C, B, P. simpl in C, B, P. repeat split; assumption.
Qed.

Lemma counters_are_tallies_witness :
  exists w2 out,
    run_trace twenty_five_keys {| run := Sample.running; storage := storage boot |}
    = Ok (w2, out)
    /\ totalChars (run w2) = 25 /\ backspaces (run w2) = 0
    /\ pastedChars (run w2) = 0.
Proof.
  apply (counters_are_tallies 500 Sample.page boot
           {| run := Sample.running; storage := storage boot |}
           (Some (fst (getStats 500 Sample.running))) twenty_five_keys).
  - vm_compute; reflexivity.
  - repeat constructor; discriminate.
Defined.

(** ** Input that is not typing *)

Lemma inert_step (o : Occurrence) (w : World) :
  inert o = true ->
  step (at_time o) (on_page o) (what o) w = Ok (w, None).
Proof.
  unfold inert. intro H.
  assert (W : with_run (run w) w = w) by now destruct w.
  destruct (what o) as [e | e | | | a]; try discriminate; simpl.
  - rewrite handleKeyDown_filter. simpl.
    destruct (isActive (run w)); simpl; [|now rewrite W].
    destruct (accepted (on_page o) e); simpl in *; [|now rewrite W].
    rewrite key_effect_classify.
    destruct (classify_key e); try discriminate. now rewrite W.
  - rewrite handlePaste_filter. simpl.
    destruct (isActive (run w)); simpl; [|now rewrite W].
    destruct (eligible (on_page o) (paste_target e)); simpl in *; [|now rewrite W].
    unfold paste_effect. apply Nat.eqb_eq in H. rewrite H. simpl. now rewrite W.
Qed.

(** Auto-repeats, keys and pastes outside an editable surface, ignored keys
    and pastes without text are invisible: taking them out of any trace
    changes neither the final world nor the snapshots sent. *)
Theorem noise_is_invisible (tr : list Occurrence) (w : World) :
  run_trace (filter (fun o => negb (inert o)) tr) w = run_trace tr w.
Proof.
  revert w. induction tr as [|o tr IH]; intro w; [reflexivity|].
  simpl filter. destruct (inert o) eqn:I; simpl negb; cbv iota.
  - simpl run_trace. rewrite (inert_step o w I). simpl.
    rewrite IH. destruct (run_trace tr w) as [[w' out]|]; reflexivity.
  - simpl run_trace.
    destruct (step (at_time o) (on_page o) (what o) w) as [[w1 o1]|];
      simpl; [|reflexivity].
    now rewrite IH.
Qed.

(** ** Storage and the run *)

Lemma step_same_run (now : Z) (pg : Page) (ev : Event) (s : State)
    (a1 a2 : StorageArea) :
  match step now pg ev {| run := s; storage := a1 |},
        step now pg ev {| run := s; storage := a2 |} with
  | Ok (w1, o1), Ok (w2, o2) => run w1 = run w2 /\ o1 = o2
  | Throw, Throw => True
  | _, _ => False
  end.
Proof.
  destruct ev as [e | e | | | a]; simpl.
  - rewrite handleKeyDown_filter. simpl. now split.
  - rewrite handlePaste_filter. simpl. now split.
  - destruct (idleTimer s) as [due|]; [destruct (due <=? now)|]; now split.
  - destruct (broadcastTimer s); now split.
  - unfold onMessage; cbn [run storage].
    destruct (String.eqb a "start").
    { destruct (startIframeWatcher pg (start_reset s)) as [s1|]; simpl; [|trivial].
      destruct (createOverlay pg s1) as [s2|]; simpl; [|trivial]. now split. }
    destruct (String.eqb a "stop"); [now split|].
    destruct (String.eqb a "getStats"); now split.
Qed.

(** What the storage area holds, and whether it resolves or rejects, never
    reaches the run: from the same run state, the same trace gives the same
    run state and the same snapshots, or throws in both. *)
Theorem storage_never_reaches_the_run (tr : list Occurrence) (s : State)
    (a1 a2 : StorageArea) :
  same_run (run_trace tr {| run := s; storage := a1 |})
           (run_trace tr {| run := s; storage := a2 |}).
Proof.
  revert s a1 a2. induction tr as [|o tr IH]; intros s a1 a2; simpl.
  - now split.
  - pose proof (step_same_run (at_time o) (on_page o) (what o) s a1 a2) as H.
    destruct (step _ _ _ {| run := s; storage := a1 |}) as [[w1 o1]|];
      destruct (step _ _ _ {| run := s; storage := a2 |}) as [[w2 o2]|];
      simpl; try contradiction; [|trivial].
    destruct H as [Hr ->]. destruct w1 as [s1 b1], w2 as [s2 b2].
    simpl in Hr. subst s2.
    specialize (IH s1 b1 b2). unfold same_run in *.
    destruct (run_trace tr {| run := s1; storage := b1 |}) as [[w1' out1]|];
      destruct (run_trace tr {| run := s1; storage := b2 |}) as [[w2' out2]|];
      simpl; try contradiction; [|trivial].
    destruct IH as [-> ->]. now split.
Qed.

(** ** After a stop *)

Lemma Stats_ext (a b : Stats) :
  st_isActive a = st_isActive b -> wpm a = wpm b -> cpm a = cpm b ->
  st_totalChars a = st_totalChars b -> st_backspaces a = st_backspaces b ->
  st_pastedChars a = st_pastedChars b -> elapsedTime a = elapsedTime b ->
  activeTime a = activeTime b -> st_peakWpm a = st_peakWpm b ->
  hasData a = hasData b -> a = b.
Proof. destruct a, b; simpl; intros; now subst. Qed.

(** A snapshot is a function of the fields it reads. *)
Lemma getStats_same_reading (t1 t2 : Z) (s1 s2 : State) :
  getActiveTimeMs t1 s1 = getActiveTimeMs t2 s2 ->
  totalChars s1 = totalChars s2 ->
  wpm (fst (getStats t1 s1)) = wpm (fst (getStats t2 s2))
  /\ cpm (fst (getStats t1 s1)) = cpm (fst (getStats t2 s2))
  /\ activeTime (fst (getStats t1 s1)) = activeTime (fst (getStats t2 s2)).
Proof.
  intros A C.
  destruct (getStats_speed t1 s1) as [W1 C1].
  destruct (getStats_speed t2 s2) as [W2 C2].
  destruct (getStats_fields t1 s1) as (_ & _ & _ & _ & A1 & _).
  destruct (getStats_fields t2 s2) as (_ & _ & _ & _ & A2 & _).
  rewrite W1, C1, A1, W2, C2, A2, A, C. repeat split.
Qed.

Lemma getStats_after_stop (now t : Z) (s : State) :
  getStats t (snd (getStats now (stop_finalize now s)))
  = getStats now (stop_finalize now s).
Proof.
  set (c := stop_finalize now s). set (s3 := snd (getStats now c)).
  destruct (getStats_frame now c)
    as (Fa & Fs & Fe & Fc & Fb & Fp & Fm & Fu & Fi & _).
  fold s3 in Fa, Fs, Fe, Fc, Fb, Fp, Fm, Fu, Fi.
  assert (A : getActiveTimeMs t s3 = getActiveTimeMs now c).
  { unfold getActiveTimeMs. rewrite Fu, Fm. reflexivity. }
  destruct (getStats_same_reading t now s3 c A Fc) as (W & C & At).
  destruct (getStats_peak now c) as [Pk Pr]. fold s3 in Pk, Pr.
  assert (S : snd (getStats t s3) = s3).
  { rewrite getStats_state, W.
    destruct (peakWpm s3 <? wpm (fst (getStats now c))) eqn:L; [|reflexivity].
    apply Z.ltb_lt in L. lia. }
  rewrite (surjective_pairing (getStats t s3)),
          (surjective_pairing (getStats now c)).
  fold s3. rewrite S. f_equal.
  destruct (getStats_fields t s3) as (G1 & G2 & G3 & G4 & _ & G6).
  destruct (getStats_fields now c) as (K1 & K2 & K3 & K4 & _ & K6).
  destruct (getStats_peak t s3) as [_ Pt]. rewrite S in Pt.
  apply Stats_ext; try assumption; try congruence.
  rewrite !getStats_elapsed, Fs, Fa, Fe. unfold c; simpl.
  destruct (startTime s) as [st|]; [|reflexivity].
  destruct (truthy_time (Some st)); reflexivity.
Qed.

Lemma stopped_step (now t : Z) (pg pg' : Page) (ev : Event) (w : World) :
  ev <> Message "start" -> ev <> Message "stop" ->
  let snapshot := getStats now (stop_finalize now (run w)) in
  let w3 := {| run := snd snapshot;
               storage := saveSession now pg (fst snapshot) (storage w) |} in
  step t pg' ev w3 = Ok (w3, None)
  \/ step t pg' ev w3 = Ok (w3, Some (fst snapshot)).
Proof.
  intros N1 N2 snapshot w3.
  destruct (getStats_frame now (stop_finalize now (run w)))
    as (Fa & _ & _ & _ & _ & _ & _ & _ & Fi & Fb & _).
  fold snapshot in Fa, Fi, Fb. simpl in Fa, Fi, Fb.
  assert (G : getStats t (run w3) = snapshot)
    by apply getStats_after_stop.
  assert (W : with_run (snd snapshot) w3 = w3) by reflexivity.
  destruct ev as [e | e | | | a]; simpl.
  - left. rewrite handleKeyDown_filter. cbn [run w3]. rewrite Fa. reflexivity.
  - left. rewrite handlePaste_filter. cbn [run w3]. rewrite Fa. reflexivity.
  - left. cbn [run w3]. rewrite Fi. reflexivity.
  - left. cbn [run w3]. rewrite Fb. reflexivity.
  - unfold onMessage.
    destruct (String.eqb a "start") eqn:E1.
    { apply String.eqb_eq in E1. subst a. now elim N1. }
    destruct (String.eqb a "stop") eqn:E2.
    { apply String.eqb_eq in E2. subst a. now elim N2. }
    destruct (String.eqb a "getStats"); [right|left; reflexivity].
    cbv zeta. rewrite G. now rewrite W.
Qed.

(** Once a ['stop'] has been handled the engine is frozen until the next
    ['start']: key and paste events, a late idle timeout and a late broadcast
    tick change nothing and send nothing, and every query, at whatever time,
    is answered with the final snapshot of the stop and changes nothing. *)
Theorem stopped_engine_is_frozen (now : Z) (pg : Page) (w : World)
    (tr : list Occurrence) :
  inside_run tr ->
  exists w3 final out,
    onMessage now pg "stop" w = Ok (w3, Some final)
    /\ run_trace tr w3 = Ok (w3, out)
    /\ Forall (fun st => st = final) out
    /\ (List.length out <= List.length tr)%nat.
Proof.
  intro Hin. unfold onMessage; simpl.
  set (snapshot := getStats now (stop_finalize now (run w))).
  set (w3 := {| run := snd snapshot;
                storage := saveSession now pg (fst snapshot) (storage w) |}).
  exists w3, (fst snapshot).
  assert (G : exists out, run_trace tr w3 = Ok (w3, out)
                          /\ Forall (fun st => st = fst snapshot) out
                          /\ (List.length out <= List.length tr)%nat).
  { induction Hin as [|o tr [N1 N2] _ IH].
    - exists []. repeat split; [constructor|simpl; lia].
    - destruct IH as (out & R & F & L). simpl run_trace.
      destruct (stopped_step now (at_time o) pg (on_page o) (what o) w N1 N2)
        as [S|S]; fold snapshot in S; fold w3 in S; rewrite S; simpl;
        rewrite R; simpl; eexists; (split; [reflexivity|]).
      + split; [exact F|simpl; lia].
      + split; [constructor; [reflexivity|exact F]|simpl; lia]. }
  destruct G as (out & R & F & L). exists out. repeat split; assumption.
Qed.

Lemma stopped_engine_is_frozen_witness :
  exists w3 final out,
    onMessage 5000 Sample.page "stop"
      {| run := Sample.running; storage := storage boot |} = Ok (w3, Some final)
    /\ run_trace [Sample.at_ 6000 (KeyDown (Sample.press "a"));
                  Sample.at_ 9000 IdleTimeout;
                  Sample.at_ 9500 (Message "getStats")] w3 = Ok (w3, out)
    /\ Forall (fun st => st = final) out.
Proof.
  destruct (stopped_engine_is_frozen 5000 Sample.page
              {| run := Sample.running; storage := storage boot |}
              [Sample.at_ 6000 (KeyDown (Sample.press "a"));
               Sample.at_ 9000 IdleTimeout;
               Sample.at_ 9500 (Message "getStats")])
    as (w3 & final & out & H1 & H2 & H3 & _).
  - repeat constructor; discriminate.
  - exists w3, final, out. repeat split; assumption.
Defined.




(** ** Steady typing *)

(** In a fresh run whose timers run on time, while countable keys follow one
    another less than 2000 ms apart the idle timeout never runs and the
    active time is the wall-clock time since the first key; it stops growing
    2000 ms after the last key. Every key is counted. *)
Theorem steady_typing_is_all_active (w : World) (k : Occurrence)
    (ks : list Occurrence) (now : Z) :
  isActive (run w) = true ->
  startTime (run w) = None ->
  burstStart (run w) = None ->
  idleTimer (run w) = None ->
  accumulatedActiveMs (run w) = 0 ->
  all_count (k :: ks) ->
  0 < at_time k ->
  spaced (at_time k) (map at_time ks) ->
  let last_key := last (map at_time ks) (at_time k) in
  last_key <= now ->
  exists w',
    run_on_time (k :: ks) w = Ok (w', [])
    /\ startTime (run w') = Some (at_time k)
    /\ burstStart (run w') = Some (at_time k)
    /\ active_ms_at now w'
       = Z.min now (last_key + IDLE_THRESHOLD_MS) - at_time k.
Proof.
  intros Ha Hst Hb Hi Hacc Hall Hp Hs last_key Hnow.
  apply Forall_cons_iff in Hall. destruct Hall as [C1 Cs].
  destruct (burst_opens k w C1 Hp Ha Hb (or_introl Hst))
    as (w1 & S1 & A1 & T1 & B1 & I1 & M1).
  assert (St1 : startTime (run w1) = Some (at_time k)).
  { rewrite (counts_step k w C1 Ha) in S1. injection S1 as <-.
    cbn [run with_run]. unfold mark_burst. rewrite Hst. reflexivity. }
  destruct (burst_continues ks w1 (at_time k) (at_time k) Cs Hs A1 T1 B1 I1)
    as (w2 & R2 & A2 & T2 & B2 & I2 & M2).
  fold last_key in I2.
  exists w2. split.
  { cbn [run_on_time]. rewrite (fire_due_none _ w Hi), S1. cbn [bind fst snd].
    rewrite R2. reflexivity. }
  split; [congruence|]. split; [exact B2|].
  assert (M : accumulatedActiveMs (run w2) = 0) by congruence.
  unfold active_ms_at.
  destruct (Z_le_gt_dec (last_key + IDLE_THRESHOLD_MS) now) as [Late|Early].
  - rewrite (fire_due_late now _ w2 I2 Late). cbn [run with_run].
    destruct (onIdle_open (last_key + IDLE_THRESHOLD_MS) _ _ B2)
      as (_ & _ & B3 & _ & M3).
    unfold getActiveTimeMs. rewrite B3, M3, M. lia.
  - rewrite (fire_due_early now _ w2 I2) by lia.
    unfold getActiveTimeMs. rewrite B2, M. lia.
Qed.

Lemma steady_typing_is_all_active_witness :
  exists w,
    run_on_time twenty_five_keys {| run := Sample.running; storage := storage boot |}
    = Ok (w, [])
    /\ active_ms_at 4000 w = 3000.
Proof.
  destruct (steady_typing_is_all_active
              {| run := Sample.running; storage := storage boot |}
              (Sample.at_ 1000 (KeyDown (Sample.press "x")))
              (tl twenty_five_keys) 4000)
    as (w & R & _ & _ & V).
  - reflexivity.
  - reflexivity.
  - reflexivity.
  - reflexivity.
  - reflexivity.
  - repeat constructor.
  - simpl; lia.
  - vm_compute. intuition discriminate.
  - vm_compute. discriminate.
  - exists w. split; [exact R|exact V].
Defined.

(** ** The two speeds of a snapshot *)

(** With a non-negative character counter, the WPM and CPM of a snapshot are
    never negative; both are zero when nothing was typed or no active time
    has passed; for a counter up to 2^30 and active milliseconds below 2^53
    the CPM is within 3 of five times the WPM; and the peak reported is at
    least the WPM. *)
Theorem speeds_agree (now : Z) (s : State) :
  0 <= totalChars s ->
  let st := fst (getStats now s) in
  0 <= wpm st /\ 0 <= cpm st
  /\ (totalChars s = 0 \/ getActiveTimeMs now s <= 0 -> wpm st = 0 /\ cpm st = 0)
  /\ (totalChars s <= 2 ^ 30 -> getActiveTimeMs now s < 2 ^ 53 ->
      5 * wpm st - 3 <= cpm st <= 5 * wpm st + 3)
  /\ wpm st <= st_peakWpm st.
Proof.
  intros Hc st.
  destruct (getStats_peak now s) as [P1 P2]. fold st in P1, P2.
  destruct (speeds_nonneg now s Hc) as [N1 N2]. fold st in N1, N2.
  destruct (getStats_speed now s) as [W C]. fold st in W, C.
  rewrite minutes_positive in W, C.
  assert (Zero : totalChars s = 0 \/ getActiveTimeMs now s <= 0 ->
                 wpm st = 0 /\ cpm st = 0).
  { intros [Z0|Z0]; [now apply speeds_zero_without_chars|].
    replace (0 <? getActiveTimeMs now s) with false in W, C
      by (symmetry; apply Z.ltb_ge; exact Z0).
    now split. }
  split; [exact N1|]. split; [exact N2|]. split; [exact Zero|].
  split; [|rewrite P2, P1; lia].
  intros Hc' Hm.
  destruct (Z.eq_dec (totalChars s) 0) as [C0|C0];
    [destruct Zero as [-> ->]; [now left|lia]|].
  destruct (Z_le_gt_dec (getActiveTimeMs now s) 0) as [M0|M0];
    [destruct Zero as [-> ->]; [now right|lia]|].
  replace (0 <? getActiveTimeMs now s) with true in W, C
    by (symmetry; apply Z.ltb_lt; lia).
  destruct (speeds_close (totalChars s) (getActiveTimeMs now s))
    as [[W1 W2] [Q1 Q2]]; [lia|lia|].
  rewrite <- W in W1, W2. rewrite <- C in Q1, Q2. nia.
Qed.

Lemma speeds_agree_witness :
  5 * wpm (fst (getStats 30000 (set_accumulatedActiveMs 24000
                                  (set_totalChars 3 Sample.running)))) - 3
  <= cpm (fst (getStats 30000 (set_accumulatedActiveMs 24000
                                 (set_totalChars 3 Sample.running))))
  <= 5 * wpm (fst (getStats 30000 (set_accumulatedActiveMs 24000
                                     (set_totalChars 3 Sample.running)))) + 3.
Proof.
  apply (speeds_agree 30000
           (set_accumulatedActiveMs 24000 (set_totalChars 3 Sample.running))).
  - simpl; lia.
  - vm_compute; discriminate.
  - vm_compute; reflexivity.
Defined.

(** ** Which keys count *)

Lemma ignored_keys_are_named (k : string) :
  JsString.mem k IGNORED_KEYS = true ->
  (String.length k =? 1)%nat = false
  /\ String.eqb k "Enter" = false
  /\ String.eqb k "Backspace" = false
  /\ String.eqb k "Delete" = false.
Proof.
  unfold JsString.mem. intro H. apply existsb_exists in H.
  destruct H as (x & Hin & E). apply String.eqb_eq in E. subst x.
  unfold IGNORED_KEYS in Hin.
  repeat (destruct Hin as [<-|Hin]; [repeat split; reflexivity|]).
  contradiction.
Qed.

(** What the key filter does with a key depends on three things only: a key
    pressed with Ctrl or Cmd is ignored; otherwise Backspace and Delete are
    deletions, a key whose name is one character long, and Enter, is a
    countable character, and every other named key is ignored. The ignore set
    never decides: each of its keys is a named key that the last rule would
    ignore as well. Shift and Alt do not stop a key from counting. *)
Theorem key_classes (e : KeyboardEvent) :
  classify_key e
  = (if isShortcut e then Ignored
     else if String.eqb (key e) "Backspace" || String.eqb (key e) "Delete"
          then Deletion
     else if (String.length (key e) =? 1)%nat || String.eqb (key e) "Enter"
          then Countable
     else Ignored)
  /\ (forall now s,
        key_effect now e s
        = (if isShortcut e then s
           else if String.eqb (key e) "Backspace" || String.eqb (key e) "Delete"
                then resetIdleTimer now (set_backspaces (backspaces s + 1) s)
           else if (String.length (key e) =? 1)%nat || String.eqb (key e) "Enter"
                then resetIdleTimer now
                       (set_totalChars (totalChars s + 1) (mark_burst now s))
           else s)).
Proof.
  assert (K : classify_key e
              = (if isShortcut e then Ignored
                 else if String.eqb (key e) "Backspace" || String.eqb (key e) "Delete"
                      then Deletion
                 else if (String.length (key e) =? 1)%nat
                         || String.eqb (key e) "Enter"
                      then Countable
                 else Ignored)).
  { unfold classify_key.
    destruct (JsString.mem (key e) IGNORED_KEYS) eqn:M; [|reflexivity].
    destruct (ignored_keys_are_named _ M) as (L & E & B & D).
    rewrite L, E, B, D. simpl. now destruct (isShortcut e). }
  split; [exact K|].
  intros now s. rewrite key_effect_classify, K.
  destruct (isShortcut e); [reflexivity|].
  destruct (_ || _); [reflexivity|].
  destruct (_ || _); reflexivity.
Qed.

(** ** The host editor heuristic *)

Lemma prefix_spec (p s : string) :
  prefix p s = true <-> exists b, s = (p ++ b)%string.
Proof.
  revert s. induction p as [|a p IH]; intro s.
  - destruct s; simpl; (split; [intros _; eexists; reflexivity|reflexivity]).
  - destruct s as [|c s]; simpl.
    + split; [discriminate|]. intros (b & H). discriminate.
    + destruct (ascii_dec a c) as [->|N].
      * rewrite IH. split; intros (b & H); exists b; congruence.
      * split; [discriminate|]. intros (b & H). congruence.
Qed.

Lemma includes_spec (pat s : string) :
  JsString.includes pat s = true <-> exists a b, s = (a ++ pat ++ b)%string.
Proof.
  induction s as [|c s IH].
  - cbn [JsString.includes]. rewrite orb_false_r, prefix_spec. split.
    + intros (b & H). exists "", b. exact H.
    + intros (a & b & H). destruct a; [exists b; exact H|discriminate].
  - cbn [JsString.includes]. rewrite orb_true_iff, prefix_spec, IH. split.
    + intros [(b & H)|(a & b & H)].
      * exists "", b. exact H.
      * exists (String c a), b. simpl. now rewrite H.
    + intros (a & b & H). destruct a as [|c' a].
      * left. exists b. exact H.
      * right. exists a, b. simpl in H. congruence.
Qed.

Lemma substring_all (s : string) : substring 0 (String.length s) s = s.
Proof. induction s; simpl; [reflexivity|now rewrite IHs]. Qed.

Lemma substring_after (p suf : string) :
  substring (String.length p) (String.length suf) (p ++ suf) = suf.
Proof. induction p; simpl; [apply substring_all|assumption]. Qed.

Lemma length_app (a b : string) :
  String.length (a ++ b) = (String.length a + String.length b)%nat.
Proof. induction a; simpl; [reflexivity|now rewrite IHa]. Qed.

Lemma substring_split (n : nat) (s : string) :
  (n <= String.length s)%nat ->
  exists p, s = (p ++ substring n (String.length s - n) s)%string.
Proof.
  revert s. induction n as [|n IH]; intros s H.
  - exists "". rewrite Nat.sub_0_r, substring_all. reflexivity.
  - destruct s as [|c s]; [simpl in H; lia|].
    simpl in H. destruct (IH s) as (p & Hp); [lia|].
    exists (String c p). simpl. now rewrite <- Hp.
Qed.

Lemma endsWith_spec (s suffix : string) :
  JsString.endsWith s suffix = true <-> exists p, s = (p ++ suffix)%string.
Proof.
  unfold JsString.endsWith. rewrite andb_true_iff, Nat.leb_le, String.eqb_eq.
  split.
  - intros [L E].
    destruct (substring_split (String.length s - String.length suffix) s)
      as (p & Hp); [lia|].
    replace (String.length s - (String.length s - String.length suffix))%nat
      with (String.length suffix) in Hp by lia.
    rewrite E in Hp. now exists p.
  - intros (p & ->). rewrite length_app. split; [lia|].
    replace (String.length p + String.length suffix - String.length suffix)%nat
      with (String.length p) by lia.
    apply substring_after.
Qed.

(** [isGoogleDocsActive] holds exactly when the host name ends with
    [google.com] (whatever stands before it, with or without a dot), the path
    has one of the segments [document], [spreadsheets], [presentation],
    [forms] between two slashes, and some element has the focus that is
    neither the body nor the root element. *)
Theorem host_editor_characterised (pg : Page) :
  isGoogleDocsActive pg = true
  <-> (exists p, hostname pg = (p ++ "google.com")%string)
      /\ (exists a b seg,
            In seg ["document"; "spreadsheets"; "presentation"; "forms"]
            /\ pathname pg = (a ++ ("/" ++ seg ++ "/") ++ b)%string)
      /\ (exists e, activeElement pg = Some e
                    /\ (forall x, body pg = Some x -> node_id e <> node_id x)
                    /\ (forall x, documentElement pg = Some x ->
                          node_id e <> node_id x)).
Proof.
  assert (D : forall e o, differs e o = true
                          <-> forall x, o = Some x -> node_id e <> node_id x).
  { intros e [x|]; simpl.
    - rewrite negb_true_iff, Nat.eqb_neq. split.
      + intros H y E. injection E as <-. exact H.
      + intros H. now apply H.
    - split; [intros _ x E; discriminate|reflexivity]. }
  assert (P : editor_path (pathname pg) = true
              <-> exists a b seg,
                    In seg ["document"; "spreadsheets"; "presentation"; "forms"]
                    /\ pathname pg = (a ++ ("/" ++ seg ++ "/") ++ b)%string).
  { unfold editor_path. rewrite !orb_true_iff, !includes_spec. split.
    - intros [[[(a & b & H)|(a & b & H)]|(a & b & H)]|(a & b & H)];
        exists a, b;
        [exists "document"|exists "spreadsheets"
        |exists "presentation"|exists "forms"];
        (split; [simpl; tauto|exact H]).
    - intros (a & b & seg & Hin & H). simpl in Hin.
      destruct Hin as [<-|[<-|[<-|[<-|[]]]]];
        [left; left; left|left; left; right|left; right|right];
        exists a, b; exact H. }
  unfold isGoogleDocsActive.
  destruct (JsString.endsWith (hostname pg) "google.com") eqn:H; simpl.
  - apply endsWith_spec in H.
    destruct (editor_path (pathname pg)) eqn:E; simpl.
    + assert (E' := proj1 P eq_refl).
      destruct (activeElement pg) as [e|].
      * rewrite andb_true_iff, !D. split.
        -- intros [B R]. split; [exact H|]. split; [exact E'|].
           exists e. now repeat split.
        -- intros (_ & _ & e' & X & B & R). injection X as <-. now split.
      * split; [discriminate|]. intros (_ & _ & e' & X & _). discriminate.
    + split; [discriminate|]. intros (_ & X & _). apply P in X. discriminate.
  - split; [discriminate|]. intros (X & _). apply endsWith_spec in X. congruence.
Qed.

(** * The popup *)

(** ** Escaping *)

Lemma app_assoc_string (a b c : string) :
  ((a ++ b) ++ c = a ++ (b ++ c))%string.
Proof. induction a as [|x a IH]; simpl; [reflexivity|now rewrite IH]. Qed.

Lemma replace_char_app (c : ascii) (by_ a b : string) :
  replace_char c by_ (a ++ b)
  = (replace_char c by_ a ++ replace_char c by_ b)%string.
Proof.
  induction a as [|x a IH]; simpl; [reflexivity|].
  destruct (Ascii.eqb x c); simpl; rewrite IH; [|reflexivity].
  now rewrite app_assoc_string.
Qed.

Lemma escapeHtml_each (s : string) : escapeHtml s = escape_each s.
Proof.
  unfold escapeHtml. induction s as [|c s IH]; [reflexivity|].
  cbn [replace_char escape_each]. unfold escape_char.
  destruct (Ascii.eqb_spec c "&") as [->|N1].
  { rewrite !replace_char_app, IH. reflexivity. }
  cbn [replace_char].
  destruct (Ascii.eqb_spec c "<") as [->|N2].
  { rewrite !replace_char_app, IH. reflexivity. }
  cbn [replace_char].
  destruct (Ascii.eqb_spec c ">") as [->|N3].
  { rewrite IH. reflexivity. }
  now rewrite IH.
Qed.

Lemma occurs_app (c : ascii) (a b : string) :
  occurs c (a ++ b) = occurs c a || occurs c b.
Proof.
  induction a as [|x a IH]; simpl; [reflexivity|].
  now rewrite IH, orb_assoc.
Qed.

(** Escaped text holds no angle bracket, so no markup; and text is returned
    as it is exactly when it holds none of the three characters escaped. *)
Theorem escapeHtml_leaves_no_markup (s : string) :
  occurs "<" (escapeHtml s) = false
  /\ occurs ">" (escapeHtml s) = false
  /\ (escapeHtml s = s
      <-> occurs "&" s = false /\ occurs "<" s = false /\ occurs ">" s = false).
Proof.
  rewrite escapeHtml_each.
  assert (A : forall c, occurs "<" (escape_char c) = false
                        /\ occurs ">" (escape_char c) = false).
  { intro c. unfold escape_char.
    destruct (Ascii.eqb_spec c "&"); [split; reflexivity|].
    destruct (Ascii.eqb_spec c "<"); [split; reflexivity|].
    destruct (Ascii.eqb_spec c ">"); [split; reflexivity|].
    simpl. rewrite !orb_false_r. split; now apply Ascii.eqb_neq. }
  split; [|split].
  - induction s as [|c s IH]; [reflexivity|].
    simpl. rewrite occurs_app, IH. now destruct (A c) as [-> _].
  - induction s as [|c s IH]; [reflexivity|].
    simpl. rewrite occurs_app, IH. now destruct (A c) as [_ ->].
  - assert (L : forall t, (String.length t <= String.length (escape_each t))%nat).
    { induction t as [|c t IH]; simpl; [lia|].
      rewrite length_app. unfold escape_char.
      destruct (Ascii.eqb c "&"); [simpl; lia|].
      destruct (Ascii.eqb c "<"); [simpl; lia|].
      destruct (Ascii.eqb c ">"); simpl; lia. }
    induction s as [|c s IH]; [split; [repeat split|reflexivity]|].
    simpl. unfold escape_char.
    destruct (Ascii.eqb_spec c "&") as [->|N1].
    { split; [|intros (X & _); discriminate].
      intro H. apply (f_equal String.length) in H. simpl in H.
      specialize (L s). lia. }
    destruct (Ascii.eqb_spec c "<") as [->|N2].
    { split; [|intros (_ & X & _); discriminate].
      intro H. apply (f_equal String.length) in H. simpl in H.
      specialize (L s). lia. }
    destruct (Ascii.eqb_spec c ">") as [->|N3].
    { split; [|intros (_ & _ & X); discriminate].
      intro H. apply (f_equal String.length) in H. simpl in H.
      specialize (L s). lia. }
    simpl. rewrite <- IH. split; [intro H; now injection H|intros ->; reflexivity].
Qed.

Lemma escape_each_injective (s1 s2 : string) :
  escape_each s1 = escape_each s2 -> s1 = s2.
Proof.
  revert s2. induction s1 as [|c1 s1 IH]; intros [|c2 s2] H;
    [reflexivity| | |].
  - exfalso. simpl in H. unfold escape_char in H.
    destruct (Ascii.eqb c2 "&"); [discriminate|].
    destruct (Ascii.eqb c2 "<"); [discriminate|].
    destruct (Ascii.eqb c2 ">"); discriminate.
  - exfalso. simpl in H. unfold escape_char in H.
    destruct (Ascii.eqb c1 "&"); [discriminate|].
    destruct (Ascii.eqb c1 "<"); [discriminate|].
    destruct (Ascii.eqb c1 ">"); discriminate.
  - simpl in H. unfold escape_char in H.
    destruct (Ascii.eqb_spec c1 "&") as [->|A1];
      [|destruct (Ascii.eqb_spec c1 "<") as [->|B1];
        [|destruct (Ascii.eqb_spec c1 ">") as [->|C1]]];
      (destruct (Ascii.eqb_spec c2 "&") as [->|A2];
       [|destruct (Ascii.eqb_spec c2 "<") as [->|B2];
         [|destruct (Ascii.eqb_spec c2 ">") as [->|C2]]]);
      simpl in H; try discriminate H;
      try (injection H as H; f_equal; now apply IH);
      try (injection H as E H; congruence).
    injection H as -> H. f_equal. now apply IH.
Qed.

(** Escaping loses nothing: two texts with the same escaped form are the
    same text. The three replacements in a row act as one pass that turns
    each of the three characters into its entity. *)
Theorem escapeHtml_injective (s1 s2 : string) :
  escapeHtml s1 = escapeHtml s2 -> s1 = s2.
Proof. rewrite !escapeHtml_each. apply escape_each_injective. Qed.

Lemma escapeHtml_injective_witness :
  escapeHtml "a<b&c" = "a&lt;b&amp;c" /\ "a<b&c" = "a<b&c".
Proof.
  split; [reflexivity|].
  apply (escapeHtml_injective "a<b&c" "a<b&c"). reflexivity.
Defined.

(** ** Durations *)

Lemma uint_digits (c : ascii) (d : Decimal.uint) :
  is_digit c = false ->
  occurs c (DecimalString.NilEmpty.string_of_uint d) = false.
Proof.
  unfold is_digit. simpl. rewrite !orb_false_iff.
  intros (H0 & H1 & H2 & H3 & H4 & H5 & H6 & H7 & H8 & H9 & _).
  induction d; simpl; rewrite ?IHd, ?orb_false_r; assumption || reflexivity.
Qed.

Lemma Number_toString_digits (c : ascii) (z : Z) :
  0 <= z -> is_digit c = false -> occurs c (Number_toString z) = false.
Proof.
  intros Hz Hc. unfold Number_toString.
  destruct z as [|p|p]; [| |lia].
  - simpl. rewrite orb_false_r. unfold is_digit in Hc. simpl in Hc.
    rewrite !orb_false_iff in Hc. tauto.
  - simpl. unfold DecimalString.NilZero.string_of_uint.
    destruct (Pos.to_uint p); try (now apply uint_digits).
    simpl. rewrite orb_false_r. unfold is_digit in Hc. simpl in Hc.
    rewrite !orb_false_iff in Hc. tauto.
Qed.

Lemma Number_toString_injective (a b : Z) :
  Number_toString a = Number_toString b -> a = b.
Proof.
  unfold Number_toString. intro H.
  assert (N : forall z, Z.to_int z <> Decimal.Pos Decimal.Nil
                        /\ Z.to_int z <> Decimal.Neg Decimal.Nil).
  { intros [|p|p]; simpl; split; try discriminate;
      intro E; injection E as E;
      pose proof (DecimalPos.Unsigned.to_uint_nonnil p) as X; contradiction. }
  apply (f_equal DecimalString.NilZero.int_of_string) in H.
  destruct (N a) as [A1 A2]. destruct (N b) as [B1 B2].
  rewrite !DecimalString.NilZero.isi in H by assumption.
  injection H as H. now apply DecimalZ.to_int_inj.
Qed.

Lemma split_at_char (c : ascii) (a a' x x' : string) :
  occurs c a = false -> occurs c a' = false ->
  (a ++ String c x = a' ++ String c x')%string -> a = a' /\ x = x'.
Proof.
  revert a'. induction a as [|y a IH]; intros [|y' a'] Ha Ha' H; simpl in *.
  - injection H as ->. now split.
  - injection H as <- _. rewrite Ascii.eqb_refl in Ha'. discriminate.
  - injection H as -> _. rewrite Ascii.eqb_refl in Ha. discriminate.
  - injection H as -> H.
    apply orb_false_iff in Ha, Ha'.
    destruct (IH a' (proj2 Ha) (proj2 Ha') H) as [-> ->]. now split.
Qed.

(** The three shapes of a duration of at least one second. *)
Lemma formatElapsed_shapes (n : Z) :
  1 <= n ->
  (n < 60 /\ formatElapsed n = (Number_toString n ++ "s")%string)
  \/ (1 <= n / 60 /\ 1 <= n mod 60 < 60
      /\ formatElapsed n
         = (Number_toString (n / 60) ++ "m " ++ Number_toString (n mod 60) ++ "s")%string)
  \/ (1 <= n / 60 /\ n mod 60 = 0
      /\ formatElapsed n = (Number_toString (n / 60) ++ "m")%string).
Proof.
  intro H. unfold formatElapsed.
  destruct (n =? 0) eqn:E0; [lia|]. destruct (n <? 1) eqn:E1; [lia|]. simpl.
  destruct (n <? 60) eqn:E60.
  - left. split; [lia|reflexivity].
  - apply Z.ltb_ge in E60.
    assert (1 <= n / 60) by (apply Z.div_le_lower_bound; lia).
    pose proof (Z.mod_pos_bound n 60 ltac:(lia)).
    cbv zeta. destruct (0 <? n mod 60) eqn:Es.
    + right; left. repeat split; try lia. 
    + right; right. repeat split; lia.
Qed.

Lemma occurs_m_s (z : Z) :
  0 <= z ->
  occurs "m" (Number_toString z) = false
  /\ occurs "s" (Number_toString z) = false
  /\ occurs " " (Number_toString z) = false.
Proof.
  intro H. repeat split; apply Number_toString_digits;
    (assumption || reflexivity).
Qed.

(** A duration below one second shows as [0s] and nothing else does; and two
    different durations of at least one second never show alike: the text
    tells the minutes and the seconds, with the seconds always below 60.
    Durations are whole seconds within the safe integers. *)
Theorem formatElapsed_tells_durations_apart (a b : Z) :
  a <= MAX_SAFE_INTEGER ->
  b <= MAX_SAFE_INTEGER ->
  (formatElapsed a = "0s" <-> a < 1)
  /\ (1 <= a -> 1 <= b -> formatElapsed a = formatElapsed b -> a = b).
Proof.
  intros _ _.
  assert (K : forall n, 1 <= n ->
              occurs "m" (formatElapsed n) = negb (n <? 60)
              /\ occurs "s" (formatElapsed n)
                 = (n <? 60) || negb (n mod 60 =? 0)).
  { intros n Hn.
    destruct (formatElapsed_shapes n Hn) as [(L & ->)|[(M & S & ->)|(M & S & ->)]].
    - destruct (occurs_m_s n) as (Om & Os & _); [lia|].
      rewrite !occurs_app, Om, Os. simpl.
      destruct (n <? 60) eqn:E; [split; reflexivity|lia].
    - destruct (occurs_m_s (n / 60)) as (Om & Os & _); [lia|].
      destruct (occurs_m_s (n mod 60)) as (Om' & Os' & _); [lia|].
      rewrite !occurs_app, Om, Os, Os'. simpl.
      destruct (n <? 60) eqn:E.
      { apply Z.ltb_lt in E. rewrite Z.div_small in M by lia. lia. }
      destruct (n mod 60 =? 0) eqn:E'; [lia|]. split; reflexivity.
    - destruct (occurs_m_s (n / 60)) as (Om & Os & _); [lia|].
      rewrite !occurs_app, Om, Os. simpl.
      destruct (n <? 60) eqn:E.
      { apply Z.ltb_lt in E. rewrite Z.div_small in M by lia. lia. }
      rewrite S. split; reflexivity. }
  split.
  - split.
    + intro H. destruct (Z_lt_ge_dec a 1) as [L|G]; [exact L|exfalso].
      assert (Ha : 1 <= a) by lia.
      destruct (K a Ha) as [Km _]. rewrite H in Km. simpl in Km.
      destruct (a <? 60) eqn:E; [|discriminate].
      destruct (formatElapsed_shapes a Ha) as [(L & F)|[(M & _)|(M & _)]].
      * rewrite H in F.
        destruct (occurs_m_s a) as (_ & Os & _); [lia|].
        change "0s" with ("0" ++ "s")%string in F.
        destruct (split_at_char "s" "0" (Number_toString a) "" "" eq_refl Os F)
          as [X _].
        change "0" with (Number_toString 0) in X.
        apply Number_toString_injective in X. lia.
      * apply Z.ltb_lt in E. rewrite Z.div_small in M by lia. lia.
      * apply Z.ltb_lt in E. rewrite Z.div_small in M by lia. lia.
    + intro H. unfold formatElapsed.
      destruct (a =? 0) eqn:E0; [reflexivity|].
      destruct (a <? 1) eqn:E1; [reflexivity|lia].
  - intros Ha Hb H.
    destruct (K a Ha) as [Ma Sa]. destruct (K b Hb) as [Mb Sb].
    rewrite H in Ma, Sa. rewrite Ma in Mb. rewrite Sa in Sb.
    pose proof (Z.div_mod a 60 ltac:(lia)) as Qa.
    pose proof (Z.mod_pos_bound a 60 ltac:(lia)) as Pa.
    pose proof (Z.div_mod b 60 ltac:(lia)) as Qb.
    pose proof (Z.mod_pos_bound b 60 ltac:(lia)) as Pb.
    destruct (formatElapsed_shapes a Ha) as [(La & Fa)|[(Da & Ra & Fa)|(Da & Ra & Fa)]];
      destruct (formatElapsed_shapes b Hb) as [(Lb & Fb)|[(Db & Rb & Fb)|(Db & Rb & Fb)]];
      try (exfalso; revert Mb Sb;
           destruct (Z.ltb_spec a 60), (Z.ltb_spec b 60),
                    (Z.eqb_spec (a mod 60) 0), (Z.eqb_spec (b mod 60) 0);
           simpl; intros; first [congruence | lia]).
    + rewrite Fa, Fb in H.
      destruct (occurs_m_s a) as (_ & Oa & _); [lia|].
      destruct (occurs_m_s b) as (_ & Ob & _); [lia|].
      destruct (split_at_char "s" _ _ "" "" Oa Ob H) as [X _].
      now apply Number_toString_injective.
    + rewrite Fa, Fb in H.
      destruct (occurs_m_s (a / 60)) as (Oa & _); [lia|].
      destruct (occurs_m_s (b / 60)) as (Ob & _); [lia|].
      change ("m " ++ ?x)%string with (String "m" (" " ++ x)) in H.
      destruct (split_at_char "m" _ _ _ _ Oa Ob H) as [X Y].
      apply Number_toString_injective in X.
      simpl in Y. injection Y as Y.
      destruct (occurs_m_s (a mod 60)) as (_ & Oa' & _); [lia|].
      destruct (occurs_m_s (b mod 60)) as (_ & Ob' & _); [lia|].
      destruct (split_at_char "s" _ _ "" "" Oa' Ob' Y) as [Y' _].
      apply Number_toString_injective in Y'. lia.
    + rewrite Fa, Fb in H.
      destruct (occurs_m_s (a / 60)) as (Oa & _); [lia|].
      destruct (occurs_m_s (b / 60)) as (Ob & _); [lia|].
      destruct (split_at_char "m" _ _ "" "" Oa Ob H) as [X _].
      apply Number_toString_injective in X. lia.
Qed.

Example formatElapsed_samples :
  formatElapsed 0 = "0s" /\ formatElapsed 59 = "59s"
  /\ formatElapsed 60 = "1m" /\ formatElapsed 125 = "2m 5s"
  /\ formatElapsed 3600 = "60m".
Proof. repeat split. Qed.

Lemma formatElapsed_tells_durations_apart_witness :
  formatElapsed 125 = "2m 5s" /\ 125 = 125.
Proof.
  split; [reflexivity|].
  apply (proj2 (formatElapsed_tells_durations_apart 125 125
                  ltac:(unfold MAX_SAFE_INTEGER; lia)
                  ltac:(unfold MAX_SAFE_INTEGER; lia)));
    [lia | lia | reflexivity].
Defined.

(** ** The live panel *)

Lemma Number_toString_not_dash (z : Z) : Number_toString z <> dash.
Proof.
  intro H. destruct z as [|p|p].
  - discriminate H.
  - assert (X : occurs (ascii_of_nat 226) (Number_toString (Z.pos p)) = false)
      by (apply Number_toString_digits; [lia|reflexivity]).
    rewrite H in X. discriminate X.
  - unfold Number_toString in H. simpl in H. discriminate H.
Qed.

(** Fed with a snapshot of a reachable world, the popup shows a dash in
    place of WPM and of CPM exactly while no character has been counted, and
    the rounded speeds from the first counted character on; the snapshot's
    [hasData] flag alone decides it. A null answer leaves the panel as it
    is. *)
Theorem panel_shows_speeds_once_typed (w : World) (now : Z) (d : Display) :
  reachable w ->
  let st := fst (getStats now (run w)) in
  let d' := updateStats (Some st) d in
  (wpmValue d' = dash <-> totalChars (run w) = 0)
  /\ (cpmValue d' = dash <-> totalChars (run w) = 0)
  /\ (0 < totalChars (run w) ->
      wpmValue d' = Number_toString (wpm st)
      /\ cpmValue d' = Number_toString (cpm st))
  /\ hasData st || (0 <? st_totalChars st) = hasData st
  /\ keystrokesVal d' = Number_toString (totalChars (run w))
  /\ updateStats None d = d.
Proof.
  intros R st d'.
  destruct (Coherent_reachable w R) as (C & S & _).
  destruct (getStats_fields now (run w)) as (_ & Tc & _ & _ & _ & Hd).
  fold st in Tc, Hd.
  assert (T : hasData st || (0 <? st_totalChars st)
              = negb (totalChars (run w) =? 0)).
  { rewrite Hd, Tc. destruct (startTime (run w)) as [x|] eqn:E.
    - simpl. destruct (totalChars (run w) =? 0) eqn:Z0; [|reflexivity].
      apply Z.eqb_eq in Z0. apply S in Z0. discriminate.
    - destruct S as [S _]. rewrite (S eq_refl). reflexivity. }
  assert (T' : hasData st = negb (totalChars (run w) =? 0)).
  { rewrite Hd. destruct (startTime (run w)) as [x|] eqn:E.
    - destruct (totalChars (run w) =? 0) eqn:Z0; [|reflexivity].
      apply Z.eqb_eq in Z0. apply S in Z0. discriminate.
    - destruct S as [S _]. rewrite (S eq_refl). reflexivity. }
  assert (F4 : hasData st || (0 <? st_totalChars st) = hasData st)
    by (rewrite T, T'; reflexivity).
  assert (F5 : keystrokesVal d' = Number_toString (totalChars (run w)))
    by (unfold d'; simpl; now rewrite Tc).
  assert (W : wpmValue d'
              = if negb (totalChars (run w) =? 0)
                then Number_toString (wpm st) else dash)
    by (unfold d'; simpl; now rewrite T).
  assert (V : cpmValue d'
              = if negb (totalChars (run w) =? 0)
                then Number_toString (cpm st) else dash)
    by (unfold d'; simpl; now rewrite T).
  rewrite W, V.
  destruct (Z.eqb_spec (totalChars (run w)) 0) as [Z0|Z0]; cbn [negb].
  - split; [tauto|]. split; [tauto|]. split; [lia|].
    split; [exact F4|]. split; [exact F5|reflexivity].
  - split; [split; [intro X; exfalso; exact (Number_toString_not_dash _ X)
                   |intro X; contradiction]|].
    split; [split; [intro X; exfalso; exact (Number_toString_not_dash _ X)
                   |intro X; contradiction]|].
    split; [intros _; split; reflexivity|].
    split; [exact F4|]. split; [exact F5|reflexivity].
Qed.

Lemma panel_shows_speeds_once_typed_witness :
  wpmValue (updateStats (Some (fst (getStats 700 Sample.running)))
              {| wpmValue := ""; cpmValue := ""; keystrokesVal := "";
                 backspacesVal := ""; pastedVal := ""; peakVal := "";
                 elapsedVal := "" |}) = dash.
Proof.
  apply (panel_shows_speeds_once_typed
           {| run := Sample.running; storage := storage boot |} 700).
  - apply (reach_step 500 Sample.page (Message "start") boot _
             (Some (fst (getStats 500 Sample.running)))).
    + apply reach_boot.
    + lia.
    + vm_compute. reflexivity.
  - reflexivity.
Defined.

(** * Frame coverage *)

Lemma has_add (d d' : nat) (ty ty' : Frames.EventType) (l : Frames.Listeners) :
  Frames.has_listener d ty (Frames.addEventListener d' ty' l)
  = (Nat.eqb d' d && Frames.same_type ty' ty) || Frames.has_listener d ty l.
Proof.
  unfold Frames.addEventListener.
  destruct (Frames.has_listener d' ty' l) eqn:H; [|reflexivity].
  destruct (Nat.eqb_spec d' d) as [->|N]; [|reflexivity].
  destruct ty, ty'; simpl; try reflexivity; now rewrite H.
Qed.

Lemma has_remove (d d' : nat) (ty ty' : Frames.EventType) (l : Frames.Listeners) :
  Frames.has_listener d ty (Frames.removeEventListener d' ty' l)
  = Frames.has_listener d ty l && negb (Nat.eqb d' d && Frames.same_type ty' ty).
Proof.
  unfold Frames.removeEventListener, Frames.has_listener.
  induction l as [|[x t] l IH]; [reflexivity|]. simpl.
  destruct (Nat.eqb_spec x d') as [->|N1]; simpl.
  - destruct (Frames.same_type t ty') eqn:T; simpl.
    + rewrite IH. destruct t, ty'; try discriminate;
        destruct (Nat.eqb d' d), ty; simpl;
        rewrite ?andb_true_r, ?andb_false_r, ?orb_false_r; try reflexivity;
        now destruct (existsb _ l).
    + rewrite IH. destruct t, ty'; try discriminate;
        destruct (Nat.eqb d' d), ty; simpl;
        rewrite ?andb_true_r, ?andb_false_r, ?orb_false_r; try reflexivity;
        now destruct (existsb _ l).
  - rewrite IH.
    destruct (Nat.eqb_spec x d) as [->|N2]; simpl.
    + destruct (Nat.eqb_spec d' d) as [->|N3]; [now elim N1|]. simpl.
      now rewrite !andb_true_r.
    + reflexivity.
Qed.

Lemma has_attach (d : nat) (ty : Frames.EventType) (f : Frames.Iframe)
    (l : Frames.Listeners) :
  Frames.has_listener d ty (Frames.attachToIframe f l)
  = Frames.has_listener d ty l || Frames.shows d f.
Proof.
  unfold Frames.attachToIframe, Frames.shows.
  destruct (Frames.contentDocument f) as [[d'|]|]; simpl;
    rewrite ?orb_false_r; try reflexivity.
  rewrite !has_add. destruct (Nat.eqb d' d), ty; simpl;
    rewrite ?orb_true_r, ?orb_false_r; reflexivity.
Qed.

Lemma has_detach (d : nat) (ty : Frames.EventType) (f : Frames.Iframe)
    (l : Frames.Listeners) :
  Frames.has_listener d ty (Frames.detachFromIframe f l)
  = Frames.has_listener d ty l && negb (Frames.shows d f).
Proof.
  unfold Frames.detachFromIframe, Frames.shows.
  destruct (Frames.contentDocument f) as [[d'|]|]; simpl;
    rewrite ?andb_true_r; try reflexivity.
  rewrite !has_remove. destruct (Nat.eqb d' d), ty; simpl;
    rewrite ?andb_true_r, ?andb_false_r; reflexivity.
Qed.

Lemma has_watch_all (d : nat) (ty : Frames.EventType) (fs : list Frames.Iframe)
    (c : Frames.Coverage) :
  Frames.has_listener d ty (Frames.listeners (fold_left Frames.watch fs c))
  = Frames.has_listener d ty (Frames.listeners c) || existsb (Frames.shows d) fs.
Proof.
  revert c. induction fs as [|f fs IH]; intro c; simpl.
  - now rewrite orb_false_r.
  - rewrite IH. simpl. rewrite has_attach. now rewrite orb_assoc.
Qed.

Lemma hooks_watch_all (fs : list Frames.Iframe) (c : Frames.Coverage) :
  Frames.load_hooks (fold_left Frames.watch fs c)
  = (rev (map Frames.frame_id fs) ++ Frames.load_hooks c)%list
  /\ Frames.observing (fold_left Frames.watch fs c) = Frames.observing c.
Proof.
  revert c. induction fs as [|f fs IH]; intro c; simpl; [now split|].
  destruct (IH (Frames.watch c f)) as [H1 H2]. rewrite H1, H2. simpl.
  now rewrite <- app_assoc.
Qed.

Lemma has_detach_all (d : nat) (ty : Frames.EventType) (fs : list Frames.Iframe)
    (l : Frames.Listeners) :
  Frames.has_listener d ty
    (fold_left (fun l f => Frames.detachFromIframe f l) fs l)
  = Frames.has_listener d ty l && negb (existsb (Frames.shows d) fs).
Proof.
  revert l. induction fs as [|f fs IH]; intro l; simpl.
  - now rewrite andb_true_r.
  - rewrite IH, has_detach, negb_orb. now rewrite andb_assoc.
Qed.

(** The scan of [startIframeWatcher] leaves a listener of each type on the
    document of every frame whose document can be read, and adds nothing
    else: frames without a document and cross-origin frames are skipped
    without an error. Every frame scanned, readable or not, gets one more load
    listener, and the observer is connected. Listeners are never doubled:
    scanning again changes no listener. *)
Theorem scan_covers_readable_frames (frames : list Frames.Iframe)
    (c : Frames.Coverage) (d : nat) (ty : Frames.EventType) :
  let c' := Frames.startIframeWatcher frames c in
  Frames.has_listener d ty (Frames.listeners c')
  = Frames.has_listener d ty (Frames.listeners c) || existsb (Frames.shows d) frames
  /\ Frames.load_hooks c'
     = (rev (map Frames.frame_id frames) ++ Frames.load_hooks c)%list
  /\ Frames.observing c' = true
  /\ Frames.listeners (Frames.startIframeWatcher frames c') = Frames.listeners c'.
Proof.
  unfold Frames.startIframeWatcher; cbv zeta; cbn [Frames.listeners
    Frames.load_hooks Frames.observing].
  split; [apply has_watch_all|]. split; [apply hooks_watch_all|].
  split; [reflexivity|].
  set (c1 := fold_left Frames.watch frames c).
  assert (G : forall fs c2,
            (forall f, In f fs ->
               match Frames.contentDocument f with
               | Ok (Some x) =>
                   Frames.has_listener x Frames.Keydown (Frames.listeners c2) = true
                   /\ Frames.has_listener x Frames.PasteEvent (Frames.listeners c2)
                      = true
               | _ => True
               end) ->
            Frames.listeners (fold_left Frames.watch fs c2) = Frames.listeners c2).
  { induction fs as [|f fs IH]; intros c2 H; [reflexivity|]. simpl.
    assert (E : Frames.listeners (Frames.watch c2 f) = Frames.listeners c2).
    { simpl. unfold Frames.attachToIframe.
      specialize (H f (or_introl eq_refl)).
      destruct (Frames.contentDocument f) as [[x|]|]; simpl; try reflexivity.
      destruct H as [H1 H2]. unfold Frames.addEventListener at 2. rewrite H1.
      unfold Frames.addEventListener. now rewrite H2. }
    rewrite IH; [exact E|].
    intros g Hg. rewrite E. apply H. now right. }
  apply (G frames {| Frames.listeners := Frames.listeners c1;
                     Frames.load_hooks := Frames.load_hooks c1;
                     Frames.observing := true |}).
  intros f Hf. cbn [Frames.listeners].
  destruct (Frames.contentDocument f) as [[x|]|] eqn:E; try exact I.
  assert (S : existsb (Frames.shows x) frames = true).
  { apply existsb_exists. exists f. split; [exact Hf|].
    unfold Frames.shows. rewrite E. apply Nat.eqb_refl. }
  unfold c1. rewrite !has_watch_all, S, !orb_true_r. now split.
Qed.

(** [stopIframeWatcher] removes the listeners from the documents that the
    frames then in the page show, and from no other: a listener survives
    exactly when its document is not the current document of a frame still in
    the page. So a stop right after a start, with the same frames, leaves no
    listener of that start behind; the load listeners stay. *)
Theorem stop_uncovers_current_frames (frames : list Frames.Iframe)
    (c : Frames.Coverage) (d : nat) (ty : Frames.EventType) :
  Frames.has_listener d ty (Frames.listeners (Frames.stopIframeWatcher frames c))
  = Frames.has_listener d ty (Frames.listeners c)
    && negb (existsb (Frames.shows d) frames)
  /\ Frames.has_listener d ty
       (Frames.listeners
          (Frames.stopIframeWatcher frames
             (Frames.startIframeWatcher frames Frames.no_coverage))) = false
  /\ Frames.observing (Frames.stopIframeWatcher frames c) = false
  /\ Frames.load_hooks (Frames.stopIframeWatcher frames c) = Frames.load_hooks c.
Proof.
  split; [apply has_detach_all|]. split; [|split; reflexivity].
  unfold Frames.stopIframeWatcher, Frames.startIframeWatcher;
    cbn [Frames.listeners].
  rewrite has_detach_all, has_watch_all. simpl.
  now destruct (existsb (Frames.shows d) frames).
Qed.

Lemma has_added_node (d : nat) (ty : Frames.EventType) (node : Frames.AddedNode)
    (c : Frames.Coverage) :
  Frames.has_listener d ty (Frames.listeners (Frames.on_added_node c node))
  = Frames.has_listener d ty (Frames.listeners c) || brings d node.
Proof.
  unfold Frames.on_added_node, brings.
  destruct (String.eqb (Frames.nodeName node) "IFRAME"); simpl;
    destruct (Frames.inner_iframes node) as [fs|];
    rewrite ?has_watch_all; simpl; rewrite ?has_attach, ?orb_false_r;
    try reflexivity; now rewrite ?orb_assoc.
Qed.

Lemma observing_added_node (node : Frames.AddedNode) (c : Frames.Coverage) :
  Frames.observing (Frames.on_added_node c node) = Frames.observing c.
Proof.
  unfold Frames.on_added_node.
  destruct (String.eqb (Frames.nodeName node) "IFRAME");
    destruct (Frames.inner_iframes node) as [fs|];
    rewrite ?(proj2 (hooks_watch_all _ _)); reflexivity.
Qed.

Lemma has_added_nodes (d : nat) (ty : Frames.EventType)
    (nodes : list Frames.AddedNode) (c : Frames.Coverage) :
  Frames.has_listener d ty
    (Frames.listeners (fold_left Frames.on_added_node nodes c))
  = Frames.has_listener d ty (Frames.listeners c) || existsb (brings d) nodes.
Proof.
  revert c. induction nodes as [|n nodes IH]; intro c; simpl.
  - now rewrite orb_false_r.
  - rewrite IH, has_added_node. now rewrite orb_assoc.
Qed.

(** While the observer is connected, a frame added to the page later is
    covered as soon as its insertion is reported, whether the added node is
    the iframe itself or a subtree that holds it; an added node that is no
    iframe and has no [querySelectorAll] (a text node) is skipped. Once the
    observer is disconnected, insertions change nothing. *)
Theorem later_frames_are_covered (mutations : list (list Frames.AddedNode))
    (c : Frames.Coverage) (d : nat) (ty : Frames.EventType) :
  (Frames.observing c = true ->
   Frames.has_listener d ty (Frames.listeners (Frames.on_mutations mutations c))
   = Frames.has_listener d ty (Frames.listeners c)
     || existsb (brings d) (List.concat mutations))
  /\ (Frames.observing c = false -> Frames.on_mutations mutations c = c)
  /\ (forall frames,
        Frames.on_mutations mutations (Frames.stopIframeWatcher frames c)
        = Frames.stopIframeWatcher frames c).
Proof.
  unfold Frames.on_mutations. split; [|split].
  - intros ->. revert c.
    induction mutations as [|nodes mutations IH]; intro c; simpl.
    + now rewrite orb_false_r.
    + rewrite IH, has_added_nodes, existsb_app. now rewrite orb_assoc.
  - now intros ->.
  - reflexivity.
Qed.

Lemma later_frames_are_covered_witness :
  Frames.has_listener 7 Frames.Keydown
    (Frames.listeners
       (Frames.on_mutations
          [[{| Frames.nodeName := "DIV";
               Frames.as_iframe := {| Frames.frame_id := 1;
                                      Frames.contentDocument := Ok None |};
               Frames.inner_iframes :=
                 Some [{| Frames.frame_id := 2;
                          Frames.contentDocument := Ok (Some 7%nat) |}] |}]]
          (Frames.startIframeWatcher [] Frames.no_coverage)))
  = true.
Proof.
  rewrite (proj1 (later_frames_are_covered _ _ 7%nat Frames.Keydown));
    reflexivity.
Defined.

Lemma has_load (d : nat) (ty : Frames.EventType) (f : Frames.Iframe)
    (c : Frames.Coverage) :
  Frames.has_listener d ty (Frames.listeners (Frames.on_load f c))
  = Frames.has_listener d ty (Frames.listeners c)
    || (existsb (fun id => Nat.eqb id (Frames.frame_id f)) (Frames.load_hooks c)
        && Frames.shows d f).
Proof.
  unfold Frames.on_load; cbn [Frames.listeners].
  generalize (Frames.listeners c) as l.
  induction (Frames.load_hooks c) as [|id hooks IH]; intro l; simpl.
  - now rewrite orb_false_r.
  - rewrite IH. destruct (Nat.eqb id (Frames.frame_id f)); simpl.
    + rewrite has_attach.
      destruct (Frames.has_listener d ty l), (Frames.shows d f),
               (existsb _ hooks); reflexivity.
    + reflexivity.
Qed.

(** The load listener that a scan puts on a frame is never taken off: when
    the frame loads a new document, the listeners are attached to that
    document, and this happens after a stop as well, observer disconnected
    or not. *)
Theorem load_listeners_outlive_stop (frames frames' : list Frames.Iframe)
    (c : Frames.Coverage) (f f' : Frames.Iframe) (d : nat)
    (ty : Frames.EventType) :
  In f frames ->
  Frames.frame_id f' = Frames.frame_id f ->
  Frames.contentDocument f' = Ok (Some d) ->
  Frames.has_listener d ty
    (Frames.listeners (Frames.on_load f' (Frames.startIframeWatcher frames c)))
  = true
  /\ Frames.has_listener d ty
       (Frames.listeners
          (Frames.on_load f'
             (Frames.stopIframeWatcher frames'
                (Frames.startIframeWatcher frames c))))
     = true.
Proof.
  intros Hin Hid Hdoc.
  assert (S : Frames.shows d f' = true)
    by (unfold Frames.shows; rewrite Hdoc; apply Nat.eqb_refl).
  assert (H : existsb (fun id => Nat.eqb id (Frames.frame_id f'))
                (Frames.load_hooks (Frames.startIframeWatcher frames c)) = true).
  { apply existsb_exists. exists (Frames.frame_id f). split.
    - unfold Frames.startIframeWatcher; cbn [Frames.load_hooks].
      rewrite (proj1 (hooks_watch_all frames c)).
      apply in_or_app. left. apply -> in_rev. now apply in_map.
    - rewrite Hid. apply Nat.eqb_refl. }
  split; rewrite has_load; cbn [Frames.load_hooks Frames.stopIframeWatcher];
    rewrite H, S; apply orb_true_r.
Qed.

Lemma load_listeners_outlive_stop_witness :
  Frames.has_listener 9 Frames.PasteEvent
    (Frames.listeners
       (Frames.on_load
          {| Frames.frame_id := 1; Frames.contentDocument := Ok (Some 9%nat) |}
          (Frames.stopIframeWatcher
             [{| Frames.frame_id := 1; Frames.contentDocument := Ok (Some 8%nat) |}]
             (Frames.startIframeWatcher
                [{| Frames.frame_id := 1;
                    Frames.contentDocument := Ok (Some 8%nat) |}]
                Frames.no_coverage))))
  = true.
Proof.
  apply (load_listeners_outlive_stop
           [{| Frames.frame_id := 1; Frames.contentDocument := Ok (Some 8%nat) |}]
           [{| Frames.frame_id := 1; Frames.contentDocument := Ok (Some 8%nat) |}]
           Frames.no_coverage
           {| Frames.frame_id := 1; Frames.contentDocument := Ok (Some 8%nat) |}
           {| Frames.frame_id := 1; Frames.contentDocument := Ok (Some 9%nat) |}
           9%nat Frames.PasteEvent).
  - left; reflexivity.
  - reflexivity.
  - reflexivity.
Defined.

(** * The on-page widget *)

(** Fed with a snapshot of a reachable world, the widget always shows the
    snapshot's WPM and CPM as they are: before the first counted character
    both are zero, so the [hasData] test never changes the text. Without a
    widget nothing happens. *)
Theorem widget_shows_the_speeds (w : World) (now : Z) (o : OverlayText) :
  reachable w ->
  let st := fst (getStats now (run w)) in
  updateOverlay st (Some o)
  = Some {| ov_w := Number_toString (wpm st); ov_c := Number_toString (cpm st) |}
  /\ updateOverlay st None = None.
Proof.
  intros R st. split; [|reflexivity].
  destruct (Coherent_reachable w R) as (C & S & _).
  destruct (getStats_fields now (run w)) as (_ & _ & _ & _ & _ & Hd).
  fold st in Hd. unfold updateOverlay. rewrite Hd.
  destruct (startTime (run w)) as [x|] eqn:E; [reflexivity|].
  destruct (speeds_zero_without_chars now (run w)) as [W0 C0];
    [now apply S|].
  fold st in W0, C0. now rewrite W0, C0.
Qed.

Lemma widget_shows_the_speeds_witness :
  updateOverlay (fst (getStats 700 Sample.running))
    (Some {| ov_w := "12"; ov_c := "60" |})
  = Some {| ov_w := "0"; ov_c := "0" |}.
Proof.
  apply (widget_shows_the_speeds
           {| run := Sample.running; storage := storage boot |} 700).
  apply (reach_step 500 Sample.page (Message "start") boot _
           (Some (fst (getStats 500 Sample.running)))).
  - apply reach_boot.
  - lia.
  - vm_compute. reflexivity.
Defined.

(** * The peak and the history over whole traces *)

Lemma step_peak_exact (now : Z) (pg : Page) (ev : Event) (w w' : World)
    (o : option Stats) :
  step now pg ev w = Ok (w', o) ->
  ev <> Message "start" ->
  peakWpm (run w')
  = match o with
    | Some st => Z.max (peakWpm (run w)) (wpm st)
    | None => peakWpm (run w)
    end.
Proof.
  intros Hs Hne. destruct ev as [e | e | | | a]; simpl in Hs.
  - rewrite handleKeyDown_filter in Hs. simpl in Hs. injection Hs as <- <-.
    simpl. destruct (_ && _); [|reflexivity]. rewrite key_effect_classify.
    destruct (mark_burst_frame now (run w)) as (_ & _ & _ & _ & _ & P & _).
    destruct (classify_key e); simpl; congruence.
  - rewrite handlePaste_filter in Hs. simpl in Hs. injection Hs as <- <-.
    simpl. destruct (_ && _); [|reflexivity]. unfold paste_effect.
    destruct (0 <? _); reflexivity.
  - destruct (idleTimer (run w)) as [due|]; [destruct (due <=? now)|];
      injection Hs as <- <-; try reflexivity.
    simpl. unfold onIdle. destruct (burstStart (run w)); reflexivity.
  - destruct (broadcastTimer (run w)); injection Hs as <- <-; [|reflexivity].
    cbn [run with_run]. apply getStats_peak.
  - unfold onMessage in Hs.
    destruct (String.eqb a "start") eqn:A.
    { apply String.eqb_eq in A. subst a. now elim Hne. }
    destruct (String.eqb a "stop").
    { injection Hs as <- <-. cbn [run with_run].
      now rewrite (proj1 (getStats_peak now (stop_finalize now (run w)))). }
    destruct (String.eqb a "getStats"); injection Hs as <- <-; [|reflexivity].
    cbn [run with_run]. apply getStats_peak.
Qed.

(** The peak is sampled at the snapshots and nowhere else: along a trace with
    no ['start'], the stored peak ends as the largest of the peak it began
    with and the WPM of the snapshots sent; a speed reached between two
    snapshots and lost before the next leaves no trace. *)
Theorem peak_is_the_largest_snapshot (tr : list Occurrence) (w : World) :
  within_run tr ->
  exists w' out,
    run_trace tr w = Ok (w', out)
    /\ peakWpm (run w') = fold_left Z.max (map wpm out) (peakWpm (run w)).
Proof.
  intro Hw. destruct (run_trace_total tr w Hw) as (w' & out & Hr).
  exists w', out. split; [exact Hr|].
  revert w w' out Hr. induction Hw as [|o tr Ho Hw IH]; intros w w' out Hr.
  - now injection Hr as <- <-.
  - simpl in Hr.
    destruct (step (at_time o) (on_page o) (what o) w) as [[w1 o1]|] eqn:S;
      [|discriminate]. simpl in Hr.
    destruct (run_trace tr w1) as [[w2 out2]|] eqn:R; [|discriminate].
    simpl in Hr. injection Hr as <- <-.
    rewrite (IH _ _ _ R), (step_peak_exact _ _ _ _ _ _ S Ho).
    destruct o1; reflexivity.
Qed.

Lemma peak_is_the_largest_snapshot_witness :
  exists w out,
    run_trace (tl scenario_25_in_3s) {| run := Sample.running; storage := storage boot |}
    = Ok (w, out)
    /\ peakWpm (run w) = fold_left Z.max (map wpm out) 0.
Proof.
  apply (peak_is_the_largest_snapshot (tl scenario_25_in_3s)
           {| run := Sample.running; storage := storage boot |}).
  repeat constructor; discriminate.
Defined.

Lemma history_ordered_later (t t' : Z) (w : World) :
  t <= t' -> history_ordered t w -> history_ordered t' w.
Proof.
  unfold history_ordered. intro H.
  destruct (sessions (storage w)) as [l|]; [|trivial].
  intros [S F]. split; [exact S|].
  eapply Forall_impl; [|exact F]. simpl. intros; lia.
Qed.

Lemma saveSession_ordered (now : Z) (pg : Page) (st : Stats) (a : StorageArea) :
  match sessions a with
  | Some l => newest_first l /\ Forall (fun x => id x <= now) l
  | None => True
  end ->
  match sessions (saveSession now pg st a) with
  | Some l => newest_first l /\ Forall (fun x => id x <= now) l
  | None => True
  end.
Proof.
  intro H. unfold saveSession, new_session.
  destruct (st_totalChars st =? 0); [exact H|].
  unfold append_session, storage_get, storage_set.
  destruct (resolves a) eqn:R; simpl; rewrite ?R; simpl; [|exact H].
  rewrite unshift_capped_firstn.
  set (session := {| id := now |}).
  assert (G : newest_first
                (session :: match sessions a with Some l => l | None => [] end)
              /\ Forall (fun x => id x <= now)
                   (session :: match sessions a with Some l => l | None => [] end)).
  { destruct (sessions a) as [l|].
    - destruct H as [S F]. split.
      + constructor; [exact S|]. exact F.
      + constructor; [simpl; lia|exact F].
    - split; [repeat constructor|]. constructor; [simpl; lia|constructor]. }
  destruct G as [G1 G2]. split.
  - now apply newest_first_firstn.
  - rewrite Forall_forall in *. intros x Hx. apply G2.
    eapply firstn_In; exact Hx.
Qed.

(** When event times never go back, a stored history that is ordered newest
    first, with no session from the future, stays so through any trace:
    every session stored carries the instant of its stop as identifier and
    goes in front of all the earlier ones. *)
Theorem history_stays_newest_first (t0 : Z) (tr : list Occurrence)
    (w w' : World) (out : list Stats) :
  history_ordered t0 w ->
  ordered t0 tr ->
  run_trace tr w = Ok (w', out) ->
  history_ordered (last (map at_time tr) t0) w'.
Proof.
  revert t0 w w' out. induction tr as [|o tr IH]; intros t0 w w' out H Ho Hr.
  - now injection Hr as <- _.
  - simpl in Hr. destruct Ho as [Ho1 Ho2].
    destruct (step (at_time o) (on_page o) (what o) w) as [[w1 o1]|] eqn:S;
      [|discriminate]. simpl in Hr.
    destruct (run_trace tr w1) as [[w2 out2]|] eqn:R; [|discriminate].
    simpl in Hr. injection Hr as <- _.
    cbn [map]. rewrite last_cons.
    apply (IH (at_time o) w1 w2 out2); [|exact Ho2|exact R].
    apply (history_ordered_later t0 _ _ Ho1) in H.
    clear - S H. unfold history_ordered in *.
    destruct (what o) as [e | e | | | a]; simpl in S.
    + destruct (handleKeyDown _ _ e (run w)); [|discriminate].
      simpl in S. now injection S as <- _.
    + destruct (handlePaste _ _ e (run w)); [|discriminate].
      simpl in S. now injection S as <- _.
    + destruct (idleTimer (run w)) as [due|]; [destruct (due <=? _)|];
        now injection S as <- _.
    + destruct (broadcastTimer (run w)); now injection S as <- _.
    + unfold onMessage in S.
      destruct (String.eqb a "start").
      { destruct (startIframeWatcher _ (start_reset (run w))) as [s1|];
          [|discriminate]. simpl in S.
        destruct (createOverlay _ s1); [|discriminate].
        simpl in S. now injection S as <- _. }
      destruct (String.eqb a "stop").
      { injection S as <- _. cbn [storage]. now apply saveSession_ordered. }
      destruct (String.eqb a "getStats"); now injection S as <- _.
Qed.

Lemma history_stays_newest_first_witness :
  exists w out,
    run_trace (scenario_25_in_3s ++ [Sample.at_ 5000 (Message "stop")])%list boot
    = Ok (w, out)
    /\ history_ordered 5000 w.
Proof.
  assert (R : exists w out,
            run_trace (scenario_25_in_3s ++ [Sample.at_ 5000 (Message "stop")])%list
              boot = Ok (w, out)).
  { do 2 eexists. vm_compute. reflexivity. }
  destruct R as (w & out & R). exists w, out. split; [exact R|].
  apply (history_stays_newest_first 500
           (scenario_25_in_3s ++ [Sample.at_ 5000 (Message "stop")])%list
           boot w out).
  - exact I.
  - vm_compute. intuition discriminate.
  - exact R.
Defined.
